(** * Large network analysis tools: chunked parallel route-pair solver

    A shallow embedding of [helpers.py] and [parallel_route_pairs.py].

    - Python values are inductive types, dictionaries are [gmap]s, lists are
      lists, and a call that can raise returns a [Res]: a value or the
      exception raised.
    - What [uuid], [os] and [arcpy] do for a job is given by a record
      [Route.Arcpy]: the job id, the tables and fields it reads, the defaults
      and the verdicts of the solver, and for each engine call of the job
      whether it raises.  Cursors over the tables are total: the destinations
      cursor selects the rows whose id equals the value in the where clause,
      and [insertRow] appends.
    - The main process acts on a [Calculator.World]: the feature classes by
      catalog path and the lines its logger writes to stdout.  What the
      futures deliver is a list of results or exceptions in the order of
      completion.  The per-job log files are not modelled.
    - [rt_config.py] is not part of the sources at hand: [RT_PROPS] and
      [RT_PROPS_SET_BY_TOOL] are section variables. *)

From Stdlib Require Import ZArith Lia Ascii.
From stdpp Require Import base numbers option list gmap strings pretty sorting.

Open Scope Z_scope.

(** ** Python runtime: exceptions and results *)

Module Py.

(** The exceptions the scripts raise or let through. *)
Inductive Exn : Type :=
| ValueError (msg : string)
| KeyError (key : string)
| IndexError
| AttributeError (msg : string)
| InvalidConfiguration
| ExecuteError (msg : string)       (* raised by the arcpy engine *)
| BrokenProcessPool (msg : string). (* raised while retrieving a future *)

#[global] Instance Exn_eq_dec : EqDecision Exn.
Proof. solve_decision. Defined.

(** The outcome of running a Python call: a value or a raised exception. *)
Inductive Res (A : Type) : Type :=
| Ret (a : A)
| Raise (e : Exn).
Arguments Ret {A} a.
Arguments Raise {A} e.

(** Sequencing: a raised exception skips the rest of the block. *)
#[global] Instance Res_ret : MRet Res := fun A a => Ret a.
#[global] Instance Res_bind : MBind Res := fun A B k m =>
  match m with
  | Ret a => k a
  | Raise e => Raise e
  end.

End Py.

Import Py.

(** ** helpers.py *)

Module Helpers.

(** A chunk is the list [[low, high]] of two ObjectIDs. *)
Definition Chunk : Type := Z * Z.

(** Modelled from the spec: the body of the Chunk Planner, which is not part
    of [helpers.py].  The chunks from row [low] on: each takes
    [max_chunk_size] rows, the last one what is left, as in the spec's example
    of 208 rows in chunks of 50.  Every chunk holds at least one row, so as
    many rounds as there are rows are enough. *)
Fixpoint plan_from (rounds : nat) (low total_row_count max_chunk_size : Z)
  : list Chunk :=
  match rounds with
  | O => []
  | S rounds' =>
      if total_row_count <? low then []
      else
        let high := Z.min (low + max_chunk_size - 1) total_row_count in
        (low, high) :: plan_from rounds' (high + 1) total_row_count max_chunk_size
  end.

(** Modelled from the spec: [helpers.get_oid_ranges_for_input] is called by
    [ParallelRoutePairCalculator.__init__] and exercised by
    [test_get_oid_ranges_for_input], but its body is not part of
    [helpers.py].  The spec's Chunk Planner is
    [plan(total_row_count, max_chunk_size)]: ascending gap-free chunks from
    index 1, none larger than the maximum, the empty sequence for no rows,
    and [InvalidConfiguration] for a maximum that is not positive.  The
    input feature class is represented by its row count. *)
Definition get_oid_ranges_for_input (total_row_count max_chunk_size : Z)
  : Res (list Chunk) :=
  if max_chunk_size <=? 0 then Raise InvalidConfiguration
  else Ret (plan_from (Z.to_nat total_row_count) 1 total_row_count max_chunk_size).

(** [chained start cs last]: the chunks [cs] are non-empty ranges, the first
    one starts at [start], each next one starts right after the previous one
    ends, and the last one ends at [last]. *)
Fixpoint chained (start : Z) (cs : list Chunk) (last : Z) : Prop :=
  match cs with
  | [] => last = start - 1
  | (low, high) :: rest => low = start /\ low <= high /\ chained (high + 1) rest last
  end.

Definition in_chunk (i : Z) (c : Chunk) : Prop := c.1 <= i <= c.2.

Definition chunk_size (c : Chunk) : Z := c.2 - c.1 + 1.

Definition MSG_STR_SPLITTER : string := " | ".

(** [s.split(sep)] for a non-empty separator: the pieces between the
    occurrences of [sep], found from left to right without overlap.  [cur]
    is the piece being read and [skip] counts the characters of a separator
    that was just recognised and is still to be passed over. *)
Fixpoint split_go (sep : string) (skip : nat) (cur : string) (s : string)
  : list string :=
  match s with
  | EmptyString => [cur]
  | String c s' =>
      match skip with
      | S k => split_go sep k cur s'
      | O =>
          if String.prefix sep s
          then cur :: split_go sep (String.length sep - 1) "" s'
          else split_go sep 0 (cur +:+ String c "") s'
      end
  end.

Definition split (sep s : string) : list string := split_go sep 0 "" s.

(** [level, msg = parts]: unpacking into exactly two names. *)
Definition unpack2 (parts : list string) : Res (string * string) :=
  match parts with
  | [level; msg] => Ret (level, msg)
  | [] | [_] =>
      Raise (ValueError ("not enough values to unpack (expected 2, got "
                           +:+ pretty (length parts) +:+ ")"))
  | _ => Raise (ValueError "too many values to unpack (expected 2)")
  end.

(** The geoprocessing message window: what [arcpy.AddError],
    [arcpy.AddWarning] and [arcpy.AddMessage] have written so far. *)
Inductive GPSeverity : Type := GPError | GPWarning | GPInfo.

Definition GPWindow : Type := list (GPSeverity * string).

Definition AddError (msg : string) (ui : GPWindow) : GPWindow := ui ++ [(GPError, msg)].
Definition AddWarning (msg : string) (ui : GPWindow) : GPWindow := ui ++ [(GPWarning, msg)].
Definition AddMessage (msg : string) (ui : GPWindow) : GPWindow := ui ++ [(GPInfo, msg)].

(** [parse_std_and_write_to_gp_ui]: the [try] block, then the handler of
    [except Exception], which catches whatever the block raised. *)
Definition parse_std_and_write_to_gp_ui (msg_string : string) (ui : GPWindow)
  : Res GPWindow :=
  let try_block : Res GPWindow :=
    '(level, msg) ← unpack2 (split MSG_STR_SPLITTER msg_string);
    if bool_decide (level ∈ ["ERROR"; "CRITICAL"]) then Ret (AddError msg ui)
    else if bool_decide (level = "WARNING") then Ret (AddWarning msg ui)
    else Ret (AddMessage msg ui) in
  match try_block with
  | Ret ui' => Ret ui'
  | Raise _ => Ret (AddMessage msg_string ui)
  end.

(** The sink the docstring assigns to a level: errors for [ERROR] and
    [CRITICAL], warnings for [WARNING], plain messages for anything else. *)
Definition sink_of_level (level : string) : GPSeverity :=
  if bool_decide (level = "ERROR" \/ level = "CRITICAL") then GPError
  else if bool_decide (level = "WARNING") then GPWarning
  else GPInfo.

(** Text without the character [|], so without a separator in it. *)
Fixpoint no_bar (s : string) : bool :=
  match s with
  | EmptyString => true
  | String c s' => negb (bool_decide (c = "|"%char)) && no_bar s'
  end.

(** [is_nds_service]: a network data source that is a string starting with
    [http]; anything else is taken to be a network dataset layer. *)
Definition is_nds_service (network_data_source : string + string) : bool :=
  match network_data_source with
  | inl url_or_path => String.prefix "http" url_or_path
  | inr _layer => false
  end.

End Helpers.

(** ** File paths *)

Module OsPath.

Definition sep : string := "\".

Fixpoint endswith_sep (p : string) : bool :=
  match p with
  | EmptyString => false
  | String c EmptyString => bool_decide (String c "" = sep)
  | String _ rest => endswith_sep rest
  end.

(** [os.path.join(a, b)] for a relative component [b], which is all the
    scripts join: job ids, ["scratch.gdb"], log and feature class names. *)
Definition join (a b : string) : string :=
  if bool_decide (a = "") || endswith_sep a then a +:+ b
  else a +:+ sep +:+ b.

(** The directory part [os.path.join] puts in front of a relative name. *)
Definition dir_prefix (a : string) : string :=
  if bool_decide (a = "") || endswith_sep a then a else a +:+ sep.

End OsPath.

(** ** parallel_route_pairs.py: the [Route] class and [solve_route] *)

Module Route.
Import Helpers.

(** Python values that travel through the job: ids, property values, cells. *)
Inductive Value : Type :=
| VNone
| VInt (z : Z)
| VStr (s : string)
| VObj (repr : string).   (* geometries, enums, datetimes, travel modes *)

#[global] Instance Value_eq_dec : EqDecision Value.
Proof. solve_decision. Defined.

Definition Value_to_sum (v : Value) : unit + Z + string + string :=
  match v with
  | VNone => inl (inl (inl tt))
  | VInt z => inl (inl (inr z))
  | VStr s => inl (inr s)
  | VObj r => inr r
  end.

Definition Value_of_sum (x : unit + Z + string + string) : Value :=
  match x with
  | inl (inl (inl _)) => VNone
  | inl (inl (inr z)) => VInt z
  | inl (inr s) => VStr s
  | inr r => VObj r
  end.

#[global] Instance Value_countable : Countable Value.
Proof. apply (inj_countable' Value_to_sum Value_of_sum). by intros []. Defined.

(** [f"{v}"] *)
Definition fstr (v : Value) : string :=
  match v with
  | VNone => "None"
  | VInt z => pretty z
  | VStr s => s
  | VObj r => r
  end.

(** An [arcpy.Field]: name, type and length. *)
Record Field : Type := { f_name : string; f_type : string; f_length : Z }.

(** A row of the origins cursor
    [["SHAPE@", origin_id_field, assigned_dest_field] + origin_transfer_fields],
    with the ObjectID the chunk selects on. *)
Record OriginRow : Type :=
  { o_oid : Z; o_shape : Value; o_id : Value; o_assigned : Value;
    o_transfer : list Value }.

(** A row of the destinations cursor
    [["SHAPE@", dest_id_field] + destination_transfer_fields]. *)
Record DestRow : Type :=
  { d_shape : Value; d_id : Value; d_transfer : list Value }.

(** A row inserted into the solver's Stops:
    [[RouteName, Sequence, OriginUniqueID, SHAPE@, DestinationUniqueID] + fields]. *)
Record StopRow : Type :=
  { RouteName : string; Sequence : Z; OriginUniqueID : Value; SHAPE : Value;
    DestinationUniqueID : Value; transferred : list Value }.

#[global] Instance StopRow_eq_dec : EqDecision StopRow.
Proof. solve_decision. Defined.

(** The [arcpy.nax.Route] solver object. *)
Record Solver : Type :=
  { props : gmap string Value;          (* its properties, by name *)
    added_fields : list (list Value);   (* addFields on Stops *)
    stops : list StopRow;               (* rows of the Stops input *)
    loaded_barriers : list (string * string) }.

Definition set_props (f : gmap string Value -> gmap string Value) (s : Solver) : Solver :=
  {| props := f (props s); added_fields := added_fields s; stops := stops s;
     loaded_barriers := loaded_barriers s |}.

(** [solveMessages] starts as the string [""] and becomes a list. *)
Inductive Messages : Type :=
| MsgText (text : string)
| MsgList (msgs : list string).

(** The [job_result] dictionary. *)
Record JobResult : Type :=
  { jobId : string; jobFolder : string; solveSucceeded : bool;
    solveMessages : Messages; outputRoutes : string; logFile : string }.

(** The keyword arguments a [Route] is built from. *)
Record Inputs : Type :=
  { kw_origins : string; kw_origin_id_field : string; kw_assigned_dest_field : string;
    kw_destinations : string; kw_dest_id_field : string;
    kw_network_data_source : string + string;
    kw_travel_mode : Value; kw_time_units : Value; kw_distance_units : Value;
    kw_time_of_day : Value; kw_reverse_direction : bool; kw_scratch_folder : string;
    kw_origin_transfer_fields : list string;
    kw_destination_transfer_fields : list string;
    kw_barriers : option (list string) }.

(** The engine calls of a job that can fail on their own. *)
Inductive Step : Type :=
| OsMkdir | MakeNetworkDatasetLayer | MakeOriginsLayer | NewRouteSolver
| MakeDestinationsLayer | AddFields | LoadBarriers (barrier_fc : string)
| SolverSolve | CreateFileGDB | ExportRoutes | ExportStops
| JoinField (in_field join_field : string).

(** What the job's process gets from [uuid], [os] and [arcpy]. *)
Record Arcpy : Type :=
  { uuid4_hex : string;
    fault : Step -> option Exn;
    origins_table : list OriginRow;
    destinations_table : list DestRow;
    origin_id_fields : list Field;  (* ListFields(origins layer, origin_id_field) *)
    dest_id_fields : list Field;    (* ListFields(destinations layer, dest_id_field) *)
    engine_defaults : gmap string Value;
    setattr_fault : string -> Value -> option Exn;
    barrier_shape_type : string -> string;
    solve_outcome : list StopRow -> bool * list string }.

Definition call (arcpy : Arcpy) (st : Step) : Res unit :=
  match fault arcpy st with
  | Some e => Raise e
  | None => Ret tt
  end.

(** The attributes of a [Route] instance. *)
Record t : Type :=
  { kwargs : Inputs;
    barriers : list string;
    job_id : string;
    job_folder : string;
    log_file : string;
    is_service : bool;
    rt_solver : option Solver;
    solve_result : option (bool * list string);
    input_origins_layer : list OriginRow;
    job_result : JobResult }.

Definition with_rt_solver (s : Solver) (self : t) : t :=
  {| kwargs := kwargs self; barriers := barriers self; job_id := job_id self;
     job_folder := job_folder self; log_file := log_file self;
     is_service := is_service self; rt_solver := Some s;
     solve_result := solve_result self;
     input_origins_layer := input_origins_layer self;
     job_result := job_result self |}.

Definition with_solve_result (r : bool * list string) (self : t) : t :=
  {| kwargs := kwargs self; barriers := barriers self; job_id := job_id self;
     job_folder := job_folder self; log_file := log_file self;
     is_service := is_service self; rt_solver := rt_solver self;
     solve_result := Some r;
     input_origins_layer := input_origins_layer self;
     job_result := job_result self |}.

Definition with_input_origins_layer (rows : list OriginRow) (self : t) : t :=
  {| kwargs := kwargs self; barriers := barriers self; job_id := job_id self;
     job_folder := job_folder self; log_file := log_file self;
     is_service := is_service self; rt_solver := rt_solver self;
     solve_result := solve_result self;
     input_origins_layer := rows;
     job_result := job_result self |}.

Definition with_job_result (f : JobResult -> JobResult) (self : t) : t :=
  {| kwargs := kwargs self; barriers := barriers self; job_id := job_id self;
     job_folder := job_folder self; log_file := log_file self;
     is_service := is_service self; rt_solver := rt_solver self;
     solve_result := solve_result self;
     input_origins_layer := input_origins_layer self;
     job_result := f (job_result self) |}.

Definition set_solveMessages (m : Messages) (r : JobResult) : JobResult :=
  {| jobId := jobId r; jobFolder := jobFolder r; solveSucceeded := solveSucceeded r;
     solveMessages := m; outputRoutes := outputRoutes r; logFile := logFile r |}.

Definition set_solveSucceeded (b : bool) (r : JobResult) : JobResult :=
  {| jobId := jobId r; jobFolder := jobFolder r; solveSucceeded := b;
     solveMessages := solveMessages r; outputRoutes := outputRoutes r;
     logFile := logFile r |}.

Definition set_outputRoutes (p : string) (r : JobResult) : JobResult :=
  {| jobId := jobId r; jobFolder := jobFolder r; solveSucceeded := solveSucceeded r;
     solveMessages := solveMessages r; outputRoutes := p; logFile := logFile r |}.

(** [Route.__init__] with [_make_nds_layer]: the job id, the job folder, the
    network dataset layer for a local network (made unless the process has
    it already), the initial result. *)
Definition __init__ (arcpy : Arcpy) (kw : Inputs) : Res t :=
  let job_id := uuid4_hex arcpy in
  let job_folder := OsPath.join (kw_scratch_folder kw) job_id in
  _ ← call arcpy OsMkdir;
  let log_file := OsPath.join job_folder "RoutePairs.log" in
  let is_service := is_nds_service (kw_network_data_source kw) in
  _ ← (if is_service then Ret tt else call arcpy MakeNetworkDatasetLayer);
  Ret {| kwargs := kw;
         barriers := default [] (kw_barriers kw);
         job_id := job_id;
         job_folder := job_folder;
         log_file := log_file;
         is_service := is_service;
         rt_solver := None;
         solve_result := None;
         input_origins_layer := [];
         job_result :=
           {| jobId := job_id; jobFolder := job_folder; solveSucceeded := false;
              solveMessages := MsgText ""; outputRoutes := "";
              logFile := log_file |} |}.

(** [_select_inputs]: the origins whose ObjectID lies in the chunk. *)
Definition _select_inputs (arcpy : Arcpy) (origins_criteria : Chunk) (self : t)
  : Res t :=
  _ ← call arcpy MakeOriginsLayer;
  Ret (with_input_origins_layer
         (filter (fun r => origins_criteria.1 <= o_oid r <= origins_criteria.2)
                 (origins_table arcpy))
         self).

(** [setattr(self.rt_solver, prop, value)] *)
Definition setattr (arcpy : Arcpy) (prop : string) (value : Value) (s : Solver)
  : Res Solver :=
  match setattr_fault arcpy prop value with
  | Some e => Raise e
  | None => Ret (set_props (insert prop value) s)
  end.

Definition field_types : gmap string string :=
  list_to_map [("String", "TEXT"); ("Single", "FLOAT"); ("Double", "DOUBLE");
               ("SmallInteger", "SHORT"); ("Integer", "LONG"); ("OID", "LONG")].

Definition origin_unique_id_field_name : string := "OriginUniqueID".
Definition dest_unique_id_field_name : string := "DestinationUniqueID".

(** The definition of a unique-id field on Stops from [ListFields(...)[0]]:
    [[name, field_types[type]]], plus alias and length for a text field. *)
Definition unique_id_field_def (unique_name : string) (fields : list Field)
  : Res (list Value) :=
  id_field ← match fields with
             | [] => Raise IndexError
             | f :: _ => Ret f
             end;
  field_type ← match field_types !! f_type id_field with
               | Some ty => Ret ty
               | None => Raise (KeyError (f_type id_field))
               end;
  let field_def := [VStr unique_name; VStr field_type] in
  Ret (if bool_decide (f_type id_field = "String")
       then field_def ++ [VStr unique_name; VInt (f_length id_field)]
       else field_def).

(** The destinations cursor with [where_clause = f"{dest_id_field} = {dest_val}"]
    and [next(cur)]: the first destination whose id is [dest_id], if any. *)
Definition next_destination (arcpy : Arcpy) (dest_id : Value) : option DestRow :=
  head (filter (fun d => d_id d = dest_id) (destinations_table arcpy)).

Definition route_name (reverse_direction : bool) (origin : OriginRow) (dest_id : Value)
  : string :=
  if reverse_direction
  then fstr dest_id +:+ " - " +:+ fstr (o_id origin)
  else fstr (o_id origin) +:+ " - " +:+ fstr dest_id.

Definition origin_sequence (reverse_direction : bool) : Z :=
  if reverse_direction then 2 else 1.

Definition destination_sequence (reverse_direction : bool) : Z :=
  if reverse_direction then 1 else 2.

Definition origin_row (reverse_direction : bool) (origin : OriginRow) (dest_id : Value)
  : StopRow :=
  {| RouteName := route_name reverse_direction origin dest_id;
     Sequence := origin_sequence reverse_direction;
     OriginUniqueID := o_id origin; SHAPE := o_shape origin;
     DestinationUniqueID := VNone; transferred := o_transfer origin |}.

Definition destination_row (reverse_direction : bool) (origin : OriginRow)
           (dest_id : Value) (destination : DestRow) : StopRow :=
  {| RouteName := route_name reverse_direction origin dest_id;
     Sequence := destination_sequence reverse_direction;
     OriginUniqueID := VNone; SHAPE := d_shape destination;
     DestinationUniqueID := d_id destination; transferred := d_transfer destination |}.

(** The loop over the origins cursor.  [destinations] is the dictionary of
    destination rows found so far, [inserted] the rows given to
    [icur.insertRow], [destination_rows] the list kept for later. *)
Fixpoint insert_origins (arcpy : Arcpy) (reverse_direction : bool)
         (origins : list OriginRow) (destinations : gmap Value DestRow)
         (inserted destination_rows : list StopRow)
  : list StopRow * list StopRow :=
  match origins with
  | [] => (inserted, destination_rows)
  | origin :: rest =>
      let dest_id := o_assigned origin in
      if bool_decide (dest_id = VNone)
      then insert_origins arcpy reverse_direction rest destinations inserted destination_rows
      else
        let found :=
          match destinations !! dest_id with
          | Some destination => Some (destinations, destination)
          | None =>
              match next_destination arcpy dest_id with
              | Some row => Some (<[dest_id := row]> destinations, row)
              | None => None
              end
          end in
        match found with
        | None =>
            insert_origins arcpy reverse_direction rest destinations inserted destination_rows
        | Some (destinations', destination) =>
            insert_origins arcpy reverse_direction rest destinations'
              (inserted ++ [origin_row reverse_direction origin dest_id])
              (destination_rows
                 ++ [destination_row reverse_direction origin dest_id destination])
        end
  end.

Definition the_solver (self : t) : Res Solver :=
  match rt_solver self with
  | Some s => Ret s
  | None => Raise (AttributeError "'NoneType' object has no attribute")
  end.

(** [_insert_stops]: the origin rows go in through the first insert cursor
    as they are met, the destination rows through the second one afterwards. *)
Definition _insert_stops (arcpy : Arcpy) (self : t) : Res t :=
  _ ← call arcpy MakeDestinationsLayer;
  origin_field_def ←
    unique_id_field_def origin_unique_id_field_name (origin_id_fields arcpy);
  dest_field_def ←
    unique_id_field_def dest_unique_id_field_name (dest_id_fields arcpy);
  s ← the_solver self;
  _ ← call arcpy AddFields;
  let '(inserted, destination_rows) :=
    insert_origins arcpy (kw_reverse_direction (kwargs self))
                   (input_origins_layer self) ∅ [] [] in
  Ret (with_rt_solver
         {| props := props s;
            added_fields := added_fields s ++ [origin_field_def; dest_field_def];
            stops := (stops s ++ inserted) ++ destination_rows;
            loaded_barriers := loaded_barriers s |}
         self).

Definition barrier_class_type (shape_type : string) : option string :=
  if bool_decide (shape_type = "Polygon") then Some "PolygonBarriers"
  else if bool_decide (shape_type = "Polyline") then Some "LineBarriers"
  else if bool_decide (shape_type = "Point") then Some "PointBarriers"
  else None.

Fixpoint load_barriers (arcpy : Arcpy) (todo : list string) (s : Solver) : Res Solver :=
  match todo with
  | [] => Ret s
  | barrier_fc :: rest =>
      match barrier_class_type (barrier_shape_type arcpy barrier_fc) with
      | None => load_barriers arcpy rest s
      | Some class_type =>
          _ ← call arcpy (LoadBarriers barrier_fc);
          load_barriers arcpy rest
            {| props := props s; added_fields := added_fields s; stops := stops s;
               loaded_barriers := loaded_barriers s ++ [(class_type, barrier_fc)] |}
      end
  end.

Definition chunk_name (prefix : string) (origins_criteria : Chunk) : string :=
  prefix +:+ pretty origins_criteria.1 +:+ "_" +:+ pretty origins_criteria.2.

Definition output_routes (job_folder : string) (origins_criteria : Chunk) : string :=
  OsPath.join (OsPath.join job_folder "scratch.gdb") (chunk_name "Routes_" origins_criteria).

Definition _export_to_feature_class (arcpy : Arcpy) (origins_criteria : Chunk) (self : t)
  : Res t :=
  _ ← call arcpy CreateFileGDB;
  _ ← call arcpy ExportRoutes;
  _ ← call arcpy ExportStops;
  let first_stop_field :=
    if kw_reverse_direction (kwargs self)
    then dest_unique_id_field_name else origin_unique_id_field_name in
  let second_stop_field :=
    if kw_reverse_direction (kwargs self)
    then origin_unique_id_field_name else dest_unique_id_field_name in
  _ ← call arcpy (JoinField "FirstStopOID" first_stop_field);
  _ ← call arcpy (JoinField "LastStopOID" second_stop_field);
  Ret (with_job_result
         (set_outputRoutes (output_routes (job_folder self) origins_criteria)) self).

Definition hex_digits : list ascii := String.list_ascii_of_string "0123456789abcdef".

Fixpoint all_hex (s : string) : bool :=
  match s with
  | EmptyString => true
  | String c rest => bool_decide (c ∈ hex_digits) && all_hex rest
  end.

(** What [uuid.uuid4().hex] returns: 32 hexadecimal digits. *)
Definition is_uuid_hex (s : string) : Prop :=
  String.length s = 32%nat /\ all_hex s = true.

(** The destination an origin is routed to: none for a null assignment,
    else the first destination row carrying the assigned id. *)
Definition matched (arcpy : Arcpy) (origin : OriginRow) : option DestRow :=
  if bool_decide (o_assigned origin = VNone) then None
  else next_destination arcpy (o_assigned origin).

Definition matched_pairs (arcpy : Arcpy) (origins : list OriginRow)
  : list (OriginRow * DestRow) :=
  omap (fun o => (fun d => (o, d)) <$> matched arcpy o) origins.

Definition origin_rows (reverse_direction : bool) (pairs : list (OriginRow * DestRow))
  : list StopRow :=
  (fun od => origin_row reverse_direction od.1 (o_assigned od.1)) <$> pairs.

Definition destination_rows (reverse_direction : bool) (pairs : list (OriginRow * DestRow))
  : list StopRow :=
  (fun od => destination_row reverse_direction od.1 (o_assigned od.1) od.2) <$> pairs.

(** The assigned destination id of the origin is on no destination row. *)
Definition absent_destination (arcpy : Arcpy) (origin : OriginRow) : Prop :=
  forall d, d ∈ destinations_table arcpy -> d_id d <> o_assigned origin.

(** The solver does not refuse the four properties the caller controls. *)
Definition accepts_caller_props (arcpy : Arcpy) (kw : Inputs) : Prop :=
  setattr_fault arcpy "travelMode" (kw_travel_mode kw) = None
  /\ setattr_fault arcpy "timeUnits" (kw_time_units kw) = None
  /\ setattr_fault arcpy "distanceUnits" (kw_distance_units kw) = None
  /\ setattr_fault arcpy "timeOfDay" (kw_time_of_day kw) = None.

(** The engine calls of [_insert_stops] succeed and both id fields exist with
    a type that [field_types] knows. *)
Definition id_field_ok (fields : list Field) : Prop :=
  exists f rest, fields = f :: rest /\ is_Some (field_types !! f_type f).

Definition stops_setup_ok (arcpy : Arcpy) : Prop :=
  fault arcpy MakeDestinationsLayer = None
  /\ fault arcpy AddFields = None
  /\ id_field_ok (origin_id_fields arcpy)
  /\ id_field_ok (dest_id_fields arcpy).

(** Nothing raises on the way from creating the job to inserting its stops. *)
Definition job_setup_ok (arcpy : Arcpy) (kw : Inputs) : Prop :=
  fault arcpy OsMkdir = None
  /\ (is_nds_service (kw_network_data_source kw) = false ->
      fault arcpy MakeNetworkDatasetLayer = None)
  /\ fault arcpy MakeOriginsLayer = None
  /\ fault arcpy NewRouteSolver = None
  /\ accepts_caller_props arcpy kw
  /\ stops_setup_ok arcpy.

Section Config.
(** [rt_config.RT_PROPS], in the order of the dictionary, and
    [rt_config.RT_PROPS_SET_BY_TOOL]. *)
Variable RT_PROPS : list (string * Value).
Variable RT_PROPS_SET_BY_TOOL : list string.

(** The loop over [RT_PROPS]: properties handled by the tool are skipped,
    a property the solver refuses keeps its default. *)
Fixpoint set_config_props (arcpy : Arcpy) (todo : list (string * Value))
         (s : Solver) : Solver :=
  match todo with
  | [] => s
  | (prop, value) :: rest =>
      if bool_decide (prop ∈ RT_PROPS_SET_BY_TOOL)
      then set_config_props arcpy rest s
      else
        match setattr arcpy prop value s with
        | Ret s' => set_config_props arcpy rest s'
        | Raise _ => set_config_props arcpy rest s
        end
  end.

Definition initialize_rt_solver (arcpy : Arcpy) (self : t) : Res t :=
  _ ← call arcpy NewRouteSolver;
  let s := {| props := engine_defaults arcpy; added_fields := []; stops := [];
              loaded_barriers := [] |} in
  let s := set_config_props arcpy RT_PROPS s in
  s ← setattr arcpy "travelMode" (kw_travel_mode (kwargs self)) s;
  s ← setattr arcpy "timeUnits" (kw_time_units (kwargs self)) s;
  s ← setattr arcpy "distanceUnits" (kw_distance_units (kwargs self)) s;
  s ← setattr arcpy "timeOfDay" (kw_time_of_day (kwargs self)) s;
  Ret (with_rt_solver s self).

(** [Route.solve] *)
Definition solve (arcpy : Arcpy) (origins_criteria : Chunk) (self : t) : Res t :=
  self ← _select_inputs arcpy origins_criteria self;
  self ← initialize_rt_solver arcpy self;
  self ← _insert_stops arcpy self;
  s ← the_solver self;
  if bool_decide (List.length (stops s) = 0%nat) then Ret self
  else
    s ← load_barriers arcpy (barriers self) s;
    let self := with_rt_solver s self in
    _ ← call arcpy SolverSolve;
    let result := solve_outcome arcpy (stops s) in
    let self := with_solve_result result self in
    let self := with_job_result (set_solveMessages (MsgList result.2)) self in
    if negb result.1 then Ret self
    else
      let self := with_job_result (set_solveSucceeded true) self in
      _export_to_feature_class arcpy origins_criteria self.

(** The first three steps of [solve]: selection, solver set-up, insertion. *)
Definition insert_chunk_stops (arcpy : Arcpy) (chunk : Chunk) (self : t) : Res t :=
  self ← _select_inputs arcpy chunk self;
  self ← initialize_rt_solver arcpy self;
  _insert_stops arcpy self.

Definition chunk_origins (arcpy : Arcpy) (chunk : Chunk) : list OriginRow :=
  filter (fun r => chunk.1 <= o_oid r <= chunk.2) (origins_table arcpy).

(** [solve_route(inputs, chunk)]: what the worker process runs. *)
Definition solve_route (arcpy : Arcpy) (inputs : Inputs) (chunk : Chunk)
  : Res JobResult :=
  rt ← __init__ arcpy inputs;
  rt ← solve arcpy chunk rt;
  Ret (job_result rt).

(** The three layers of the solver configuration, as the spec names them:
    the properties the caller controls, the entries of the static table that
    take effect (not handled by the tool, accepted by the solver), and the
    engine defaults; a layer to the left takes precedence. *)
Definition caller_props (kw : Inputs) : gmap string Value :=
  <["timeOfDay" := kw_time_of_day kw]>
    (<["distanceUnits" := kw_distance_units kw]>
       (<["timeUnits" := kw_time_units kw]>
          {["travelMode" := kw_travel_mode kw]})).

Definition static_props (arcpy : Arcpy) : gmap string Value :=
  list_to_map
    (filter (fun pv => (pv.1 ∉ RT_PROPS_SET_BY_TOOL) /\ setattr_fault arcpy pv.1 pv.2 = None)
            RT_PROPS).

Definition merged_props (arcpy : Arcpy) (kw : Inputs) : gmap string Value :=
  caller_props kw ∪ static_props arcpy ∪ engine_defaults arcpy.

End Config.

End Route.

(** ** parallel_route_pairs.py: [ParallelRoutePairCalculator] *)

Module Calculator.
Import Helpers Route.

(** The main process logger: records at [LOG_LEVEL] or above are written to
    stdout as [levelname + MSG_STR_SPLITTER + message]. *)
Inductive Level : Type := DEBUG | INFO | WARNING | ERROR | CRITICAL.

Definition levelno (l : Level) : Z :=
  match l with
  | DEBUG => 10 | INFO => 20 | WARNING => 30 | ERROR => 40 | CRITICAL => 50
  end.

Definition levelname (l : Level) : string :=
  match l with
  | DEBUG => "DEBUG" | INFO => "INFO" | WARNING => "WARNING" | ERROR => "ERROR"
  | CRITICAL => "CRITICAL"
  end.

Definition LOG_LEVEL : Level := INFO.

Definition DELETE_INTERMEDIATE_OUTPUTS : bool := true.

(** A feature class: its fields, its spatial reference and its rows, each
    row a geometry and the values of the fields. *)
Record FeatureClass : Type :=
  { fields : list Field; spatialReference : Value;
    rows : list (Value * list Value) }.

(** What the main process acts on: the feature classes by catalog path and
    the lines written to stdout. *)
Record World : Type :=
  { catalog : gmap string FeatureClass; stdout : list string }.

Definition LOGGER (lvl : Level) (msg : string) (w : World) : World :=
  if bool_decide (levelno LOG_LEVEL <= levelno lvl)
  then {| catalog := catalog w;
          stdout := stdout w ++ [levelname lvl +:+ MSG_STR_SPLITTER +:+ msg] |}
  else w.

Definition with_catalog (c : gmap string FeatureClass) (w : World) : World :=
  {| catalog := c; stdout := stdout w |}.

(** The attributes of the calculator the run reads and writes. *)
Record t : Type :=
  { origins_fields : list Field;        (* arcpy.ListFields(self.origins) *)
    destinations_fields : list Field;   (* arcpy.ListFields(self.destinations) *)
    out_routes : string;
    scratch_folder : string;
    max_processes : Z;
    rt_inputs : Inputs;
    route_fcs : list string;
    origin_ranges : list Chunk;
    total_jobs : Z }.

Definition with_route_fcs (fcs : list string) (self : t) : t :=
  {| origins_fields := origins_fields self;
     destinations_fields := destinations_fields self;
     out_routes := out_routes self; scratch_folder := scratch_folder self;
     max_processes := max_processes self; rt_inputs := rt_inputs self;
     route_fcs := fcs; origin_ranges := origin_ranges self;
     total_jobs := total_jobs self |}.

Definition with_rt_inputs (kw : Inputs) (self : t) : t :=
  {| origins_fields := origins_fields self;
     destinations_fields := destinations_fields self;
     out_routes := out_routes self; scratch_folder := scratch_folder self;
     max_processes := max_processes self; rt_inputs := kw;
     route_fcs := route_fcs self; origin_ranges := origin_ranges self;
     total_jobs := total_jobs self |}.

Definition set_origin_transfer_fields (l : list string) (kw : Inputs) : Inputs :=
  {| kw_origins := kw_origins kw; kw_origin_id_field := kw_origin_id_field kw;
     kw_assigned_dest_field := kw_assigned_dest_field kw;
     kw_destinations := kw_destinations kw; kw_dest_id_field := kw_dest_id_field kw;
     kw_network_data_source := kw_network_data_source kw;
     kw_travel_mode := kw_travel_mode kw; kw_time_units := kw_time_units kw;
     kw_distance_units := kw_distance_units kw; kw_time_of_day := kw_time_of_day kw;
     kw_reverse_direction := kw_reverse_direction kw;
     kw_scratch_folder := kw_scratch_folder kw;
     kw_origin_transfer_fields := l;
     kw_destination_transfer_fields := kw_destination_transfer_fields kw;
     kw_barriers := kw_barriers kw |}.

Definition set_destination_transfer_fields (l : list string) (kw : Inputs) : Inputs :=
  {| kw_origins := kw_origins kw; kw_origin_id_field := kw_origin_id_field kw;
     kw_assigned_dest_field := kw_assigned_dest_field kw;
     kw_destinations := kw_destinations kw; kw_dest_id_field := kw_dest_id_field kw;
     kw_network_data_source := kw_network_data_source kw;
     kw_travel_mode := kw_travel_mode kw; kw_time_units := kw_time_units kw;
     kw_distance_units := kw_distance_units kw; kw_time_of_day := kw_time_of_day kw;
     kw_reverse_direction := kw_reverse_direction kw;
     kw_scratch_folder := kw_scratch_folder kw;
     kw_origin_transfer_fields := kw_origin_transfer_fields kw;
     kw_destination_transfer_fields := l;
     kw_barriers := kw_barriers kw |}.

(** [f"{names}"] for a list of strings. *)
Definition repr_list (names : list string) : string :=
  "[" +:+ String.concat ", " ((fun n => "'" +:+ n +:+ "'") <$> names) +:+ "]".

Definition int_types : list string := ["Integer"; "SmallInteger"].
Definition numerical_types : list string := ["Double"; "Single"] ++ int_types.

Definition rt_stops_input_fields : gmap string (list string) :=
  list_to_map
    [("Name", ["String"]); ("AdditionalTime", numerical_types);
     ("AdditionalDistance", numerical_types); ("AdditionalCost", numerical_types);
     ("TimeWindowStart", ["Date"]); ("TimeWindowEnd", ["Date"]);
     ("CurbApproach", int_types); ("Bearing", numerical_types);
     ("BearingTol", numerical_types); ("NavLatency", numerical_types);
     ("SourceID", int_types); ("SourceOID", int_types);
     ("PosAlong", numerical_types); ("SideOfEdge", int_types)].

(** [f.name in rt_stops_input_fields and f.type in rt_stops_input_fields[f.name]] *)
Definition transferable (f : Field) : bool :=
  match rt_stops_input_fields !! f_name f with
  | Some types => bool_decide (f_type f ∈ types)
  | None => false
  end.

Definition transfer_fields (fs : list Field) : list string :=
  f_name <$> filter (fun f => transferable f = true) fs.

Definition _populate_input_data_transfer_fields (self : t) (w : World) : t * World :=
  let origin_transfer_fields := transfer_fields (origins_fields self) in
  let self := with_rt_inputs
                (set_origin_transfer_fields origin_transfer_fields (rt_inputs self)) self in
  let w := if bool_decide (origin_transfer_fields = []) then w
           else LOGGER INFO
                  ("Supported fields in the input Origins table that will be used in the analysis: "
                     +:+ repr_list origin_transfer_fields) w in
  let destination_transfer_fields := transfer_fields (destinations_fields self) in
  let self := with_rt_inputs
                (set_destination_transfer_fields destination_transfer_fields (rt_inputs self))
                self in
  let w := if bool_decide (destination_transfer_fields = []) then w
           else LOGGER INFO
                  ("Supported fields in the input Destinations table that will be used in the analysis: "
                     +:+ repr_list destination_transfer_fields) w in
  (self, w).

(** [sorted(paths)]: ascending in the order of [str].  The order is total
    and antisymmetric, so the sorted list does not depend on the sorting
    algorithm. *)
Definition sorted (paths : list string) : list string :=
  merge_sort String.le paths.

Fixpoint index_of (n : string) (names : list string) : option nat :=
  match names with
  | [] => None
  | x :: rest => if bool_decide (x = n) then Some 0%nat else S <$> index_of n rest
  end.

Definition describe (c : gmap string FeatureClass) (path : string) : Res FeatureClass :=
  match c !! path with
  | Some fc => Ret fc
  | None => Raise (ExecuteError ("Dataset " +:+ path +:+ " does not exist"))
  end.

(** One cell of [arcpy.da.SearchCursor(fc, field_names)]: the geometry for
    the token [SHAPE@], else the value of the field of that name. *)
Definition read_cell (fc : FeatureClass) (row : Value * list Value) (n : string)
  : Res Value :=
  if bool_decide (n = "SHAPE@") then Ret row.1
  else
    match index_of n (f_name <$> fields fc) ≫= (fun i => row.2 !! i) with
    | Some v => Ret v
    | None => Raise (ExecuteError ("Cannot find field '" +:+ n +:+ "'"))
    end.

Fixpoint mapM {A B} (f : A -> Res B) (l : list A) : Res (list B) :=
  match l with
  | [] => Ret []
  | x :: rest => y ← f x; ys ← mapM f rest; Ret (y :: ys)
  end.

Definition SearchCursor (c : gmap string FeatureClass) (path : string)
           (field_names : list string) : Res (list (list Value)) :=
  fc ← describe c path;
  mapM (fun row => mapM (read_cell fc row) field_names) (rows fc).

(** [cur.insertRow(row)] on [arcpy.da.InsertCursor(out, field_names)]: the
    new row takes, for the geometry and for each field, the value at the
    position of its name among [field_names]. *)
Definition insertRow (field_names : list string) (row : list Value) (out : FeatureClass)
  : FeatureClass :=
  let cell n := default VNone (index_of n field_names ≫= (fun i => row !! i)) in
  {| fields := fields out; spatialReference := spatialReference out;
     rows := rows out ++ [(cell "SHAPE@", (fun f => cell (f_name f)) <$> fields out)] |}.

(** The loop [for fc in self.route_fcs] of [_post_process_route_fcs]. *)
Fixpoint append_route_fcs (out_routes : string) (field_names : list string)
         (todo : list string) (c : gmap string FeatureClass)
  : gmap string FeatureClass * option Exn :=
  match todo with
  | [] => (c, None)
  | fc :: rest =>
      match SearchCursor c fc field_names with
      | Raise e => (c, Some e)
      | Ret read =>
          append_route_fcs out_routes field_names rest
            (alter (fun out => foldl (fun o row => insertRow field_names row o) out read)
                   out_routes c)
      end
  end.

(** [_post_process_route_fcs]: the output is created from the first feature
    class as template, then filled from all of them in order. *)
Definition _post_process_route_fcs (self : t) (c : gmap string FeatureClass)
  : gmap string FeatureClass * option Exn :=
  match route_fcs self with
  | [] => (c, Some IndexError)
  | template :: _ =>
      match describe c template with
      | Raise e => (c, Some e)
      | Ret desc =>
          let c := <[out_routes self :=
                       {| fields := fields desc;
                          spatialReference := spatialReference desc;
                          rows := [] |}]> c in
          let field_names := "SHAPE@" :: (f_name <$> fields desc) in
          append_route_fcs (out_routes self) field_names (route_fcs self) c
      end
  end.

(** [shutil.rmtree(folder, ignore_errors=True)] as the catalog sees it: what
    lies under the folder is gone. *)
Definition rmtree (folder : string) (c : gmap string FeatureClass)
  : gmap string FeatureClass :=
  filter (fun kv => ¬ String.prefix (OsPath.join folder "") kv.1 = true) c.

(** The field list of the cursors of [_post_process_route_fcs] for a template. *)
Definition cursor_fields (fc : FeatureClass) : list string :=
  "SHAPE@" :: (f_name <$> fields fc).

(** A schema as a feature class has it: distinct field names, none of them
    the geometry token. *)
Definition valid_schema (schema : list Field) : Prop :=
  NoDup (f_name <$> schema) /\ "SHAPE@" ∉ f_name <$> schema.

(** The feature class at [path] has the schema [schema], and rows that fit it. *)
Definition job_output (c : gmap string FeatureClass) (schema : list Field)
           (path : string) (fc : FeatureClass) : Prop :=
  c !! path = Some fc /\ fields fc = schema
  /\ Forall (fun row => length row.2 = length schema) (rows fc).

(** The output paths of the solves that succeeded, in the order of completion. *)
Definition succeeded_outputs (results : list JobResult) : list string :=
  outputRoutes <$> filter (fun r => solveSucceeded r = true) results.

Section Run.
Variable RT_PROPS : list (string * Value).
Variable RT_PROPS_SET_BY_TOOL : list string.
(** [traceback.format_exc().splitlines()] for the exception being handled. *)
Variable format_exc : Exn -> list string.

Definition log_traceback (e : Exn) (w : World) : World :=
  foldl (fun w err => LOGGER ERROR err w) w (format_exc e).

(** [_validate_route_settings]: a throwaway [Route] is built and its
    solver initialised; an exception is logged and raised again. *)
Definition _validate_route_settings (arcpy : Arcpy) (self : t) (w : World)
  : World * option Exn :=
  let w := LOGGER DEBUG "Validating Route settings..." w in
  match __init__ arcpy (rt_inputs self) with
  | Raise e =>
      let w := LOGGER ERROR "Error initializing Route analysis." w in
      (log_traceback e w, Some e)
  | Ret rt =>
      match initialize_rt_solver RT_PROPS RT_PROPS_SET_BY_TOOL arcpy rt with
      | Raise e =>
          let w := LOGGER ERROR "Error initializing Route analysis." w in
          let w := log_traceback e w in
          (LOGGER DEBUG "Deleting temporary test Route job folder..." w, Some e)
      | Ret _ =>
          let w := LOGGER DEBUG "Route settings successfully validated." w in
          (LOGGER DEBUG "Deleting temporary test Route job folder..." w, None)
      end
  end.

(** The loop [for future in futures.as_completed(jobs)]: [completions]
    holds, in the order the jobs complete, what [future.result()] gives. *)
Fixpoint drain (completions : list (Res JobResult)) (completed_jobs : Z)
         (self : t) (w : World) : t * World * option Exn :=
  match completions with
  | [] => (self, w, None)
  | future :: rest =>
      let completed_jobs := completed_jobs + 1 in
      let w := LOGGER INFO ("Finished Route calculation " +:+ pretty completed_jobs
                              +:+ " of " +:+ pretty (total_jobs self) +:+ ".") w in
      match future with
      | Raise e =>
          let w := LOGGER ERROR "Failed to get Route result from parallel processing." w in
          (self, log_traceback e w, Some e)
      | Ret result =>
          if solveSucceeded result
          then drain rest completed_jobs
                     (with_route_fcs (route_fcs self ++ [outputRoutes result]) self) w
          else
            let w := LOGGER DEBUG ("Solve failed for job id " +:+ jobId result +:+ ".") w in
            let w := LOGGER DEBUG (match solveMessages result with
                                   | MsgText text => text
                                   | MsgList msgs => repr_list msgs
                                   end) w in
            drain rest completed_jobs self w
      end
  end.

(** [solve_route_in_parallel]: the calculator and the world after the run,
    and the exception the run raised, if any. *)
Definition solve_route_in_parallel (arcpy : Arcpy)
           (completions : list (Res JobResult)) (self : t) (w : World)
  : t * World * option Exn :=
  match _validate_route_settings arcpy self w with
  | (w, Some e) => (self, w, Some e)
  | (w, None) =>
      let '(self, w) := _populate_input_data_transfer_fields self w in
      match drain completions 0 self w with
      | (self, w, Some e) => (self, w, Some e)
      | (self, w, None) =>
          let '(self, w, raised) :=
            if bool_decide (route_fcs self = [])
            then (self,
                  LOGGER WARNING "All Route solves failed, so no output was produced." w,
                  None)
            else
              let w := LOGGER INFO "Post-processing Route results..." w in
              let self := with_route_fcs (sorted (route_fcs self)) self in
              let '(c, raised) := _post_process_route_fcs self (catalog w) in
              (self, with_catalog c w, raised) in
          match raised with
          | Some e => (self, w, Some e)
          | None =>
              let w :=
                if DELETE_INTERMEDIATE_OUTPUTS
                then
                  let w := LOGGER INFO "Deleting intermediate outputs..." w in
                  with_catalog (rmtree (scratch_folder self) (catalog w)) w
                else w in
              (self, LOGGER INFO "Finished calculating Routes." w, None)
          end
      end
  end.

End Run.

End Calculator.

(** ** helpers.py: unit conversions, input validation, network locations *)

Module HelperTools.
Import Helpers Route Calculator.

Definition DISTANCE_UNITS : list string :=
  ["Kilometers"; "Meters"; "Miles"; "Yards"; "Feet"; "NauticalMiles"].

Definition TIME_UNITS : list string := ["Days"; "Hours"; "Minutes"; "Seconds"].

(** [OUTPUT_FORMATS] as the module builds it for the installed version:
    [arcgis_version >= "2.9"] compares the two strings. *)
Definition OUTPUT_FORMATS (arcgis_version : string) : list string :=
  ["Feature class"; "CSV files"]
    ++ (if bool_decide (String.le "2.9" arcgis_version) then ["Apache Arrow files"] else []).

(** [str.lower()] on ASCII text: the letters A to Z move to a to z, every
    other character stays. *)
Definition lower_char (c : ascii) : ascii :=
  let n := N_of_ascii c in
  if ((65 <=? n) && (n <=? 90))%N then ascii_of_N (n + 32) else c.

Fixpoint lower (s : string) : string :=
  match s with
  | EmptyString => EmptyString
  | String c rest => String (lower_char c) (lower rest)
  end.

Fixpoint is_ascii (s : string) : bool :=
  match s with
  | EmptyString => true
  | String c rest => (N_of_ascii c <? 128)%N && is_ascii rest
  end.

(** [arcpy.nax.TimeUnits] and [arcpy.nax.DistanceUnits], with their [name]. *)
Inductive TimeUnits : Type := Days | Hours | Minutes | Seconds.

Definition TimeUnits_name (u : TimeUnits) : string :=
  match u with
  | Days => "Days" | Hours => "Hours" | Minutes => "Minutes" | Seconds => "Seconds"
  end.

Inductive DistanceUnits : Type :=
| Kilometers | Meters | Miles | Yards | Feet | NauticalMiles.

Definition DistanceUnits_name (u : DistanceUnits) : string :=
  match u with
  | Kilometers => "Kilometers" | Meters => "Meters" | Miles => "Miles"
  | Yards => "Yards" | Feet => "Feet" | NauticalMiles => "NauticalMiles"
  end.

(** The strings a unit answers to: its name in lower case, and for nautical
    miles also the two-word spelling. *)
Definition DistanceUnits_spellings (u : DistanceUnits) : list string :=
  match u with
  | NauticalMiles => ["nauticalmiles"; "nautical miles"]
  | _ => [lower (DistanceUnits_name u)]
  end.

(** The enum [OutputFormat] of [helpers.py]. *)
Inductive OutputFormat : Type := featureclass | csv | arrow.

Definition OutputFormat_value (f : OutputFormat) : Z :=
  match f with
  | featureclass => 1 | csv => 2 | arrow => 3
  end.

(** The entry of [OUTPUT_FORMATS] that stands for a format. *)
Definition OutputFormat_label (f : OutputFormat) : string :=
  match f with
  | featureclass => "Feature class" | csv => "CSV files" | arrow => "Apache Arrow files"
  end.

(** A helper that writes to the geoprocessing window and may raise: the
    window afterwards and the outcome. *)
Definition GP (A : Type) : Type := GPWindow -> GPWindow * Res A.

(** The common end of the three conversions: [arcpy.AddError(err)] and
    [raise ValueError(err)]. *)
Definition invalid {A} (err : string) : GP A :=
  fun ui => (AddError err ui, Raise (ValueError err)).

Definition convert_time_units_str_to_enum (time_units : string) : GP TimeUnits :=
  fun ui =>
    if bool_decide (lower time_units = "minutes") then (ui, Ret Minutes)
    else if bool_decide (lower time_units = "seconds") then (ui, Ret Seconds)
    else if bool_decide (lower time_units = "hours") then (ui, Ret Hours)
    else if bool_decide (lower time_units = "days") then (ui, Ret Days)
    else invalid ("Invalid time units: " +:+ time_units) ui.

Definition convert_distance_units_str_to_enum (distance_units : string)
  : GP DistanceUnits :=
  fun ui =>
    if bool_decide (lower distance_units = "miles") then (ui, Ret Miles)
    else if bool_decide (lower distance_units = "kilometers") then (ui, Ret Kilometers)
    else if bool_decide (lower distance_units = "meters") then (ui, Ret Meters)
    else if bool_decide (lower distance_units = "feet") then (ui, Ret Feet)
    else if bool_decide (lower distance_units = "yards") then (ui, Ret Yards)
    else if bool_decide (lower distance_units = "nauticalmiles")
            || bool_decide (lower distance_units = "nautical miles")
         then (ui, Ret NauticalMiles)
    else invalid ("Invalid distance units: " +:+ distance_units) ui.

Definition convert_output_format_str_to_enum (output_format : string)
  : GP OutputFormat :=
  fun ui =>
    if bool_decide (lower output_format = "feature class") then (ui, Ret featureclass)
    else if bool_decide (lower output_format = "csv files") then (ui, Ret csv)
    else if bool_decide (lower output_format = "apache arrow files") then (ui, Ret arrow)
    else invalid ("Invalid output format: " +:+ output_format) ui.

(** [validate_input_feature_class]: [arcpy.Exists] and the row count of
    [arcpy.management.GetCount] are read off the catalog. *)
Definition validate_input_feature_class (c : gmap string FeatureClass)
           (feature_class : string) : GP unit :=
  fun ui =>
    match c !! feature_class with
    | None => invalid ("Input dataset " +:+ feature_class +:+ " does not exist.") ui
    | Some fc =>
        if bool_decide (Z.of_nat (length (rows fc)) <= 0)
        then invalid ("Input dataset " +:+ feature_class +:+ " has no rows.") ui
        else (ui, Ret tt)
    end.

(** The arguments [precalculate_network_locations] hands to
    [arcpy.na.CalculateLocations]. *)
Record CalculateLocations : Type :=
  { in_point_features : string; in_network_dataset : string;
    search_tolerance : Value; search_query : Value; cl_travel_mode : Value }.

Section Locations.
(** [value.name], which a value that is no enum member does not have. *)
Variable name_of : Value -> Res string.

(** [precalculate_network_locations], up to the call of the tool. *)
Definition precalculate_network_locations (input_features network_data_source : string)
           (travel_mode : Value) (config_file_props : gmap string Value)
  : GP CalculateLocations :=
  fun ui =>
    let ui := AddMessage ("Precalculating network location fields for "
                            +:+ input_features +:+ "...") ui in
    let tolerance : Res Value :=
      match config_file_props !! "searchTolerance",
            config_file_props !! "searchToleranceUnits" with
      | Some tolerance, Some units =>
          units_name ← name_of units;
          Ret (VStr (fstr tolerance +:+ " " +:+ units_name))
      | _, _ => Ret VNone
      end in
    (ui,
     search_tolerance ← tolerance;
     Ret {| in_point_features := input_features;
            in_network_dataset := network_data_source;
            search_tolerance := search_tolerance;
            search_query := default VNone (config_file_props !! "search_query");
            cl_travel_mode := travel_mode |}).

End Locations.

End HelperTools.

(** ** parallel_route_pairs.py: [ParallelRoutePairCalculator.__init__] *)

Module CalculatorInit.
Import Helpers Route Calculator HelperTools.

(** The arguments of the constructor. *)
Record Args : Type :=
  { a_origins : string; a_origin_id_field : string; a_assigned_dest_field : string;
    a_destinations : string; a_dest_id_field : string;
    a_network_data_source : string + string; a_travel_mode : Value;
    a_time_units : string; a_distance_units : string;
    a_max_routes : Z; a_max_processes : Z; a_out_routes : string;
    a_reverse_direction : bool; a_scratch_folder : string;
    a_time_of_day : option string; a_barriers : option (list string) }.

(** The enum members as the values handed to the jobs. *)
Definition TimeUnits_value (u : TimeUnits) : Value :=
  VObj ("TimeUnits." +:+ TimeUnits_name u).

Definition DistanceUnits_value (u : DistanceUnits) : Value :=
  VObj ("DistanceUnits." +:+ DistanceUnits_name u).

Section Init.
(** [datetime.datetime.strptime(text, helpers.DATETIME_FORMAT)] *)
Variable strptime : string -> Res Value.
(** The number of rows of the origins, which the chunk planner works from,
    and the fields [arcpy.ListFields] reports for the two inputs. *)
Variable origins_row_count : Z.
Variable origins_ListFields destinations_ListFields : list Field.

Definition __init__ (args : Args) : GP Calculator.t :=
  fun ui =>
    match convert_time_units_str_to_enum (a_time_units args) ui with
    | (ui, Raise e) => (ui, Raise e)
    | (ui, Ret time_units) =>
        match convert_distance_units_str_to_enum (a_distance_units args) ui with
        | (ui, Raise e) => (ui, Raise e)
        | (ui, Ret distance_units) =>
            let barriers := default [] (a_barriers args) in
            let time_of_day : Res Value :=
              match a_time_of_day args with
              | None => Ret VNone
              | Some text => if bool_decide (text = "") then Ret VNone else strptime text
              end in
            (ui,
             time_of_day ← time_of_day;
             origin_ranges ← get_oid_ranges_for_input origins_row_count (a_max_routes args);
             Ret {| origins_fields := origins_ListFields;
                    destinations_fields := destinations_ListFields;
                    out_routes := a_out_routes args;
                    scratch_folder := a_scratch_folder args;
                    max_processes := a_max_processes args;
                    rt_inputs :=
                      {| kw_origins := a_origins args;
                         kw_origin_id_field := a_origin_id_field args;
                         kw_assigned_dest_field := a_assigned_dest_field args;
                         kw_destinations := a_destinations args;
                         kw_dest_id_field := a_dest_id_field args;
                         kw_network_data_source := a_network_data_source args;
                         kw_travel_mode := a_travel_mode args;
                         kw_time_units := TimeUnits_value time_units;
                         kw_distance_units := DistanceUnits_value distance_units;
                         kw_time_of_day := time_of_day;
                         kw_reverse_direction := a_reverse_direction args;
                         kw_scratch_folder := a_scratch_folder args;
                         kw_origin_transfer_fields := [];
                         kw_destination_transfer_fields := [];
                         kw_barriers := Some barriers |};
                    route_fcs := [];
                    origin_ranges := origin_ranges;
                    total_jobs := Z.of_nat (length origin_ranges) |})
        end
    end.

End Init.

End CalculatorInit.

(** ** The engine calls of a job after the stops are in *)

Module RouteSteps.
Import Helpers Route.

(** The barriers the loop of [solve] loads, each under the class of its
    shape type; a barrier of another shape type is passed over. *)
Definition valid_barriers (arcpy : Arcpy) (barriers : list string)
  : list (string * string) :=
  omap (fun barrier_fc =>
          (fun class_type => (class_type, barrier_fc))
            <$> barrier_class_type (barrier_shape_type arcpy barrier_fc))
       barriers.

(** Loading succeeds for every barrier that is loaded. *)
Definition barriers_ok (arcpy : Arcpy) (barriers : list string) : Prop :=
  forall class_type barrier_fc,
    (class_type, barrier_fc) ∈ valid_barriers arcpy barriers ->
    fault arcpy (LoadBarriers barrier_fc) = None.

(** The engine calls of [_export_to_feature_class], in the order made. *)
Definition export_steps (reverse_direction : bool) : list Step :=
  [CreateFileGDB; ExportRoutes; ExportStops;
   JoinField "FirstStopOID" (if reverse_direction then dest_unique_id_field_name
                             else origin_unique_id_field_name);
   JoinField "LastStopOID" (if reverse_direction then origin_unique_id_field_name
                            else dest_unique_id_field_name)].

Definition export_ok (arcpy : Arcpy) (reverse_direction : bool) : Prop :=
  forall st, st ∈ export_steps reverse_direction -> fault arcpy st = None.

(** The stops of a chunk: the origin rows of its matched pairs, then the
    destination rows. *)
Definition chunk_stops (arcpy : Arcpy) (kw : Inputs) (chunk : Chunk) : list StopRow :=
  origin_rows (kw_reverse_direction kw) (matched_pairs arcpy (chunk_origins arcpy chunk))
    ++ destination_rows (kw_reverse_direction kw)
                        (matched_pairs arcpy (chunk_origins arcpy chunk)).

(** The [job_result] a new job starts with. *)
Definition initial_job_result (arcpy : Arcpy) (kw : Inputs) : JobResult :=
  {| jobId := uuid4_hex arcpy;
     jobFolder := OsPath.join (kw_scratch_folder kw) (uuid4_hex arcpy);
     solveSucceeded := false; solveMessages := MsgText ""; outputRoutes := "";
     logFile := OsPath.join (OsPath.join (kw_scratch_folder kw) (uuid4_hex arcpy))
                            "RoutePairs.log" |}.

(** The job as [Route.__init__] leaves it. *)
Definition started (arcpy : Arcpy) (kw : Inputs) : Route.t :=
  {| kwargs := kw; barriers := default [] (kw_barriers kw);
     job_id := uuid4_hex arcpy;
     job_folder := OsPath.join (kw_scratch_folder kw) (uuid4_hex arcpy);
     log_file := OsPath.join (OsPath.join (kw_scratch_folder kw) (uuid4_hex arcpy))
                             "RoutePairs.log";
     is_service := is_nds_service (kw_network_data_source kw);
     rt_solver := None; solve_result := None; input_origins_layer := [];
     job_result := initial_job_result arcpy kw |}.

End RouteSteps.

(** ** Sample data *)

Module Samples.
Import Helpers Route Calculator.

Definition arcpy_ok : Arcpy :=
  {| uuid4_hex := "0f3a9c5e7b1d4f68a2c4e6f80b1d3f57";
     fault := fun _ => None;
     origins_table :=
       [ {| o_oid := 1; o_shape := VObj "pt1"; o_id := VInt 11; o_assigned := VStr "A";
            o_transfer := [] |};
         {| o_oid := 2; o_shape := VObj "pt2"; o_id := VInt 12; o_assigned := VStr "Z";
            o_transfer := [] |};
         {| o_oid := 3; o_shape := VObj "pt3"; o_id := VInt 13; o_assigned := VStr "A";
            o_transfer := [] |};
         {| o_oid := 4; o_shape := VObj "pt4"; o_id := VInt 14; o_assigned := VNone;
            o_transfer := [] |} ];
     destinations_table :=
       [ {| d_shape := VObj "ptA"; d_id := VStr "A"; d_transfer := [] |};
         {| d_shape := VObj "ptB"; d_id := VStr "B"; d_transfer := [] |} ];
     origin_id_fields := [ {| f_name := "ID"; f_type := "Integer"; f_length := 4 |} ];
     dest_id_fields := [ {| f_name := "NAME"; f_type := "String"; f_length := 20 |} ];
     engine_defaults :=
       {[ "travelMode" := VStr "Driving Time"; "allowSaveRouteData" := VObj "True" ]};
     setattr_fault := fun prop _ =>
       if bool_decide (prop = "searchTolerance")
       then Some (ValueError "unsupported") else None;
     barrier_shape_type := fun _ => "Point";
     solve_outcome := fun stops => (true, ["Solve succeeded"]) |}.

Definition inputs_ok : Inputs :=
  {| kw_origins := "origins"; kw_origin_id_field := "ID";
     kw_assigned_dest_field := "DEST"; kw_destinations := "destinations";
     kw_dest_id_field := "NAME"; kw_network_data_source := inl "https://www.arcgis.com/";
     kw_travel_mode := VStr "Walking Time"; kw_time_units := VObj "TimeUnits.Minutes";
     kw_distance_units := VObj "DistanceUnits.Miles"; kw_time_of_day := VNone;
     kw_reverse_direction := false; kw_scratch_folder := "C:\scratch";
     kw_origin_transfer_fields := []; kw_destination_transfer_fields := [];
     kw_barriers := None |}.

Definition solver_ok : Solver :=
  {| props := engine_defaults arcpy_ok; added_fields := []; stops := [];
     loaded_barriers := [] |}.

(** A job on the sample data whose origins layer holds the first three
    origins and whose solver is fresh. *)
Definition route_ok : Route.t :=
  {| kwargs := inputs_ok; barriers := [];
     job_id := uuid4_hex arcpy_ok;
     job_folder := OsPath.join "C:\scratch" (uuid4_hex arcpy_ok);
     log_file := OsPath.join (OsPath.join "C:\scratch" (uuid4_hex arcpy_ok)) "RoutePairs.log";
     is_service := true;
     rt_solver := Some solver_ok;
     solve_result := None;
     input_origins_layer := take 3 (origins_table arcpy_ok);
     job_result :=
       {| jobId := uuid4_hex arcpy_ok;
          jobFolder := OsPath.join "C:\scratch" (uuid4_hex arcpy_ok);
          solveSucceeded := false; solveMessages := MsgText ""; outputRoutes := "";
          logFile := OsPath.join (OsPath.join "C:\scratch" (uuid4_hex arcpy_ok))
                                 "RoutePairs.log" |} |}.

Definition arcpy_absent : Arcpy :=
  {| uuid4_hex := uuid4_hex arcpy_ok; fault := fault arcpy_ok;
     origins_table := origins_table arcpy_ok;
     destinations_table := [ {| d_shape := VObj "ptB"; d_id := VStr "B"; d_transfer := [] |} ];
     origin_id_fields := origin_id_fields arcpy_ok;
     dest_id_fields := dest_id_fields arcpy_ok;
     engine_defaults := engine_defaults arcpy_ok;
     setattr_fault := setattr_fault arcpy_ok;
     barrier_shape_type := barrier_shape_type arcpy_ok;
     solve_outcome := solve_outcome arcpy_ok |}.

Definition arcpy_date_id : Arcpy :=
  {| uuid4_hex := uuid4_hex arcpy_ok; fault := fault arcpy_ok;
     origins_table := origins_table arcpy_ok;
     destinations_table := destinations_table arcpy_ok;
     origin_id_fields := [ {| f_name := "ID"; f_type := "Date"; f_length := 8 |} ];
     dest_id_fields := dest_id_fields arcpy_ok;
     engine_defaults := engine_defaults arcpy_ok;
     setattr_fault := setattr_fault arcpy_ok;
     barrier_shape_type := barrier_shape_type arcpy_ok;
     solve_outcome := solve_outcome arcpy_ok |}.

(** The engine of [arcpy_ok] with a solver that finds no route. *)
Definition arcpy_unsolved : Arcpy :=
  {| uuid4_hex := uuid4_hex arcpy_ok; fault := fault arcpy_ok;
     origins_table := origins_table arcpy_ok;
     destinations_table := destinations_table arcpy_ok;
     origin_id_fields := origin_id_fields arcpy_ok;
     dest_id_fields := dest_id_fields arcpy_ok;
     engine_defaults := engine_defaults arcpy_ok;
     setattr_fault := setattr_fault arcpy_ok;
     barrier_shape_type := barrier_shape_type arcpy_ok;
     solve_outcome := fun stops => (false, ["No route found"]) |}.

(** The engine of [arcpy_ok] on a disk where the output geodatabase cannot
    be created. *)
Definition arcpy_no_gdb : Arcpy :=
  {| uuid4_hex := uuid4_hex arcpy_ok;
     fault := fun st => match st with
                        | CreateFileGDB => Some (ExecuteError "ERROR 000732")
                        | _ => None
                        end;
     origins_table := origins_table arcpy_ok;
     destinations_table := destinations_table arcpy_ok;
     origin_id_fields := origin_id_fields arcpy_ok;
     dest_id_fields := dest_id_fields arcpy_ok;
     engine_defaults := engine_defaults arcpy_ok;
     setattr_fault := setattr_fault arcpy_ok;
     barrier_shape_type := barrier_shape_type arcpy_ok;
     solve_outcome := solve_outcome arcpy_ok |}.

(** The engine of [arcpy_ok] with a solver that does not know the travel
    mode it is given. *)
Definition arcpy_bad_mode : Arcpy :=
  {| uuid4_hex := uuid4_hex arcpy_ok; fault := fault arcpy_ok;
     origins_table := origins_table arcpy_ok;
     destinations_table := destinations_table arcpy_ok;
     origin_id_fields := origin_id_fields arcpy_ok;
     dest_id_fields := dest_id_fields arcpy_ok;
     engine_defaults := engine_defaults arcpy_ok;
     setattr_fault := fun prop _ =>
       if bool_decide (prop = "travelMode")
       then Some (ValueError "Invalid travel mode") else None;
     barrier_shape_type := barrier_shape_type arcpy_ok;
     solve_outcome := solve_outcome arcpy_ok |}.

Definition rt_props_ok : list (string * Value) :=
  [("travelMode", VStr "Trucking Time"); ("searchTolerance", VInt 5000);
   ("findBestSequence", VObj "False")].

Definition calc_ok : Calculator.t :=
  {| origins_fields :=
       [ {| f_name := "ID"; f_type := "Integer"; f_length := 4 |};
         {| f_name := "DEST"; f_type := "String"; f_length := 20 |};
         {| f_name := "CurbApproach"; f_type := "SmallInteger"; f_length := 2 |};
         {| f_name := "Name"; f_type := "Integer"; f_length := 4 |} ];
     destinations_fields :=
       [ {| f_name := "NAME"; f_type := "String"; f_length := 20 |} ];
     out_routes := "C:\out.gdb\Routes";
     scratch_folder := "C:\scratch";
     max_processes := 4;
     rt_inputs := inputs_ok;
     route_fcs := [];
     origin_ranges := [(1, 2); (3, 4)];
     total_jobs := 2 |}.

Definition routes_schema : list Field :=
  [ {| f_name := "Name"; f_type := "String"; f_length := 1024 |};
    {| f_name := "OriginUniqueID"; f_type := "Integer"; f_length := 4 |};
    {| f_name := "DestinationUniqueID"; f_type := "String"; f_length := 20 |} ].

(** The routes a solved chunk exports: one per origin of the chunk. *)
Definition chunk_output (chunk : Chunk) : FeatureClass :=
  {| fields := routes_schema; spatialReference := VObj "WGS 1984";
     rows := [ (VObj "polyline", [VStr (pretty chunk.1 +:+ " - A"); VInt chunk.1; VStr "A"]);
               (VObj "polyline", [VStr (pretty chunk.2 +:+ " - A"); VInt chunk.2; VStr "A"]) ] |}.

(** The result of the job with id [job_id] that solved [chunk]. *)
Definition job_done (job_id : string) (chunk : Chunk) : JobResult :=
  {| jobId := job_id;
     jobFolder := OsPath.join "C:\scratch" job_id;
     solveSucceeded := true;
     solveMessages := MsgList ["Solve succeeded"];
     outputRoutes := output_routes (OsPath.join "C:\scratch" job_id) chunk;
     logFile := OsPath.join (OsPath.join "C:\scratch" job_id) "RoutePairs.log" |}.

Definition job_failed (job_id : string) : JobResult :=
  {| jobId := job_id;
     jobFolder := OsPath.join "C:\scratch" job_id;
     solveSucceeded := false;
     solveMessages := MsgText "";
     outputRoutes := "";
     logFile := OsPath.join (OsPath.join "C:\scratch" job_id) "RoutePairs.log" |}.

(** A run of the batch of [calc_ok] in which the jobs get the ids [ids], both
    solves succeed and complete in the order of the chunks. *)
Definition batch_results (ids : list string) : list JobResult :=
  zip_with job_done ids (origin_ranges calc_ok).

Definition batch_world (ids : list string) : World :=
  {| catalog := list_to_map (zip_with (fun id chunk => (outputRoutes (job_done id chunk),
                                                         chunk_output chunk))
                                      ids (origin_ranges calc_ok));
     stdout := [] |}.

Definition batch_run (ids : list string) : Calculator.t * World * option Exn :=
  solve_route_in_parallel rt_props_ok ["timeUnits"] (fun _ => []) arcpy_ok
                          (Ret <$> batch_results ids) calc_ok (batch_world ids).

Definition merged_rows (ids : list string) : option (list (Value * list Value)) :=
  rows <$> catalog (batch_run ids).1.2 !! out_routes calc_ok.

Definition id_a : string := "0f3a9c5e7b1d4f68a2c4e6f80b1d3f57".
Definition id_b : string := "c41d2e8a90b34f7e8d6a5c3b1f0e9d72".

Definition merging_ok : Calculator.t :=
  with_route_fcs (sorted (succeeded_outputs (batch_results [id_a; id_b]))) calc_ok.

End Samples.

(** * Properties *)

(** ** Strings *)

Module StringFacts.

Lemma app_cons c s t : String c s +:+ t = String c (s +:+ t).
Proof. reflexivity. Qed.

Lemma app_nil_l t : "" +:+ t = t.
Proof. reflexivity. Qed.

Lemma app_nil_r s : s +:+ "" = s.
Proof. induction s as [|c s IH]; [done|]. by rewrite app_cons, IH. Qed.

Lemma app_assoc s t u : (s +:+ t) +:+ u = s +:+ t +:+ u.
Proof. induction s as [|c s IH]; [done|]. by rewrite !app_cons, IH. Qed.

Lemma prefix_cons a s1 b s2 :
  String.prefix (String a s1) (String b s2)
  = if ascii_dec a b then String.prefix s1 s2 else false.
Proof. reflexivity. Qed.

End StringFacts.

(** ** helpers.py *)

Module HelpersFacts.
Import Helpers StringFacts.

Lemma chained_bounds start cs last :
  chained start cs last -> start - 1 <= last.
Proof.
  revert start. induction cs as [|[lo hi] cs IH]; simpl; intros start H.
  - lia.
  - destruct H as (-> & Hle & Hrest). apply IH in Hrest. lia.
Qed.

Lemma chained_cover start cs last :
  chained start cs last ->
  forall i, start <= i <= last <-> exists c, c ∈ cs /\ in_chunk i c.
Proof.
  revert start. induction cs as [|[lo hi] cs IH]; simpl; intros start H i.
  - split; [lia|]. intros (c & Hc & _). by apply elem_of_nil in Hc.
  - destruct H as (-> & Hle & Hrest).
    pose proof (chained_bounds _ _ _ Hrest) as Hb.
    specialize (IH _ Hrest i). split.
    + intros Hi. destruct (decide (i <= hi)) as [Hih|Hih].
      * exists (start, hi). split; [apply list_elem_of_here|]. unfold in_chunk; simpl; lia.
      * destruct (proj1 IH) as (c & Hc & Hin); [lia|].
        exists c. split; [by apply list_elem_of_further|done].
    + intros (c & Hc & Hin). apply elem_of_cons in Hc as [->|Hc].
      * unfold in_chunk in Hin; simpl in Hin. lia.
      * destruct (proj2 IH) as [? ?]; [by exists c|]. lia.
Qed.

Lemma chained_lower start cs last c :
  chained start cs last -> c ∈ cs -> start <= c.1 /\ c.1 <= c.2 /\ c.2 <= last.
Proof.
  revert start. induction cs as [|[lo hi] cs IH]; simpl; intros start H Hc.
  - by apply elem_of_nil in Hc.
  - destruct H as (-> & Hle & Hrest).
    pose proof (chained_bounds _ _ _ Hrest) as Hb.
    apply elem_of_cons in Hc as [->|Hc]; simpl; [lia|].
    destruct (IH _ Hrest Hc) as (? & ? & ?). lia.
Qed.

Lemma chained_disjoint start cs last :
  chained start cs last ->
  forall (j k : nat) c d, cs !! j = Some c -> cs !! k = Some d -> (j < k)%nat ->
                          c.2 < d.1.
Proof.
  revert start. induction cs as [|[lo hi] cs IH]; simpl; intros start H j k c d Hj Hk Hjk.
  - done.
  - destruct H as (-> & Hle & Hrest).
    destruct k as [|k]; [lia|]. simpl in Hk.
    destruct j as [|j]; simpl in Hj.
    + inversion Hj; subst c; simpl.
      apply list_elem_of_lookup_2 in Hk.
      destruct (chained_lower _ _ _ _ Hrest Hk) as (? & _). lia.
    + apply (IH _ Hrest j k); [done|done|lia].
Qed.

Lemma plan_from_chained rounds low total m :
  0 < m -> 1 <= low -> total - low + 1 <= Z.of_nat rounds -> low - 1 <= total ->
  chained low (plan_from rounds low total m) total.
Proof.
  intros Hm. revert low. induction rounds as [|r IH]; intros low Hlow Hfuel Hle; simpl.
  - lia.
  - destruct (Z.ltb_spec total low) as [Hlt|Hge]; simpl; [lia|].
    repeat split; [lia|]. apply IH; lia.
Qed.

Lemma plan_from_sizes rounds low total m c :
  0 < m -> c ∈ plan_from rounds low total m -> chunk_size c <= m.
Proof.
  intros Hm. revert low. induction rounds as [|r IH]; intros low Hc; simpl in Hc.
  - by apply elem_of_nil in Hc.
  - destruct (Z.ltb_spec total low) as [Hlt|Hge]; [by apply elem_of_nil in Hc|].
    apply elem_of_cons in Hc as [->|Hc]; [unfold chunk_size; simpl; lia|].
    by apply IH in Hc.
Qed.

Lemma plan_from_length rounds low total m :
  0 < m -> total - low + 1 <= Z.of_nat rounds -> low - 1 <= total ->
  Z.of_nat (length (plan_from rounds low total m)) = (total - low + 1 + m - 1) / m.
Proof.
  intros Hm. revert low. induction rounds as [|r IH]; intros low Hfuel Hle; simpl.
  - replace (total - low + 1 + m - 1) with (m - 1) by lia.
    rewrite Z.div_small; lia.
  - destruct (Z.ltb_spec total low) as [Hlt|Hge]; simpl.
    + replace (total - low + 1 + m - 1) with (m - 1) by lia.
      rewrite Z.div_small; lia.
    + rewrite Nat2Z.inj_succ, IH by lia.
      destruct (Z.min_spec (low + m - 1) total) as [[Hlt ->]|[Hge' ->]].
      * replace (total - low + 1 + m - 1) with ((total - (low + m - 1 + 1) + 1 + m - 1) + 1 * m) by lia.
        rewrite Z.div_add by lia. lia.
      * replace (total - (total + 1) + 1 + m - 1) with (m - 1) by lia.
        rewrite Z.div_small by lia.
        assert ((total - low + 1 + m - 1) / m = 1) as ->; [|lia].
        symmetry. apply (Z.div_unique _ _ 1 (total - low)); lia.
Qed.

(** C1. For every row count [>= 0] and chunk cap [> 0] the chunk planner
    returns a plan (it does not raise) whose ranges are ascending,
    contiguous and non-overlapping 1-based inclusive ranges that cover
    exactly [1 .. total_row_count], none larger than the cap; the plan has
    [ceil(total_row_count / max_chunk_size)] chunks and is empty exactly
    when there are no rows; and the plan for 208 rows in chunks of 50 is
    [[1,50],[51,100],[101,150],[151,200],[201,208]]. *)
Theorem get_oid_ranges_for_input_plan (total_row_count max_chunk_size : Z) :
  0 <= total_row_count -> 0 < max_chunk_size ->
  (exists plan : list Chunk,
    get_oid_ranges_for_input total_row_count max_chunk_size = Ret plan
    /\ chained 1 plan total_row_count
    /\ (forall i, 1 <= i <= total_row_count <-> exists c, c ∈ plan /\ in_chunk i c)
    /\ (forall (j k : nat) c d,
           plan !! j = Some c -> plan !! k = Some d -> (j < k)%nat -> c.2 < d.1)
    /\ (forall c, c ∈ plan -> 1 <= c.1 /\ c.1 <= c.2 /\ c.2 <= total_row_count
                              /\ chunk_size c <= max_chunk_size)
    /\ Z.of_nat (length plan) = (total_row_count + max_chunk_size - 1) / max_chunk_size
    /\ (plan = [] <-> total_row_count = 0))
  /\ get_oid_ranges_for_input 208 50
     = Ret [(1, 50); (51, 100); (101, 150); (151, 200); (201, 208)].
Proof.
  intros Hn Hm. split; [|reflexivity].
  unfold get_oid_ranges_for_input.
  destruct (Z.leb_spec max_chunk_size 0) as [?|_]; [lia|].
  set (plan := plan_from _ _ _ _).
  assert (chained 1 plan total_row_count) as Hch
      by (apply plan_from_chained; lia).
  assert (Z.of_nat (length plan) = (total_row_count + max_chunk_size - 1) / max_chunk_size) as Hlen.
  { unfold plan. rewrite plan_from_length by lia. f_equal. lia. }
  exists plan. split; [done|]. split; [done|].
  split; [by apply chained_cover|].
  split; [by apply (chained_disjoint 1 plan total_row_count)|].
  split.
  { intros c Hc. destruct (chained_lower _ _ _ _ Hch Hc) as (? & ? & ?).
    repeat split; try done. by apply (plan_from_sizes _ _ _ _ _ Hm Hc). }
  split; [done|]. split.
  - intros Hnil. rewrite Hnil in Hch. simpl in Hch. lia.
  - intros ->. destruct plan as [|[lo hi] rest]; [done|].
    simpl in Hch. destruct Hch as (-> & Hle & Hrest).
    apply chained_bounds in Hrest. lia.
Qed.

Lemma get_oid_ranges_for_input_plan_witness :
  exists plan : list Chunk,
    get_oid_ranges_for_input 7 3 = Ret plan /\ Z.of_nat (length plan) = (7 + 3 - 1) / 3.
Proof.
  destruct (get_oid_ranges_for_input_plan 7 3) as [(plan & Hret & _ & _ & _ & _ & Hlen & _) _];
    [lia | lia |].
  exists plan. split; [exact Hret | exact Hlen].
Defined.

(** *** Messages from the subprocess *)

Lemma no_bar_cons c s :
  no_bar (String c s) = true <-> c <> "|"%char /\ no_bar s = true.
Proof.
  cbn [no_bar]. rewrite andb_true_iff, negb_true_iff, bool_decide_eq_false. tauto.
Qed.

(** No separator starts at a character other than [|] whose successor, if
    any, is not [|] either. *)
Lemma prefix_sep_none c s :
  c <> "|"%char -> (forall c' s', s = String c' s' -> c' <> "|"%char) ->
  String.prefix MSG_STR_SPLITTER (String c s) = false.
Proof.
  intros Hc Hs. unfold MSG_STR_SPLITTER. rewrite prefix_cons.
  destruct (ascii_dec " "%char c) as [_|]; [|done].
  destruct s as [|c' s']; [done|]. rewrite prefix_cons.
  destruct (ascii_dec "|"%char c') as [<-|]; [|done].
  by destruct (Hs _ _ eq_refl).
Qed.

Lemma split_go_no_bar cur s :
  no_bar s = true -> split_go MSG_STR_SPLITTER 0 cur s = [cur +:+ s].
Proof.
  revert cur. induction s as [|c s IH]; intros cur Hs.
  - simpl. by rewrite app_nil_r.
  - apply no_bar_cons in Hs as [Hc Hs].
    cbn [split_go]. rewrite prefix_sep_none; [|done|].
    + rewrite IH by done. by rewrite app_assoc.
    + intros c' s' ->. by apply no_bar_cons in Hs as [? _].
Qed.

Lemma split_go_level cur level msg :
  no_bar level = true ->
  split_go MSG_STR_SPLITTER 0 cur (level +:+ MSG_STR_SPLITTER +:+ msg)
  = (cur +:+ level) :: split_go MSG_STR_SPLITTER 0 "" msg.
Proof.
  revert cur. induction level as [|c l IH]; intros cur Hl.
  - rewrite app_nil_l, app_nil_r. unfold MSG_STR_SPLITTER.
    rewrite !app_cons, app_nil_l. cbn [split_go].
    assert (String.prefix " | " (String " " (String "|" (String " " msg))) = true) as ->.
    { rewrite !prefix_cons. repeat (destruct (ascii_dec _ _); [|done]). by destruct msg. }
    reflexivity.
  - rewrite app_cons. cbn [split_go].
    apply no_bar_cons in Hl as [Hc Hl].
    rewrite prefix_sep_none; [|done|].
    + rewrite IH by done. by rewrite app_assoc.
    + intros c' s'. destruct l as [|c2 l].
      * rewrite app_nil_l. unfold MSG_STR_SPLITTER. rewrite app_cons.
        by intros [= <- _].
      * rewrite app_cons. intros [= <- _]. by apply no_bar_cons in Hl as [? _].
Qed.

Lemma split_level_msg level msg :
  no_bar level = true -> no_bar msg = true ->
  split MSG_STR_SPLITTER (level +:+ MSG_STR_SPLITTER +:+ msg) = [level; msg].
Proof.
  intros Hl Hm. unfold split.
  by rewrite split_go_level, split_go_no_bar, !app_nil_l.
Qed.

Lemma parse_two_parts msg_string ui level msg :
  split MSG_STR_SPLITTER msg_string = [level; msg] ->
  parse_std_and_write_to_gp_ui msg_string ui = Ret (ui ++ [(sink_of_level level, msg)]).
Proof.
  intros Hsplit. unfold parse_std_and_write_to_gp_ui, sink_of_level.
  rewrite Hsplit. simpl.
  destruct (decide (level = "ERROR" \/ level = "CRITICAL")) as [Herr|Herr].
  - rewrite (bool_decide_eq_true_2 (level ∈ _)), (bool_decide_eq_true_2 (_ \/ _)); [done..|].
    destruct Herr as [-> | ->];
      [apply list_elem_of_here | apply list_elem_of_further, list_elem_of_here].
  - rewrite (bool_decide_eq_false_2 (level ∈ _)), (bool_decide_eq_false_2 (_ \/ _)); [|done|].
    + by destruct (bool_decide (level = "WARNING")).
    + intros Hin. apply Herr.
      apply elem_of_cons in Hin as [->|Hin]; [by left|].
      apply elem_of_cons in Hin as [->|Hin]; [by right|].
      by apply elem_of_nil in Hin.
Qed.

Lemma parse_other msg_string ui :
  (forall level msg, split MSG_STR_SPLITTER msg_string <> [level; msg]) ->
  parse_std_and_write_to_gp_ui msg_string ui = Ret (ui ++ [(GPInfo, msg_string)]).
Proof.
  intros Hsplit. unfold parse_std_and_write_to_gp_ui.
  destruct (split MSG_STR_SPLITTER msg_string) as [|a [|b [|c rest]]]; try done.
  by destruct (Hsplit a b).
Qed.

(** C10. For every message string [parse_std_and_write_to_gp_ui] returns
    (it never raises) after writing exactly one message: when the string
    splits around [" | "] into exactly two parts [level] and [msg], it
    writes [msg] to the error sink for [ERROR] and [CRITICAL], to the
    warning sink for [WARNING] and to the info sink otherwise, which is the
    case of every ["<level> | <message>"] whose two sides hold no [|];
    when it does not split into exactly two parts, the string goes
    verbatim to the info sink. *)
Theorem parse_std_and_write_to_gp_ui_routes (msg_string : string) (ui : GPWindow) :
  (exists sink text,
      parse_std_and_write_to_gp_ui msg_string ui = Ret (ui ++ [(sink, text)]))
  /\ (forall level msg,
        split MSG_STR_SPLITTER msg_string = [level; msg] ->
        parse_std_and_write_to_gp_ui msg_string ui
        = Ret (ui ++ [(sink_of_level level, msg)]))
  /\ (forall level msg,
        no_bar level = true -> no_bar msg = true ->
        msg_string = level +:+ " | " +:+ msg ->
        parse_std_and_write_to_gp_ui msg_string ui
        = Ret (ui ++ [(sink_of_level level, msg)]))
  /\ ((forall level msg, split MSG_STR_SPLITTER msg_string <> [level; msg]) ->
      parse_std_and_write_to_gp_ui msg_string ui = Ret (ui ++ [(GPInfo, msg_string)])).
Proof.
  split; [|split; [|split]].
  - destruct (split MSG_STR_SPLITTER msg_string) as [|a [|b [|c rest]]] eqn:Hsplit.
    2: { exists GPInfo, msg_string. apply parse_other. intros ??. by rewrite Hsplit. }
    2: { exists (sink_of_level a), b. by apply parse_two_parts. }
    all: exists GPInfo, msg_string; apply parse_other; intros ??; by rewrite Hsplit.
  - intros level msg. apply parse_two_parts.
  - intros level msg Hl Hm ->. apply parse_two_parts.
    by apply split_level_msg.
  - apply parse_other.
Qed.

Lemma parse_std_and_write_to_gp_ui_routes_witness :
  parse_std_and_write_to_gp_ui "ERROR | Something terrible happened" []
  = Ret [(GPError, "Something terrible happened")]
  /\ parse_std_and_write_to_gp_ui "Poorly-formatted message 1" []
     = Ret [(GPInfo, "Poorly-formatted message 1")].
Proof.
  split.
  - apply (proj1 (proj2 (parse_std_and_write_to_gp_ui_routes
                           "ERROR | Something terrible happened" []))
             "ERROR" "Something terrible happened").
    reflexivity.
  - apply (proj2 (proj2 (proj2 (parse_std_and_write_to_gp_ui_routes
                                  "Poorly-formatted message 1" [])))).
    intros level msg. vm_compute. discriminate.
Defined.

End HelpersFacts.

(** ** The [Route] class *)

Module RouteFacts.
Import Helpers Route Samples.

(** *** Stop insertion *)

Lemma next_destination_Some arcpy k d :
  next_destination arcpy k = Some d -> d ∈ destinations_table arcpy /\ d_id d = k.
Proof.
  unfold next_destination. intros H.
  apply head_Some_elem_of in H. apply list_elem_of_filter in H. tauto.
Qed.

Lemma next_destination_absent arcpy k :
  (forall d, d ∈ destinations_table arcpy -> d_id d <> k) -> next_destination arcpy k = None.
Proof.
  intros H. destruct (next_destination arcpy k) as [d|] eqn:Hd; [|done].
  apply next_destination_Some in Hd as [Hin Hid]. by destruct (H d Hin).
Qed.

Lemma matched_pairs_cons arcpy o rest :
  matched_pairs arcpy (o :: rest)
  = match matched arcpy o with
    | Some d => (o, d) :: matched_pairs arcpy rest
    | None => matched_pairs arcpy rest
    end.
Proof. unfold matched_pairs. simpl. by destruct (matched arcpy o). Qed.

Lemma insert_origins_spec arcpy rev origins destinations ins drows :
  (forall k d, destinations !! k = Some d -> next_destination arcpy k = Some d) ->
  insert_origins arcpy rev origins destinations ins drows
  = (ins ++ origin_rows rev (matched_pairs arcpy origins),
     drows ++ destination_rows rev (matched_pairs arcpy origins)).
Proof.
  revert destinations ins drows.
  induction origins as [|origin rest IH]; intros destinations ins drows Hcache.
  - simpl. by rewrite !(right_id_L [] (++)).
  - rewrite matched_pairs_cons. cbn [insert_origins]. unfold matched.
    case_bool_decide as Hnone; [by apply IH|].
    destruct (destinations !! o_assigned origin) as [d|] eqn:Hlook.
    + rewrite (Hcache _ _ Hlook), IH by done.
      unfold origin_rows, destination_rows. rewrite !fmap_cons. simpl.
      by rewrite <- !(assoc_L (++)).
    + destruct (next_destination arcpy (o_assigned origin)) as [row|] eqn:Hnext;
        [|by apply IH].
      rewrite IH.
      { unfold origin_rows, destination_rows. rewrite !fmap_cons. simpl.
        by rewrite <- !(assoc_L (++)). }
      intros k d. rewrite lookup_insert. case_decide as Hk; [|by apply Hcache].
      subst k. by intros [= <-].
Qed.

Lemma matched_pairs_length arcpy origins :
  (length (matched_pairs arcpy origins) <= length origins)%nat.
Proof.
  induction origins as [|o rest IH]; [done|].
  rewrite matched_pairs_cons. destruct (matched arcpy o); simpl; lia.
Qed.

Lemma matched_pairs_skip arcpy origins o :
  o ∈ origins -> matched arcpy o = None ->
  (length (matched_pairs arcpy origins) < length origins)%nat.
Proof.
  induction origins as [|o' rest IH]; intros Hin Hnone.
  - by apply elem_of_nil in Hin.
  - rewrite matched_pairs_cons. apply elem_of_cons in Hin as [<-|Hin].
    + rewrite Hnone. pose proof (matched_pairs_length arcpy rest). simpl. lia.
    + specialize (IH Hin Hnone). destruct (matched arcpy o'); simpl; lia.
Qed.

Lemma matched_pairs_none arcpy origins :
  (forall o, o ∈ origins -> matched arcpy o = None) -> matched_pairs arcpy origins = [].
Proof.
  induction origins as [|o rest IH]; intros H; [done|].
  rewrite matched_pairs_cons, (H o) by apply list_elem_of_here.
  apply IH. intros o' Ho'. apply H. by apply list_elem_of_further.
Qed.

Lemma matched_pairs_elem arcpy origins o d :
  (o, d) ∈ matched_pairs arcpy origins ->
  o ∈ origins /\ o_assigned o <> VNone /\ d ∈ destinations_table arcpy
  /\ d_id d = o_assigned o /\ matched arcpy o = Some d.
Proof.
  induction origins as [|o' rest IH]; intros Hin.
  - by apply elem_of_nil in Hin.
  - rewrite matched_pairs_cons in Hin.
    destruct (matched arcpy o') as [d'|] eqn:Hm.
    + apply elem_of_cons in Hin as [[= -> ->]|Hin].
      * split; [apply list_elem_of_here|]. unfold matched in Hm.
        case_bool_decide; [done|]. destruct (next_destination_Some _ _ _ Hm).
        repeat split; try done. unfold matched. by rewrite bool_decide_eq_false_2.
      * destruct (IH Hin) as (? & ?). split; [by apply list_elem_of_further|done].
    + destruct (IH Hin) as (? & ?). split; [by apply list_elem_of_further|done].
Qed.

Lemma absent_matched arcpy o : absent_destination arcpy o -> matched arcpy o = None.
Proof.
  intros H. unfold matched. case_bool_decide; [done|].
  by apply next_destination_absent.
Qed.

Lemma unique_id_field_def_returns unique_name fields :
  id_field_ok fields -> exists def, unique_id_field_def unique_name fields = Ret def.
Proof.
  intros (f & rest & -> & [ty Hty]). unfold unique_id_field_def. simpl.
  rewrite Hty. simpl. eauto.
Qed.

Lemma _insert_stops_returns arcpy self s :
  rt_solver self = Some s -> stops_setup_ok arcpy ->
  exists s',
    _insert_stops arcpy self = Ret (with_rt_solver s' self)
    /\ props s' = props s
    /\ stops s'
       = (stops s ++ origin_rows (kw_reverse_direction (kwargs self))
                                 (matched_pairs arcpy (input_origins_layer self)))
           ++ destination_rows (kw_reverse_direction (kwargs self))
                               (matched_pairs arcpy (input_origins_layer self)).
Proof.
  intros Hs (Hmk & Hadd & Ho & Hd).
  destruct (unique_id_field_def_returns origin_unique_id_field_name _ Ho) as [odef Hodef].
  destruct (unique_id_field_def_returns dest_unique_id_field_name _ Hd) as [ddef Hddef].
  unfold _insert_stops, call, the_solver.
  rewrite Hmk, Hodef, Hddef, Hs, Hadd. simpl.
  rewrite insert_origins_spec by (intros k d; by rewrite lookup_empty).
  simpl. eexists. split; [reflexivity|]. done.
Qed.

(** C8. When [_insert_stops] runs on a solver with its engine calls and id
    fields in order, it returns, keeps the stops already there, and adds two
    rows per origin with a matched destination: all origin rows first, in the
    order of the origins, then all destination rows in the same order.  So
    the row of an origin comes before the row of its destination; the two
    carry the same RouteName, the origin's and the destination's unique id,
    and the Sequence values 1 and 2 by direction: origin 1 and destination 2
    when [reverse_direction] is false, destination 1 and origin 2 when it is
    true. *)
Theorem insert_stops_order arcpy self s :
  rt_solver self = Some s -> stops_setup_ok arcpy ->
  let reverse := kw_reverse_direction (kwargs self) in
  let pairs := matched_pairs arcpy (input_origins_layer self) in
  let n := length pairs in
  let base := length (stops s) in
  exists s',
    _insert_stops arcpy self = Ret (with_rt_solver s' self)
    /\ length (stops s') = (base + 2 * n)%nat
    /\ (forall i, (i < base)%nat -> stops s' !! i = stops s !! i)
    /\ forall k o d, pairs !! k = Some (o, d) ->
         exists orow drow,
           stops s' !! (base + k)%nat = Some orow
           /\ stops s' !! (base + n + k)%nat = Some drow
           /\ (base + k < base + n + k)%nat
           /\ RouteName orow = RouteName drow
           /\ OriginUniqueID orow = o_id o /\ SHAPE orow = o_shape o
           /\ DestinationUniqueID drow = d_id d /\ SHAPE drow = d_shape d
           /\ Sequence orow = (if reverse then 2 else 1)
           /\ Sequence drow = (if reverse then 1 else 2).
Proof.
  intros Hs Hok reverse pairs n base.
  destruct (_insert_stops_returns arcpy self s Hs Hok) as (s' & Hret & _ & Hstops).
  fold reverse pairs in Hstops.
  exists s'. split; [done|]. rewrite Hstops. split; [|split].
  - rewrite !length_app. unfold origin_rows, destination_rows.
    rewrite !length_fmap. fold n base. lia.
  - intros i Hi. rewrite <- (assoc_L (++)). by rewrite lookup_app_l.
  - intros k o d Hk.
    assert (k < n)%nat as Hlt by (by apply lookup_lt_Some in Hk).
    exists (origin_row reverse o (o_assigned o)),
           (destination_row reverse o (o_assigned o) d).
    split; [|split; [|split; [lia|by destruct reverse]]].
    + rewrite lookup_app_l by (rewrite length_app; unfold origin_rows;
                               rewrite length_fmap; fold n base; lia).
      rewrite lookup_app_r by (fold base; lia).
      replace (base + k - length (stops s))%nat with k by (fold base; lia).
      unfold origin_rows. by rewrite list_lookup_fmap, Hk.
    + rewrite lookup_app_r by (rewrite length_app; unfold origin_rows;
                               rewrite length_fmap; fold n base; lia).
      rewrite length_app. unfold origin_rows at 1. rewrite length_fmap. fold n base.
      replace (base + n + k - (base + n))%nat with k by lia.
      unfold destination_rows. by rewrite list_lookup_fmap, Hk.
Qed.

Lemma insert_stops_order_witness :
  exists s',
    _insert_stops arcpy_ok route_ok = Ret (with_rt_solver s' route_ok)
    /\ length (stops s') = 4%nat.
Proof.
  destruct (insert_stops_order arcpy_ok route_ok solver_ok) as (s' & Hret & Hlen & _).
  - reflexivity.
  - repeat split; eexists _, _; (split; [reflexivity|]); by eexists.
  - exists s'. split; [exact Hret | exact Hlen].
Defined.

(** One step of a block: the call returned, or it raised and so did the block. *)
Ltac step_bind :=
  lazymatch goal with
  | |- mbind _ ?m = _ -> _ => destruct m eqn:?; [simpl|by simpl]
  end.

Lemma load_barriers_stops arcpy todo s s' :
  load_barriers arcpy todo s = Ret s' -> stops s' = stops s.
Proof.
  revert s. induction todo as [|fc rest IH]; intros s; simpl.
  - by intros [= <-].
  - destruct (barrier_class_type _); [|by apply IH].
    destruct (call arcpy (LoadBarriers fc)); [|done]. simpl.
    intros H. by apply IH in H.
Qed.

Lemma _export_to_feature_class_succeeded arcpy chunk self self' :
  _export_to_feature_class arcpy chunk self = Ret self' ->
  solveSucceeded (job_result self') = solveSucceeded (job_result self).
Proof.
  unfold _export_to_feature_class.
  repeat step_bind. by intros [= <-].
Qed.

Lemma _insert_stops_job_result arcpy self self' :
  _insert_stops arcpy self = Ret self' -> job_result self' = job_result self.
Proof.
  unfold _insert_stops.
  destruct (call arcpy MakeDestinationsLayer); [simpl|by simpl].
  destruct (unique_id_field_def _ (origin_id_fields arcpy)); [simpl|by simpl].
  destruct (unique_id_field_def _ (dest_id_fields arcpy)); [simpl|by simpl].
  destruct (the_solver self); [simpl|by simpl].
  destruct (call arcpy AddFields); [simpl|by simpl].
  destruct (insert_origins _ _ _ _ _ _). by intros [= <-].
Qed.

Section Config.
Variable RT_PROPS : list (string * Value).
Variable RT_PROPS_SET_BY_TOOL : list string.

Lemma setattr_Ret arcpy prop value s :
  setattr_fault arcpy prop value = None ->
  setattr arcpy prop value s = Ret (set_props (insert prop value) s).
Proof. intros H. unfold setattr. by rewrite H. Qed.

Lemma set_config_props_frame arcpy todo s :
  added_fields (set_config_props RT_PROPS_SET_BY_TOOL arcpy todo s) = added_fields s
  /\ stops (set_config_props RT_PROPS_SET_BY_TOOL arcpy todo s) = stops s
  /\ loaded_barriers (set_config_props RT_PROPS_SET_BY_TOOL arcpy todo s) = loaded_barriers s.
Proof.
  revert s. induction todo as [|[prop value] rest IH]; intros s; simpl; [done|].
  case_bool_decide; [apply IH|].
  unfold setattr. destruct (setattr_fault arcpy prop value); [apply IH|].
  destruct (IH (set_props (insert prop value) s)) as (-> & -> & ->). done.
Qed.

(** The loop leaves the static entries that take effect on top of what the
    solver held before. *)
Lemma set_config_props_props arcpy todo s :
  NoDup todo.*1 ->
  props (set_config_props RT_PROPS_SET_BY_TOOL arcpy todo s)
  = list_to_map
      (filter (fun pv => (pv.1 ∉ RT_PROPS_SET_BY_TOOL) /\ setattr_fault arcpy pv.1 pv.2 = None)
              todo)
      ∪ props s.
Proof.
  revert s. induction todo as [|[prop value] rest IH]; intros s Hnd.
  - simpl. by rewrite (left_id_L ∅ (∪)).
  - rewrite fmap_cons in Hnd. apply NoDup_cons in Hnd as [Hfresh Hnd].
    cbn [set_config_props]. rewrite filter_cons. simpl.
    case_bool_decide as Hset.
    + rewrite decide_False by tauto. by apply IH.
    + unfold setattr. destruct (setattr_fault arcpy prop value) as [e|] eqn:Hfault.
      * rewrite decide_False by (intros [_ ?]; done). by apply IH.
      * rewrite decide_True by done. rewrite IH by done. simpl.
        rewrite <- insert_union_l, <- insert_union_r; [done|].
        apply not_elem_of_list_to_map_1. intros Hin. apply Hfresh.
        apply list_elem_of_fmap in Hin as (pv & -> & Hpv).
        apply list_elem_of_filter in Hpv as [_ Hpv].
        simpl. by apply (list_elem_of_fmap_2 fst).
Qed.

Lemma initialize_rt_solver_returns arcpy self :
  fault arcpy NewRouteSolver = None ->
  accepts_caller_props arcpy (kwargs self) ->
  exists s,
    initialize_rt_solver RT_PROPS RT_PROPS_SET_BY_TOOL arcpy self = Ret (with_rt_solver s self)
    /\ stops s = []
    /\ props s
       = <["timeOfDay" := kw_time_of_day (kwargs self)]>
           (<["distanceUnits" := kw_distance_units (kwargs self)]>
              (<["timeUnits" := kw_time_units (kwargs self)]>
                 (<["travelMode" := kw_travel_mode (kwargs self)]>
                    (props (set_config_props RT_PROPS_SET_BY_TOOL arcpy RT_PROPS
                              {| props := engine_defaults arcpy; added_fields := [];
                                 stops := []; loaded_barriers := [] |}))))).
Proof.
  intros Hnew (Htm & Htu & Hdu & Htod).
  unfold initialize_rt_solver, call. rewrite Hnew. simpl.
  rewrite (setattr_Ret _ _ _ _ Htm). simpl.
  rewrite (setattr_Ret _ _ _ _ Htu). simpl.
  rewrite (setattr_Ret _ _ _ _ Hdu). simpl.
  rewrite (setattr_Ret _ _ _ _ Htod). simpl.
  eexists. split; [reflexivity|]. simpl. split; [|done].
  apply set_config_props_frame.
Qed.

(** C7. When the engine creates the solver and accepts the four properties
    the caller controls, [initialize_rt_solver] returns with a solver whose
    [travelMode], [timeUnits], [distanceUnits] and [timeOfDay] hold the
    caller's values whatever the static table contains, and whose properties
    are the three layers merged by precedence: the caller's properties over
    the static table's effective entries over the engine defaults. *)
Theorem initialize_rt_solver_layers arcpy self :
  fault arcpy NewRouteSolver = None ->
  accepts_caller_props arcpy (kwargs self) ->
  exists s,
    initialize_rt_solver RT_PROPS RT_PROPS_SET_BY_TOOL arcpy self = Ret (with_rt_solver s self)
    /\ props s !! "travelMode" = Some (kw_travel_mode (kwargs self))
    /\ props s !! "timeUnits" = Some (kw_time_units (kwargs self))
    /\ props s !! "distanceUnits" = Some (kw_distance_units (kwargs self))
    /\ props s !! "timeOfDay" = Some (kw_time_of_day (kwargs self))
    /\ (NoDup RT_PROPS.*1 ->
        props s = merged_props RT_PROPS RT_PROPS_SET_BY_TOOL arcpy (kwargs self)).
Proof.
  intros Hnew Hacc.
  destruct (initialize_rt_solver_returns arcpy self Hnew Hacc) as (s & Hret & _ & Hprops).
  exists s. split; [done|]. rewrite Hprops.
  repeat split.
  - by rewrite !lookup_insert_ne, lookup_insert_eq by done.
  - by rewrite !lookup_insert_ne, lookup_insert_eq by done.
  - by rewrite !lookup_insert_ne, lookup_insert_eq by done.
  - by rewrite lookup_insert_eq.
  - intros Hnd. rewrite set_config_props_props by done. simpl.
    unfold merged_props, caller_props, static_props.
    rewrite <- (assoc_L (∪)).
    by rewrite <- !insert_union_l, <- insert_union_singleton_l.
Qed.

Lemma __init___returns arcpy kw :
  fault arcpy OsMkdir = None ->
  (is_nds_service (kw_network_data_source kw) = false ->
   fault arcpy MakeNetworkDatasetLayer = None) ->
  exists rt,
    __init__ arcpy kw = Ret rt
    /\ kwargs rt = kw /\ rt_solver rt = None /\ solve_result rt = None
    /\ solveSucceeded (job_result rt) = false
    /\ solveMessages (job_result rt) = MsgText ""
    /\ outputRoutes (job_result rt) = "".
Proof.
  intros Hmk Hnds. unfold __init__, call. rewrite Hmk. simpl.
  destruct (is_nds_service (kw_network_data_source kw)); simpl.
  - eexists. split; [reflexivity|]. done.
  - rewrite Hnds by done. simpl. eexists. split; [reflexivity|]. done.
Qed.

Lemma insert_chunk_stops_returns arcpy chunk self :
  fault arcpy MakeOriginsLayer = None ->
  fault arcpy NewRouteSolver = None ->
  accepts_caller_props arcpy (kwargs self) ->
  stops_setup_ok arcpy ->
  exists s,
    insert_chunk_stops RT_PROPS RT_PROPS_SET_BY_TOOL arcpy chunk self
    = Ret (with_rt_solver s (with_input_origins_layer (chunk_origins arcpy chunk) self))
    /\ stops s
       = origin_rows (kw_reverse_direction (kwargs self))
                     (matched_pairs arcpy (chunk_origins arcpy chunk))
           ++ destination_rows (kw_reverse_direction (kwargs self))
                               (matched_pairs arcpy (chunk_origins arcpy chunk)).
Proof.
  intros Hsel Hnew Hacc Hstops.
  unfold insert_chunk_stops, _select_inputs, call. rewrite Hsel. simpl.
  fold (chunk_origins arcpy chunk).
  set (self1 := with_input_origins_layer (chunk_origins arcpy chunk) self).
  destruct (initialize_rt_solver_returns arcpy self1 Hnew Hacc)
    as (s2 & -> & Hs2 & _).
  simpl.
  destruct (_insert_stops_returns arcpy (with_rt_solver s2 self1) s2 eq_refl Hstops)
    as (s3 & -> & _ & Hs3).
  exists s3. split; [done|]. rewrite Hs3, Hs2. done.
Qed.

Lemma solve_unfold arcpy chunk self :
  solve RT_PROPS RT_PROPS_SET_BY_TOOL arcpy chunk self
  = (self ← insert_chunk_stops RT_PROPS RT_PROPS_SET_BY_TOOL arcpy chunk self;
     s ← the_solver self;
     if bool_decide (List.length (stops s) = 0%nat) then Ret self
     else
       s ← load_barriers arcpy (barriers self) s;
       let self := with_rt_solver s self in
       _ ← call arcpy SolverSolve;
       let result := solve_outcome arcpy (stops s) in
       let self := with_solve_result result self in
       let self := with_job_result (set_solveMessages (MsgList result.2)) self in
       if negb result.1 then Ret self
       else
         let self := with_job_result (set_solveSucceeded true) self in
         _export_to_feature_class arcpy chunk self).
Proof.
  unfold solve, insert_chunk_stops.
  destruct (_select_inputs arcpy chunk self) as [self1|]; [|done]. simpl.
  destruct (initialize_rt_solver _ _ arcpy self1) as [self2|]; [|done]. simpl.
  done.
Qed.

(** C6. Let the job's engine calls up to the insertion of the stops succeed.
    Then the job is created and its stops are inserted without error whatever
    the origins are assigned to: the stops are the rows of the matched pairs,
    an origin whose assigned id is on no destination row is in no pair, so
    there are at most as many pairs as origins and fewer as soon as one
    origin's id is absent.  When every origin of the chunk has an absent id,
    no stop is inserted, [solve] returns without calling the engine's solve
    ([solve_result] stays [None]), and [solve_route] returns the initial
    result with [solveSucceeded] false. *)
Theorem unmatched_origins_skipped arcpy kw chunk :
  job_setup_ok arcpy kw ->
  let origins := chunk_origins arcpy chunk in
  let pairs := matched_pairs arcpy origins in
  exists rt,
    __init__ arcpy kw = Ret rt
    /\ (exists s,
          insert_chunk_stops RT_PROPS RT_PROPS_SET_BY_TOOL arcpy chunk rt
          = Ret (with_rt_solver s (with_input_origins_layer origins rt))
          /\ stops s = origin_rows (kw_reverse_direction kw) pairs
                         ++ destination_rows (kw_reverse_direction kw) pairs
          /\ (forall o d, (o, d) ∈ pairs -> o ∈ origins /\ ~ absent_destination arcpy o)
          /\ (length pairs <= length origins)%nat
          /\ (forall o, o ∈ origins -> absent_destination arcpy o ->
                        (length pairs < length origins)%nat))
    /\ ((forall o, o ∈ origins -> absent_destination arcpy o) ->
        exists rt' s,
          solve RT_PROPS RT_PROPS_SET_BY_TOOL arcpy chunk rt = Ret rt'
          /\ rt_solver rt' = Some s /\ stops s = []
          /\ solve_result rt' = None
          /\ solve_route RT_PROPS RT_PROPS_SET_BY_TOOL arcpy kw chunk = Ret (job_result rt')
          /\ solveSucceeded (job_result rt') = false
          /\ solveMessages (job_result rt') = MsgText ""
          /\ outputRoutes (job_result rt') = "").
Proof.
  intros (Hmk & Hnds & Hsel & Hnew & Hacc & Hstops) origins pairs.
  destruct (__init___returns arcpy kw Hmk Hnds)
    as (rt & Hinit & Hkw & Hsolver & Hres & Hsucc & Hmsgs & Hout).
  exists rt. split; [done|].
  rewrite <- Hkw in Hacc.
  destruct (insert_chunk_stops_returns arcpy chunk rt Hsel Hnew Hacc Hstops)
    as (s & Hins & Hs).
  rewrite Hkw in Hs. fold origins pairs in Hins, Hs.
  split.
  - exists s. split; [done|]. split; [done|]. split; [|split].
    + intros o d Hin. apply matched_pairs_elem in Hin as (Ho & _ & Hd & Hid & _).
      split; [done|]. intros Habs. by apply (Habs d).
    + apply matched_pairs_length.
    + intros o Ho Habs. apply (matched_pairs_skip arcpy origins o Ho).
      by apply absent_matched.
  - intros Habs.
    assert (pairs = []) as Hnil.
    { apply matched_pairs_none. intros o Ho. by apply absent_matched, Habs. }
    rewrite Hnil in Hs. simpl in Hs.
    assert (solve RT_PROPS RT_PROPS_SET_BY_TOOL arcpy chunk rt
            = Ret (with_rt_solver s (with_input_origins_layer origins rt))) as Hsolve.
    { rewrite solve_unfold, Hins. simpl. by rewrite Hs. }
    eexists _, s. split; [exact Hsolve|].
    unfold solve_route. rewrite Hinit. simpl. rewrite Hsolve. simpl.
    by repeat split.
Qed.

Lemma initialize_rt_solver_job_result arcpy self self' :
  initialize_rt_solver RT_PROPS RT_PROPS_SET_BY_TOOL arcpy self = Ret self' ->
  job_result self' = job_result self.
Proof.
  unfold initialize_rt_solver.
  repeat step_bind. by intros [= <-].
Qed.

Lemma insert_chunk_stops_job_result arcpy chunk self self' :
  insert_chunk_stops RT_PROPS RT_PROPS_SET_BY_TOOL arcpy chunk self = Ret self' ->
  job_result self' = job_result self.
Proof.
  unfold insert_chunk_stops, _select_inputs.
  destruct (call arcpy MakeOriginsLayer); [simpl|by simpl].
  destruct (initialize_rt_solver _ _ arcpy _) as [self2|] eqn:Hinit; [simpl|by simpl].
  intros Hins. apply _insert_stops_job_result in Hins.
  apply initialize_rt_solver_job_result in Hinit. by rewrite Hins, Hinit.
Qed.

(** A result with [solveSucceeded] false comes from a job without stops, with
    the result as it was, or from a solve the engine reports as failed. *)
Lemma solve_not_succeeded arcpy chunk self self' :
  solve RT_PROPS RT_PROPS_SET_BY_TOOL arcpy chunk self = Ret self' ->
  solveSucceeded (job_result self') = false ->
  exists s,
    rt_solver self' = Some s
    /\ ((stops s = [] /\ job_result self' = job_result self)
        \/ (stops s <> [] /\ (solve_outcome arcpy (stops s)).1 = false
            /\ solve_result self' = Some (solve_outcome arcpy (stops s))
            /\ solveMessages (job_result self')
               = MsgList (solve_outcome arcpy (stops s)).2)).
Proof.
  rewrite solve_unfold.
  destruct (insert_chunk_stops _ _ arcpy chunk self) as [self3|] eqn:Hins; [simpl|by simpl].
  apply insert_chunk_stops_job_result in Hins.
  unfold the_solver. destruct (rt_solver self3) as [s|] eqn:Hs; [simpl|by simpl].
  case_bool_decide as Hlen.
  - intros [= <-] _. exists s. split; [done|]. left. split; [by destruct (stops s)|done].
  - destruct (load_barriers arcpy (barriers self3) s) as [s'|] eqn:Hload; [simpl|by simpl].
    apply load_barriers_stops in Hload.
    destruct (call arcpy SolverSolve); [simpl|by simpl].
    destruct (solve_outcome arcpy (stops s')) as [ok msgs] eqn:Hout. simpl.
    destruct ok; simpl.
    + intros Hexp Hfalse. apply _export_to_feature_class_succeeded in Hexp.
      simpl in Hexp. congruence.
    + intros [= <-] _. exists s'. simpl. split; [done|]. right.
      rewrite Hout. simpl. repeat split; try done.
      rewrite Hload. intros Hnil. apply Hlen. by rewrite Hnil.
Qed.
(** C5, amended.  An error raised inside the job is raised by [solve_route]:
    whatever [Route.__init__] or [Route.solve] raises comes out of
    [solve_route] unchanged, [solve_route] returns a result only when both
    returned, and [Route.solve] in turn lets through what the selection of
    the inputs, the solver set-up, the insertion of the stops and the
    engine's solve raise.  A returned result with [solveSucceeded] false
    comes from a job without stops or from a solve the engine reports as
    failed. *)
Theorem solve_route_propagates arcpy inputs chunk :
  (forall e,
      __init__ arcpy inputs = Raise e ->
      solve_route RT_PROPS RT_PROPS_SET_BY_TOOL arcpy inputs chunk = Raise e)
  /\ (forall rt e,
        __init__ arcpy inputs = Ret rt ->
        solve RT_PROPS RT_PROPS_SET_BY_TOOL arcpy chunk rt = Raise e ->
        solve_route RT_PROPS RT_PROPS_SET_BY_TOOL arcpy inputs chunk = Raise e)
  /\ (forall jr,
        solve_route RT_PROPS RT_PROPS_SET_BY_TOOL arcpy inputs chunk = Ret jr ->
        exists rt rt',
          __init__ arcpy inputs = Ret rt
          /\ solve RT_PROPS RT_PROPS_SET_BY_TOOL arcpy chunk rt = Ret rt'
          /\ jr = job_result rt')
  /\ (forall rt e,
        _select_inputs arcpy chunk rt = Raise e ->
        solve RT_PROPS RT_PROPS_SET_BY_TOOL arcpy chunk rt = Raise e)
  /\ (forall rt rt1 e,
        _select_inputs arcpy chunk rt = Ret rt1 ->
        initialize_rt_solver RT_PROPS RT_PROPS_SET_BY_TOOL arcpy rt1 = Raise e ->
        solve RT_PROPS RT_PROPS_SET_BY_TOOL arcpy chunk rt = Raise e)
  /\ (forall rt rt1 rt2 e,
        _select_inputs arcpy chunk rt = Ret rt1 ->
        initialize_rt_solver RT_PROPS RT_PROPS_SET_BY_TOOL arcpy rt1 = Ret rt2 ->
        _insert_stops arcpy rt2 = Raise e ->
        solve RT_PROPS RT_PROPS_SET_BY_TOOL arcpy chunk rt = Raise e)
  /\ (forall rt rt3 s s' e,
        insert_chunk_stops RT_PROPS RT_PROPS_SET_BY_TOOL arcpy chunk rt = Ret rt3 ->
        rt_solver rt3 = Some s -> stops s <> [] ->
        load_barriers arcpy (barriers rt3) s = Ret s' ->
        fault arcpy SolverSolve = Some e ->
        solve RT_PROPS RT_PROPS_SET_BY_TOOL arcpy chunk rt = Raise e)
  /\ (forall rt rt',
        __init__ arcpy inputs = Ret rt ->
        solve RT_PROPS RT_PROPS_SET_BY_TOOL arcpy chunk rt = Ret rt' ->
        solveSucceeded (job_result rt') = false ->
        exists s,
          rt_solver rt' = Some s
          /\ (stops s = [] \/ (solve_outcome arcpy (stops s)).1 = false)).
Proof.
  split; [|split; [|split; [|split; [|split; [|split; [|split]]]]]].
  - intros e Hinit. unfold Route.solve_route. by rewrite Hinit.
  - intros rt e Hinit Hsolve. unfold Route.solve_route. rewrite Hinit. simpl.
    by rewrite Hsolve.
  - intros jr. unfold Route.solve_route.
    destruct (__init__ arcpy inputs) as [rt|]; [|done]. simpl.
    destruct (Route.solve _ _ arcpy chunk rt) as [rt'|] eqn:Hsolve; [|done]. simpl.
    intros [= <-]. exists rt, rt'. by rewrite Hsolve.
  - intros rt e Hsel. unfold Route.solve. by rewrite Hsel.
  - intros rt rt1 e Hsel Hinit. unfold Route.solve. rewrite Hsel. simpl. by rewrite Hinit.
  - intros rt rt1 rt2 e Hsel Hinit Hins. unfold Route.solve. rewrite Hsel. simpl.
    rewrite Hinit. simpl. by rewrite Hins.
  - intros rt rt3 s s' e Hins Hs Hne Hload Hfault.
    rewrite solve_unfold, Hins. simpl. unfold the_solver. rewrite Hs. simpl.
    rewrite bool_decide_eq_false_2; [|intros Hlen; apply Hne; by destruct (stops s)].
    rewrite Hload. simpl. unfold call. by rewrite Hfault.
  - intros rt rt' _ Hsolve Hfalse.
    destruct (solve_not_succeeded arcpy chunk rt rt' Hsolve Hfalse) as (s & Hs & Hcase).
    exists s. split; [done|]. destruct Hcase as [[? _]|(_ & ? & _)]; [by left|by right].
Qed.
End Config.

Lemma job_setup_ok_sample arcpy :
  fault arcpy = (fun _ => None) -> setattr_fault arcpy = setattr_fault arcpy_ok ->
  origin_id_fields arcpy = origin_id_fields arcpy_ok -> 
  dest_id_fields arcpy = dest_id_fields arcpy_ok -> 
  job_setup_ok arcpy inputs_ok.
Proof.
  intros Hf Hs Ho Hd. unfold job_setup_ok, stops_setup_ok, accepts_caller_props.
  rewrite Hf, Hs, Ho, Hd. repeat split; eexists _, _; (split; [reflexivity|]); by eexists.
Qed.

Lemma unmatched_origins_skipped_witness :
  exists jr,
    solve_route rt_props_ok ["timeUnits"] arcpy_absent inputs_ok (1, 3) = Ret jr
    /\ solveSucceeded jr = false.
Proof.
  destruct (unmatched_origins_skipped rt_props_ok ["timeUnits"] arcpy_absent inputs_ok (1, 3))
    as (rt & _ & _ & Hall).
  - by apply job_setup_ok_sample.
  - destruct Hall as (rt' & s & _ & _ & _ & _ & Hroute & Hsucc & _).
    + intros o Ho d Hd. vm_compute in Hd. apply list_elem_of_singleton in Hd as ->.
      vm_compute in Ho.
      repeat (apply elem_of_cons in Ho as [->|Ho]; [done|]). by apply elem_of_nil in Ho.
    + exists (job_result rt'). split; [exact Hroute | exact Hsucc].
Defined.

Lemma solve_route_propagates_witness :
  solve_route rt_props_ok [] arcpy_date_id inputs_ok (1, 3) = Raise (KeyError "Date").
Proof.
  eapply (proj1 (proj2 (solve_route_propagates rt_props_ok [] arcpy_date_id inputs_ok (1, 3)))).
  - reflexivity.
  - vm_compute. reflexivity.
Defined.

(** C5 as stated fails: an origin id field of type Date is not a key of
    [field_types], the lookup raises [KeyError] inside [_insert_stops], and
    [solve_route] raises it instead of returning a failed result. *)
Lemma solve_route_error_not_captured :
  ~ (forall RT_PROPS RT_PROPS_SET_BY_TOOL arcpy inputs chunk rt e,
       __init__ arcpy inputs = Ret rt ->
       solve RT_PROPS RT_PROPS_SET_BY_TOOL arcpy chunk rt = Raise e ->
       exists jr,
         solve_route RT_PROPS RT_PROPS_SET_BY_TOOL arcpy inputs chunk = Ret jr
         /\ solveSucceeded jr = false).
Proof.
  intros H.
  edestruct (H rt_props_ok [] arcpy_date_id inputs_ok (1, 3)) as (jr & Hjr & _).
  - reflexivity.
  - instantiate (1 := KeyError "Date"). vm_compute. reflexivity.
  - vm_compute in Hjr. discriminate.
Qed.
Lemma initialize_rt_solver_layers_witness :
  exists rt s,
    __init__ arcpy_ok inputs_ok = Ret rt
    /\ initialize_rt_solver rt_props_ok ["timeUnits"] arcpy_ok rt = Ret (with_rt_solver s rt)
    /\ props s !! "travelMode" = Some (VStr "Walking Time").
Proof.
  eexists. 
  destruct (initialize_rt_solver_layers rt_props_ok ["timeUnits"] arcpy_ok
              ltac:(let x := eval vm_compute in (__init__ arcpy_ok inputs_ok) in
                    match x with Ret ?r => exact r end))
    as (s & Hret & Htm & _).
  - reflexivity.
  - repeat split.
  - exists s. split; [reflexivity|]. split; [exact Hret | exact Htm].
Defined.

End RouteFacts.

(** ** The calculator *)

Module CalculatorFacts.
Import Helpers Route Calculator Samples StringFacts.

(** *** Merging the outputs *)

Lemma mapM_lookup {A B} (f : A -> Res B) (l : list A) (k : list B) :
  length l = length k ->
  (forall i x, l !! i = Some x -> exists y, k !! i = Some y /\ f x = Ret y) ->
  mapM f l = Ret k.
Proof.
  revert k. induction l as [|x l IH]; intros [|y k] Hlen Hall; try done.
  simpl. destruct (Hall 0%nat x eq_refl) as (y' & [= <-] & ->). simpl.
  rewrite (IH k); [done|by injection Hlen|].
  intros i x' Hi. apply (Hall (S i) x' Hi).
Qed.

Lemma index_of_lookup (names : list string) i n :
  NoDup names -> names !! i = Some n -> index_of n names = Some i.
Proof.
  revert i. induction names as [|x names IH]; intros i Hnd Hi; [done|].
  apply NoDup_cons in Hnd as [Hx Hnd]. simpl.
  destruct i as [|i]; simpl in Hi.
  - injection Hi as ->. by rewrite bool_decide_eq_true_2.
  - rewrite bool_decide_eq_false_2.
    + by rewrite (IH i Hnd Hi).
    + intros ->. apply Hx. by apply list_elem_of_lookup_2 in Hi.
Qed.

(** Reading a row through the fields of its own feature class gives the row. *)
Lemma read_row_own fc row :
  NoDup (f_name <$> fields fc) -> "SHAPE@" ∉ f_name <$> fields fc ->
  length row.2 = length (fields fc) ->
  mapM (read_cell fc row) (cursor_fields fc) = Ret (row.1 :: row.2).
Proof.
  intros Hnd Hshape Hlen. unfold cursor_fields. cbn [mapM].
  assert (read_cell fc row "SHAPE@" = Ret row.1) as -> by done. simpl.
  fold (read_cell fc row).
  rewrite (mapM_lookup _ _ row.2); [done|by rewrite length_fmap|].
  intros i n Hi.
  destruct (lookup_lt_is_Some_2 row.2 i) as [v Hv].
  { rewrite Hlen, <- (length_fmap f_name). by apply lookup_lt_Some in Hi. }
  exists v. split; [done|]. unfold read_cell.
  rewrite bool_decide_eq_false_2.
  - rewrite (index_of_lookup _ i n Hnd Hi). simpl. by rewrite Hv.
  - intros ->. apply Hshape. by apply list_elem_of_lookup_2 in Hi.
Qed.

(** Inserting such a row through the same fields stores it unchanged. *)
Lemma insertRow_own fc out shape attrs :
  NoDup (f_name <$> fields fc) -> "SHAPE@" ∉ f_name <$> fields fc ->
  fields out = fields fc -> length attrs = length (fields fc) ->
  insertRow (cursor_fields fc) (shape :: attrs) out
  = {| fields := fields out; spatialReference := spatialReference out;
       rows := rows out ++ [(shape, attrs)] |}.
Proof.
  intros Hnd Hshape Hout Hlen. unfold insertRow, cursor_fields.
  assert ((fun f : Field =>
             default VNone
               (index_of (f_name f) ("SHAPE@" :: (f_name <$> fields fc))
                ≫= fun i : nat => (shape :: attrs) !! i)) <$> fields out = attrs) as ->;
    [|done].
  rewrite Hout. apply list_eq. intros i. rewrite list_lookup_fmap.
  destruct (fields fc !! i) as [f|] eqn:Hf; simpl.
  - assert ((f_name <$> fields fc) !! i = Some (f_name f)) as Hn
        by (by rewrite list_lookup_fmap, Hf).
    rewrite bool_decide_eq_false_2.
    + rewrite (index_of_lookup _ i _ Hnd Hn). simpl.
      destruct (lookup_lt_is_Some_2 attrs i) as [v Hv].
      { rewrite Hlen. by apply lookup_lt_Some in Hf. }
      by rewrite Hv.
    + intros Heq. apply Hshape. rewrite Heq. by apply list_elem_of_lookup_2 in Hn.
  - symmetry. apply lookup_ge_None. rewrite Hlen. by apply lookup_ge_None in Hf.
Qed.

Lemma insert_rows_own fc out (rs : list (Value * list Value)) :
  NoDup (f_name <$> fields fc) -> "SHAPE@" ∉ f_name <$> fields fc ->
  fields out = fields fc ->
  Forall (fun row => length row.2 = length (fields fc)) rs ->
  foldl (fun o row => insertRow (cursor_fields fc) row o) out
        ((fun row => row.1 :: row.2) <$> rs)
  = {| fields := fields out; spatialReference := spatialReference out;
       rows := rows out ++ rs |}.
Proof.
  intros Hnd Hshape. revert out. induction rs as [|[shape attrs] rs IH]; intros out Hout Hrs.
  - simpl. rewrite (right_id_L [] (++)). by destruct out.
  - apply Forall_cons in Hrs as [Hrow Hrs]. simpl in Hrow.
    rewrite fmap_cons. cbn [foldl]. simpl.
    rewrite insertRow_own, IH by done. simpl. by rewrite <- (assoc_L (++)).
Qed.

Lemma SearchCursor_same_schema c path fc template :
  c !! path = Some fc -> fields fc = fields template ->
  NoDup (f_name <$> fields template) -> "SHAPE@" ∉ f_name <$> fields template ->
  Forall (fun row => length row.2 = length (fields template)) (rows fc) ->
  SearchCursor c path (cursor_fields template)
  = Ret ((fun row => row.1 :: row.2) <$> rows fc).
Proof.
  intros Hc Hf Hnd Hshape Hrows.
  assert (cursor_fields template = cursor_fields fc) as ->
      by (unfold cursor_fields; by rewrite Hf).
  rewrite <- Hf in Hnd, Hshape, Hrows.
  unfold SearchCursor, describe. rewrite Hc. cbn [mbind Res_bind].
  induction Hrows as [|row rs Hrow Hrs IH]; [done|].
  cbn [mapM]. rewrite read_row_own by done. cbn [mbind Res_bind]. rewrite IH. done.
Qed.

(** The loop appends the rows of each feature class to the output. *)
Lemma append_route_fcs_spec out_routes template todo fcs c out :
  NoDup (f_name <$> fields template) -> "SHAPE@" ∉ f_name <$> fields template ->
  out_routes ∉ todo ->
  Forall2 (job_output c (fields template)) todo fcs ->
  c !! out_routes = Some out -> fields out = fields template ->
  append_route_fcs out_routes (cursor_fields template) todo c
  = (<[out_routes := {| fields := fields out; spatialReference := spatialReference out;
                        rows := rows out ++ mjoin (rows <$> fcs) |}]> c, None).
Proof.
  intros Hnd Hshape. revert todo c out.
  induction fcs as [|fc fcs IH]; intros todo c out Hnotin Hall Hout Hfields.
  - apply Forall2_nil_inv_r in Hall as ->. simpl.
    rewrite (right_id_L [] (++)). rewrite insert_id; [done|]. rewrite Hout. by destruct out.
  - apply Forall2_cons_inv_r in Hall as (path & rest & (Hpath & Hf & Hrows) & Hall & ->).
    apply not_elem_of_cons in Hnotin as [Hne Hnotin].
    cbn [append_route_fcs].
    rewrite (SearchCursor_same_schema c path fc template) by done.
    set (out' := {| fields := fields out; spatialReference := spatialReference out;
                    rows := rows out ++ rows fc |}).
    assert (alter (fun o => foldl (fun o row => insertRow (cursor_fields template) row o) o
                                  ((fun row => row.1 :: row.2) <$> rows fc))
                  out_routes c = <[out_routes := out']> c) as ->.
    { apply map_eq. intros k. destruct (decide (k = out_routes)) as [->|Hk].
      - rewrite lookup_alter_eq, lookup_insert_eq, Hout. simpl.
        by rewrite insert_rows_own. 
      - by rewrite lookup_alter_ne, lookup_insert_ne. }
    rewrite (IH rest (<[out_routes := out']> c) out' Hnotin).
    + rewrite insert_insert_eq. simpl. by rewrite <- (assoc_L (++)).
    + clear IH. induction Hall as [|p f ps fs (Hp & HQ) Hall IH]; [constructor|].
      apply not_elem_of_cons in Hnotin as [Hne' Hnotin].
      constructor; [|by apply IH]. split; [|done]. by rewrite lookup_insert_ne.
    + by rewrite lookup_insert_eq.
    + done.
Qed.

Lemma job_output_insert_ne c schema out_routes out paths fcs :
  out_routes ∉ paths ->
  Forall2 (job_output c schema) paths fcs ->
  Forall2 (job_output (<[out_routes := out]> c) schema) paths fcs.
Proof.
  intros Hnotin Hall. induction Hall as [|p f ps fs (Hp & HQ) Hall IH]; [constructor|].
  apply not_elem_of_cons in Hnotin as [Hne Hnotin].
  constructor; [|by apply IH]. split; [|done]. by rewrite lookup_insert_ne.
Qed.

(** C9. Let the feature classes listed in [route_fcs] exist, the first one
    being [desc], all with the schema of [desc] (distinct field names) and
    rows that fit it, and let the output path be none of them.  Then
    [_post_process_route_fcs] raises nothing and changes the catalog at the
    output path only, where it leaves one feature class with the fields and
    spatial reference of [desc] whose rows are the rows of the listed feature
    classes, unchanged and in the order of the list; their number is the sum
    of the row counts. *)
Theorem post_process_route_fcs_merges self c desc fcs :
  out_routes self ∉ route_fcs self ->
  valid_schema (fields desc) ->
  Forall2 (job_output c (fields desc)) (route_fcs self) (desc :: fcs) ->
  exists merged,
    _post_process_route_fcs self c = (<[out_routes self := merged]> c, None)
    /\ fields merged = fields desc
    /\ spatialReference merged = spatialReference desc
    /\ rows merged = mjoin (rows <$> desc :: fcs)
    /\ length (rows merged) = sum_list (length <$> (rows <$> desc :: fcs)).
Proof.
  intros Hnotin [Hnd Hshape] Hall.
  unfold _post_process_route_fcs.
  destruct (route_fcs self) as [|template rest] eqn:Hfcs; [by inversion Hall|].
  pose proof Hall as Hall'.
  apply Forall2_cons_1 in Hall' as [(Hdesc & _ & _) _].
  unfold describe. rewrite Hdesc.
  fold (cursor_fields desc).
  set (out := {| fields := fields desc; spatialReference := spatialReference desc;
                 rows := [] |}).
  rewrite (append_route_fcs_spec (out_routes self) desc (template :: rest) (desc :: fcs)
             (<[out_routes self := out]> c) out); try done.
  - rewrite insert_insert_eq. eexists. split; [reflexivity|].
    cbn [fields spatialReference rows app].
    split; [done|]. split; [done|]. split; [done|]. apply length_join.
  - by apply job_output_insert_ne.
  - by rewrite lookup_insert_eq.
Qed.

(** *** The order of the output paths *)

Lemma ascii_compare_refl c : Ascii.compare c c = Eq.
Proof. unfold Ascii.compare. apply N.compare_refl. Qed.

Lemma compare_app_prefix p a b :
  String.compare (p +:+ a) (p +:+ b) = String.compare a b.
Proof.
  induction p as [|c p IH]; [done|].
  rewrite !app_cons. cbn [String.compare]. by rewrite ascii_compare_refl.
Qed.

(** Strings of the same length are ordered by their first difference,
    whatever follows them. *)
Lemma compare_app_same_length a b x y :
  String.length a = String.length b -> a <> b ->
  String.compare (a +:+ x) (b +:+ y) = String.compare a b.
Proof.
  revert b. induction a as [|c a IH]; intros [|d b] Hlen Hne; try done.
  rewrite !app_cons. cbn [String.compare].
  destruct (Ascii.compare c d) eqn:Hcd; try done.
  apply Ascii.compare_eq_iff in Hcd as ->.
  apply IH; [by injection Hlen|]. intros ->. by apply Hne.
Qed.

Lemma le_compare s1 s2 : String.le s1 s2 <-> String.compare s1 s2 <> Gt.
Proof.
  unfold String.le, String.leb. by destruct (String.compare s1 s2).
Qed.

Lemma join_dir_prefix a b : OsPath.join a b = OsPath.dir_prefix a +:+ b.
Proof.
  unfold OsPath.join, OsPath.dir_prefix.
  destruct (bool_decide (a = "") || OsPath.endswith_sep a); [done|].
  by rewrite app_assoc.
Qed.

Lemma endswith_sep_app a b : b <> "" -> OsPath.endswith_sep (a +:+ b) = OsPath.endswith_sep b.
Proof.
  intros Hb. induction a as [|c a IH]; [done|].
  rewrite app_cons. cbn [OsPath.endswith_sep]. rewrite IH.
  destruct (a +:+ b) eqn:Hab; [|done].
  destruct a; [by rewrite app_nil_l in Hab|done].
Qed.

Lemma all_hex_endswith_sep s : all_hex s = true -> OsPath.endswith_sep s = false.
Proof.
  induction s as [|c s IH]; [done|].
  cbn [all_hex OsPath.endswith_sep]. intros [Hc Hs]%andb_true_iff.
  destruct s as [|c' s']; [|by apply IH].
  apply bool_decide_eq_true in Hc. apply bool_decide_eq_false. intros [= ->].
  revert Hc. vm_compute. intros Hc.
  repeat (apply elem_of_cons in Hc as [Hc|Hc]; [discriminate|]).
  by apply elem_of_nil in Hc.
Qed.

Lemma output_routes_job_id scratch id chunk :
  is_uuid_hex id ->
  output_routes (OsPath.join scratch id) chunk
  = OsPath.dir_prefix scratch +:+ id
      +:+ (OsPath.sep +:+ "scratch.gdb" +:+ OsPath.sep +:+ chunk_name "Routes_" chunk).
Proof.
  intros [Hlen Hhex]. unfold output_routes.
  assert (id <> "") as Hne by (intros ->; done).
  rewrite !join_dir_prefix.
  assert (OsPath.dir_prefix (OsPath.dir_prefix scratch +:+ id) = OsPath.dir_prefix scratch +:+ id +:+ OsPath.sep) as ->.
  { unfold OsPath.dir_prefix at 1. rewrite endswith_sep_app, all_hex_endswith_sep by done.
    rewrite bool_decide_eq_false_2; [by rewrite app_assoc|].
    destruct (OsPath.dir_prefix scratch); [by rewrite app_nil_l|done]. }
  assert (forall x, OsPath.dir_prefix (x +:+ "scratch.gdb") = x +:+ "scratch.gdb" +:+ OsPath.sep) as ->.
  { intros x. unfold OsPath.dir_prefix. rewrite endswith_sep_app by done.
    rewrite bool_decide_eq_false_2; [by rewrite app_assoc|].
    by destruct x. }
  by rewrite !app_assoc.
Qed.

Lemma output_routes_order scratch id1 id2 c1 c2 :
  is_uuid_hex id1 -> is_uuid_hex id2 -> id1 <> id2 ->
  String.le (output_routes (OsPath.join scratch id1) c1)
            (output_routes (OsPath.join scratch id2) c2)
  <-> String.le id1 id2.
Proof.
  intros H1 H2 Hne. rewrite !output_routes_job_id by done.
  rewrite !le_compare, compare_app_prefix, compare_app_same_length; [done| |done].
  destruct H1 as [-> _], H2 as [-> _]. done.
Qed.

Lemma sorted_unique paths paths' : paths ≡ₚ paths' -> sorted paths = sorted paths'.
Proof.
  intros Hperm. unfold sorted.
  apply (Sorted_unique String.le); [apply Sorted_merge_sort, _..|].
  by rewrite !merge_sort_Permutation.
Qed.

(** *** The run *)

Lemma LOGGER_catalog lvl msg w : catalog (LOGGER lvl msg w) = catalog w.
Proof. unfold LOGGER. by case_bool_decide. Qed.

Lemma LOGGER_stdout_mono lvl msg w line : line ∈ stdout w -> line ∈ stdout (LOGGER lvl msg w).
Proof.
  unfold LOGGER. case_bool_decide; [|done]. simpl. intros. apply elem_of_app. by left.
Qed.

Lemma LOGGER_emits lvl msg w :
  levelno LOG_LEVEL <= levelno lvl ->
  stdout (LOGGER lvl msg w) = stdout w ++ [levelname lvl +:+ MSG_STR_SPLITTER +:+ msg].
Proof. intros H. unfold LOGGER. by rewrite bool_decide_eq_true_2. Qed.

Section Run.
Variable RT_PROPS : list (string * Value).
Variable RT_PROPS_SET_BY_TOOL : list string.
Variable format_exc : Exn -> list string.

Lemma log_traceback_catalog e w : catalog (log_traceback format_exc e w) = catalog w.
Proof.
  unfold log_traceback. revert w. induction (format_exc e) as [|err errs IH]; intros w; [done|].
  simpl. by rewrite IH, LOGGER_catalog.
Qed.

Lemma log_traceback_stdout_mono e w line :
  line ∈ stdout w -> line ∈ stdout (log_traceback format_exc e w).
Proof.
  unfold log_traceback. revert w. induction (format_exc e) as [|err errs IH]; intros w; [done|].
  simpl. intros Hin. by apply IH, LOGGER_stdout_mono.
Qed.

Lemma _validate_route_settings_catalog arcpy self w :
  catalog (_validate_route_settings RT_PROPS RT_PROPS_SET_BY_TOOL format_exc arcpy self w).1
  = catalog w.
Proof.
  unfold _validate_route_settings.
  destruct (__init__ arcpy (rt_inputs self)) as [rt|e]; simpl.
  - destruct (initialize_rt_solver _ _ arcpy rt); simpl;
      by rewrite ?LOGGER_catalog, ?log_traceback_catalog, ?LOGGER_catalog.
  - by rewrite log_traceback_catalog, !LOGGER_catalog.
Qed.

Lemma _populate_frame self w :
  catalog (_populate_input_data_transfer_fields self w).2 = catalog w
  /\ route_fcs (_populate_input_data_transfer_fields self w).1 = route_fcs self
  /\ out_routes (_populate_input_data_transfer_fields self w).1 = out_routes self
  /\ scratch_folder (_populate_input_data_transfer_fields self w).1 = scratch_folder self
  /\ total_jobs (_populate_input_data_transfer_fields self w).1 = total_jobs self.
Proof.
  unfold _populate_input_data_transfer_fields. simpl.
  repeat case_bool_decide; by rewrite ?LOGGER_catalog.
Qed.

(** Draining completions that could all be retrieved collects the outputs of
    the successful ones and raises nothing. *)
Lemma drain_retrieved results completed_jobs self w :
  exists w',
    drain format_exc (Ret <$> results) completed_jobs self w
    = (with_route_fcs (route_fcs self ++ succeeded_outputs results) self, w', None)
    /\ catalog w' = catalog w
    /\ (forall line, line ∈ stdout w -> line ∈ stdout w').
Proof.
  revert completed_jobs self w. induction results as [|r rs IH]; intros n self w.
  - exists w. simpl. unfold succeeded_outputs. simpl. rewrite (right_id_L [] (++)).
    by destruct self.
  - rewrite fmap_cons. cbn [drain]. unfold succeeded_outputs. rewrite filter_cons.
    destruct (solveSucceeded r) eqn:Hr.
    + rewrite decide_True by done.
      edestruct IH as (w' & -> & Hcat & Hout).
      exists w'. simpl. rewrite <- (assoc_L (++)). split; [done|].
      rewrite Hcat, LOGGER_catalog. split; [done|].
      intros line Hin. by apply Hout, LOGGER_stdout_mono.
    + rewrite decide_False by done.
      edestruct IH as (w' & -> & Hcat & Hout).
      exists w'. split; [done|].
      rewrite Hcat, !LOGGER_catalog. split; [done|].
      intros line Hin. by apply Hout, LOGGER_stdout_mono, LOGGER_stdout_mono, LOGGER_stdout_mono.
Qed.

(** The first completion that cannot be retrieved ends the loop with its
    exception. *)
Lemma drain_raises results e rest completed_jobs self w :
  exists w',
    drain format_exc ((Ret <$> results) ++ Raise e :: rest) completed_jobs self w
    = (with_route_fcs (route_fcs self ++ succeeded_outputs results) self, w', Some e)
    /\ catalog w' = catalog w
    /\ "ERROR | Failed to get Route result from parallel processing." ∈ stdout w'.
Proof.
  revert completed_jobs self w. induction results as [|r rs IH]; intros n self w.
  - simpl. eexists. split.
    { unfold succeeded_outputs. simpl. rewrite (right_id_L [] (++)). by destruct self. }
    rewrite log_traceback_catalog, !LOGGER_catalog. split; [done|].
    apply log_traceback_stdout_mono. rewrite LOGGER_emits by done.
    apply elem_of_app. right. apply list_elem_of_here.
  - rewrite fmap_cons. cbn [app drain]. unfold succeeded_outputs. rewrite filter_cons.
    destruct (solveSucceeded r) eqn:Hr.
    + rewrite decide_True by done.
      edestruct IH as (w' & -> & Hcat & Hout).
      exists w'. simpl. rewrite <- (assoc_L (++)). split; [done|].
      by rewrite Hcat, LOGGER_catalog.
    + rewrite decide_False by done.
      edestruct IH as (w' & -> & Hcat & Hout).
      exists w'. split; [done|].
      by rewrite Hcat, !LOGGER_catalog.
Qed.

Lemma succeeded_outputs_none results :
  Forall (fun r => solveSucceeded r = false) results -> succeeded_outputs results = [].
Proof.
  induction 1 as [|r rs Hr _ IH]; [done|].
  unfold succeeded_outputs. rewrite filter_cons, decide_False by congruence. exact IH.
Qed.

(** C3. Let the settings validate.  When retrieving the result of a job
    raises [e], then whatever the results retrieved before it (any number of
    them successful) and whatever completes after it, the run raises [e]:
    the error is logged, the catalog is left as it was, so no combined output
    is created from the jobs that did finish. *)
Theorem transport_failure_aborts arcpy results e rest self w :
  (_validate_route_settings RT_PROPS RT_PROPS_SET_BY_TOOL format_exc arcpy self w).2 = None ->
  exists self' w',
    solve_route_in_parallel RT_PROPS RT_PROPS_SET_BY_TOOL format_exc arcpy
                            ((Ret <$> results) ++ Raise e :: rest) self w
    = (self', w', Some e)
    /\ catalog w' = catalog w
    /\ catalog w' !! out_routes self = catalog w !! out_routes self
    /\ "ERROR | Failed to get Route result from parallel processing." ∈ stdout w'.
Proof.
  intros Hvalid. unfold solve_route_in_parallel.
  pose proof (_validate_route_settings_catalog arcpy self w) as Hcat0.
  destruct (_validate_route_settings _ _ _ arcpy self w) as [w0 raised].
  simpl in Hvalid, Hcat0. subst raised.
  destruct (_populate_frame self w0) as (Hcat1 & _).
  destruct (_populate_input_data_transfer_fields self w0) as [self1 w1].
  simpl in Hcat1.
  destruct (drain_raises results e rest 0 self1 w1) as (w' & -> & Hcat & Hline).
  eexists _, w'. split; [reflexivity|].
  assert (catalog w' = catalog w) as Hw by (by rewrite Hcat, Hcat1, Hcat0).
  split; [done|]. split; [by rewrite Hw|done].
Qed.

(** C4. Let the settings validate and the calculator be fresh.  When every
    job's result is retrieved with [solveSucceeded] false, the run raises
    nothing, collects no output, and ends by logging the warning that all
    solves failed, the deletion of the intermediate outputs and the end of
    the calculation; the catalog only loses what lay under the scratch
    folder, so the merge did not run and no combined output exists. *)
Theorem all_solves_failed arcpy results self w :
  (_validate_route_settings RT_PROPS RT_PROPS_SET_BY_TOOL format_exc arcpy self w).2 = None ->
  route_fcs self = [] ->
  Forall (fun r => solveSucceeded r = false) results ->
  exists self' w' earlier,
    solve_route_in_parallel RT_PROPS RT_PROPS_SET_BY_TOOL format_exc arcpy
                            (Ret <$> results) self w
    = (self', w', None)
    /\ route_fcs self' = []
    /\ catalog w' = rmtree (scratch_folder self) (catalog w)
    /\ catalog w' ⊆ catalog w
    /\ stdout w'
       = earlier ++ ["WARNING | All Route solves failed, so no output was produced.";
                     "INFO | Deleting intermediate outputs...";
                     "INFO | Finished calculating Routes."].
Proof.
  intros Hvalid Hfresh Hfailed. unfold solve_route_in_parallel.
  pose proof (_validate_route_settings_catalog arcpy self w) as Hcat0.
  destruct (_validate_route_settings _ _ _ arcpy self w) as [w0 raised].
  simpl in Hvalid, Hcat0. subst raised.
  destruct (_populate_frame self w0) as (Hcat1 & Hfcs1 & _ & Hscratch & _).
  destruct (_populate_input_data_transfer_fields self w0) as [self1 w1].
  simpl in Hcat1, Hfcs1, Hscratch.
  destruct (drain_retrieved results 0 self1 w1) as (w2 & -> & Hcat2 & _).
  rewrite (succeeded_outputs_none _ Hfailed), Hfcs1, Hfresh. simpl.
  eexists _, _, (stdout w2). split; [reflexivity|]. simpl.
  rewrite Hscratch, Hcat2, Hcat1, Hcat0.
  split; [done|]. split; [done|]. split; [apply map_filter_subseteq|].
  by rewrite <- !(assoc_L (++)).
Qed.

End Run.

Lemma succeeded_outputs_Permutation results results' :
  results' ≡ₚ results -> succeeded_outputs results' ≡ₚ succeeded_outputs results.
Proof. intros Hperm. unfold succeeded_outputs. by rewrite Hperm. Qed.

Section SortedRun.
Variable RT_PROPS : list (string * Value).
Variable RT_PROPS_SET_BY_TOOL : list string.
Variable format_exc : Exn -> list string.

Lemma run_route_fcs_sorted arcpy results self w :
  (_validate_route_settings RT_PROPS RT_PROPS_SET_BY_TOOL format_exc arcpy self w).2 = None ->
  route_fcs self = [] ->
  succeeded_outputs results <> [] ->
  route_fcs (solve_route_in_parallel RT_PROPS RT_PROPS_SET_BY_TOOL format_exc arcpy
                                     (Ret <$> results) self w).1.1
  = sorted (succeeded_outputs results).
Proof.
  intros Hvalid Hfresh Hsome. unfold solve_route_in_parallel.
  destruct (_validate_route_settings _ _ _ arcpy self w) as [w0 raised].
  simpl in Hvalid. subst raised.
  destruct (_populate_frame self w0) as (_ & Hfcs1 & _).
  destruct (_populate_input_data_transfer_fields self w0) as [self1 w1].
  simpl in Hfcs1.
  destruct (drain_retrieved format_exc results 0 self1 w1) as (w2 & -> & _ & _).
  rewrite Hfcs1, Hfresh. cbn [app route_fcs with_route_fcs].
  rewrite bool_decide_eq_false_2 by done.
  destruct (_post_process_route_fcs _ _) as [c [e|]]; done.
Qed.

(** C2, amended.  In a run whose settings validate and whose results are all
    retrieved, the merger works through the successful output paths sorted
    in the order of strings: a sorted permutation of the paths collected,
    the same for every order of completion.  Between two jobs of one scratch
    folder that order is the order of their job ids, the 32 hexadecimal
    digits of [uuid4], whatever chunks the jobs solved. *)
Theorem merge_order_by_path arcpy results self w :
  (_validate_route_settings RT_PROPS RT_PROPS_SET_BY_TOOL format_exc arcpy self w).2 = None ->
  route_fcs self = [] ->
  succeeded_outputs results <> [] ->
  route_fcs (solve_route_in_parallel RT_PROPS RT_PROPS_SET_BY_TOOL format_exc arcpy
                                     (Ret <$> results) self w).1.1
  = sorted (succeeded_outputs results)
  /\ Sorted String.le (sorted (succeeded_outputs results))
  /\ sorted (succeeded_outputs results) ≡ₚ succeeded_outputs results
  /\ (forall results',
        results' ≡ₚ results ->
        sorted (succeeded_outputs results') = sorted (succeeded_outputs results))
  /\ (forall scratch id1 id2 c1 c2,
        is_uuid_hex id1 -> is_uuid_hex id2 -> id1 <> id2 ->
        String.le (output_routes (OsPath.join scratch id1) c1)
                  (output_routes (OsPath.join scratch id2) c2)
        <-> String.le id1 id2).
Proof.
  intros Hvalid Hfresh Hsome.
  split; [by apply run_route_fcs_sorted|].
  split; [apply Sorted_merge_sort, _|].
  split; [apply merge_sort_Permutation|].
  split.
  - intros results' Hperm. by apply sorted_unique, succeeded_outputs_Permutation.
  - intros scratch id1 id2 c1 c2. apply output_routes_order.
Qed.
End SortedRun.

Lemma merge_order_by_path_witness :
  route_fcs (batch_run [id_b; id_a]).1.1
  = [outputRoutes (job_done id_a (3, 4)); outputRoutes (job_done id_b (1, 2))].
Proof.
  unfold batch_run.
  rewrite (proj1 (merge_order_by_path rt_props_ok ["timeUnits"] (fun _ => []) arcpy_ok
                    (batch_results [id_b; id_a]) calc_ok (batch_world [id_b; id_a])
                    eq_refl eq_refl ltac:(discriminate))).
  reflexivity.
Defined.

(** C2 as stated fails: two runs of the same batch (the same chunks with the
    same routes, completing in the same order) whose jobs drew their ids the
    other way round merge the chunks in opposite orders. *)
Lemma merge_order_not_reproducible :
  ~ (forall ids1 ids2 : list string,
       NoDup ids1 -> NoDup ids2 ->
       Forall is_uuid_hex ids1 -> Forall is_uuid_hex ids2 ->
       length ids1 = length (origin_ranges calc_ok) ->
       length ids2 = length (origin_ranges calc_ok) ->
       merged_rows ids1 = merged_rows ids2).
Proof.
  intros H.
  assert (is_uuid_hex id_a /\ is_uuid_hex id_b) as [Ha Hb] by (by repeat split).
  assert (merged_rows [id_a; id_b] = merged_rows [id_b; id_a]) as Heq;
    [apply H|vm_compute in Heq; discriminate].
  - apply NoDup_cons. split; [|apply NoDup_singleton].
    intros Hin%list_elem_of_singleton. by vm_compute in Hin.
  - apply NoDup_cons. split; [|apply NoDup_singleton].
    intros Hin%list_elem_of_singleton. by vm_compute in Hin.
  - by repeat constructor.
  - by repeat constructor.
  - reflexivity.
  - reflexivity.
Qed.

(** The sample job result is what [solve_route] returns for the sample job. *)
Example job_done_solve_route :
  solve_route rt_props_ok ["timeUnits"] arcpy_ok inputs_ok (1, 2) = Ret (job_done id_a (1, 2)).
Proof. vm_compute. reflexivity. Qed.

Lemma transport_failure_aborts_witness :
  exists self' w',
    solve_route_in_parallel rt_props_ok ["timeUnits"] (fun _ => ["Traceback"]) arcpy_ok
      ([Ret (job_done id_a (1, 2)); Raise (BrokenProcessPool "terminated abruptly");
        Ret (job_done id_b (3, 4))])
      calc_ok (batch_world [id_a; id_b])
    = (self', w', Some (BrokenProcessPool "terminated abruptly"))
    /\ catalog w' !! out_routes calc_ok = None.
Proof.
  destruct (transport_failure_aborts rt_props_ok ["timeUnits"] (fun _ => ["Traceback"]) arcpy_ok
              [job_done id_a (1, 2)] (BrokenProcessPool "terminated abruptly")
              [Ret (job_done id_b (3, 4))] calc_ok (batch_world [id_a; id_b]) eq_refl)
    as (self' & w' & Hrun & _ & Hout & _).
  exists self', w'. split; [exact Hrun|]. rewrite Hout. reflexivity.
Defined.

Lemma all_solves_failed_witness :
  exists self' w',
    solve_route_in_parallel rt_props_ok ["timeUnits"] (fun _ => []) arcpy_ok
      [Ret (job_failed id_a); Ret (job_failed id_b)] calc_ok {| catalog := ∅; stdout := [] |}
    = (self', w', None)
    /\ route_fcs self' = [].
Proof.
  destruct (all_solves_failed rt_props_ok ["timeUnits"] (fun _ => []) arcpy_ok
              [job_failed id_a; job_failed id_b] calc_ok {| catalog := ∅; stdout := [] |}
              eq_refl eq_refl ltac:(by repeat constructor))
    as (self' & w' & earlier & Hrun & Hfcs & _).
  exists self', w'. split; [exact Hrun | exact Hfcs].
Defined.

Lemma post_process_route_fcs_merges_witness :
  exists merged,
    _post_process_route_fcs merging_ok (catalog (batch_world [id_a; id_b]))
    = (<[out_routes merging_ok := merged]> (catalog (batch_world [id_a; id_b])), None)
    /\ length (rows merged) = 4%nat.
Proof.
  destruct (post_process_route_fcs_merges merging_ok (catalog (batch_world [id_a; id_b]))
              (chunk_output (1, 2)) [chunk_output (3, 4)])
    as (merged & Hrun & _ & _ & _ & Hlen).
  - vm_compute. intros Hin.
    repeat (apply elem_of_cons in Hin as [Hin|Hin]; [discriminate|]).
    by apply elem_of_nil in Hin.
  - split.
    + vm_compute. repeat (apply NoDup_cons; split;
        [intros Hin; repeat (apply elem_of_cons in Hin as [Hin|Hin]; [discriminate|]);
         by apply elem_of_nil in Hin|]). apply NoDup_nil. done.
    + vm_compute. intros Hin.
      repeat (apply elem_of_cons in Hin as [Hin|Hin]; [discriminate|]).
      by apply elem_of_nil in Hin.
  - repeat constructor.
  - exists merged. split; [exact Hrun | exact Hlen].
Defined.

End CalculatorFacts.

(** ** The job from creation to result *)

Module RouteRunFacts.
Import Helpers Route RouteSteps Samples StringFacts HelpersFacts RouteFacts.



Lemma __init___started arcpy kw :
  fault arcpy OsMkdir = None ->
  (is_nds_service (kw_network_data_source kw) = false ->
   fault arcpy MakeNetworkDatasetLayer = None) ->
  __init__ arcpy kw = Ret (started arcpy kw).
Proof.
  intros Hmk Hnds. unfold __init__, call, started, initial_job_result. rewrite Hmk. simpl.
  destruct (is_nds_service (kw_network_data_source kw)); [done|].
  by rewrite Hnds.
Qed.

Lemma filter_range_split (a b c : Z) (l : list OriginRow) :
  a <= b + 1 -> b <= c ->
  filter (fun r => a <= o_oid r <= c) l
  ≡ₚ filter (fun r => a <= o_oid r <= b) l ++ filter (fun r => b + 1 <= o_oid r <= c) l.
Proof.
  intros Hab Hbc. induction l as [|r l IH]; [done|].
  rewrite !filter_cons.
  destruct (decide (a <= o_oid r <= b)), (decide (b + 1 <= o_oid r <= c)),
    (decide (a <= o_oid r <= c)); try lia.
  - simpl. by f_equiv.
  - rewrite <- Permutation_middle. by f_equiv.
  - done.
Qed.

(** X2. [_select_inputs] keeps the origins whose ObjectID lies in the
    chunk, both ends included.  Over chunks that follow one another without
    a gap from [start] to [last], the selections taken together are the
    origins with an ObjectID from [start] to [last], each one once, and no
    origin is selected by two chunks. *)
Theorem _select_inputs_partition (arcpy : Arcpy) (start last : Z) (chunks : list Chunk) :
  chained start chunks last ->
  (forall chunk self,
      fault arcpy MakeOriginsLayer = None ->
      _select_inputs arcpy chunk self
      = Ret (with_input_origins_layer (chunk_origins arcpy chunk) self))
  /\ mjoin (chunk_origins arcpy <$> chunks)
     ≡ₚ filter (fun r => start <= o_oid r <= last) (origins_table arcpy)
  /\ (forall (j k : nat) c d o,
         chunks !! j = Some c -> chunks !! k = Some d -> (j < k)%nat ->
         o ∈ chunk_origins arcpy c -> o ∉ chunk_origins arcpy d).
Proof.
  intros Hchained. split; [|split].
  - intros chunk self Hsel. unfold _select_inputs, call. by rewrite Hsel.
  - revert start Hchained. induction chunks as [|[low high] chunks IH]; intros start Hchained.
    + simpl in *. subst last. symmetry. apply Permutation_nil_r.
      induction (origins_table arcpy) as [|r l IHl]; [done|].
      rewrite filter_cons. destruct (decide _); [lia|done].
    + simpl in Hchained. destruct Hchained as (-> & Hle & Hrest).
      pose proof (chained_bounds _ _ _ Hrest) as Hlast.
      rewrite fmap_cons. simpl. rewrite (IH _ Hrest).
      symmetry. apply filter_range_split; simpl; lia.
  - intros j k c d o Hj Hk Hjk Hc Hd.
    pose proof (chained_disjoint _ _ _ Hchained j k c d Hj Hk Hjk) as Hlt.
    unfold chunk_origins in Hc, Hd.
    apply list_elem_of_filter in Hc as [Hc _]. apply list_elem_of_filter in Hd as [Hd _].
    lia.
Qed.

Lemma _select_inputs_partition_witness :
  mjoin (chunk_origins arcpy_ok <$> [(1, 2); (3, 4)])
  ≡ₚ filter (fun r => 1 <= o_oid r <= 4) (origins_table arcpy_ok).
Proof.
  refine (proj1 (proj2 (_select_inputs_partition arcpy_ok 1 4 [(1, 2); (3, 4)] _))).
  simpl. lia.
Defined.


Lemma valid_barriers_cons arcpy barrier_fc rest :
  valid_barriers arcpy (barrier_fc :: rest)
  = match barrier_class_type (barrier_shape_type arcpy barrier_fc) with
    | Some class_type => (class_type, barrier_fc) :: valid_barriers arcpy rest
    | None => valid_barriers arcpy rest
    end.
Proof.
  unfold valid_barriers. simpl.
  by destruct (barrier_class_type (barrier_shape_type arcpy barrier_fc)).
Qed.

Lemma barriers_ok_cons arcpy barrier_fc rest :
  barriers_ok arcpy (barrier_fc :: rest) -> barriers_ok arcpy rest.
Proof.
  intros Hok class_type fc Hin. apply (Hok class_type). rewrite valid_barriers_cons.
  destruct (barrier_class_type _); [by apply list_elem_of_further|done].
Qed.

Lemma load_barriers_Ret arcpy todo s :
  barriers_ok arcpy todo ->
  load_barriers arcpy todo s
  = Ret {| props := props s; added_fields := added_fields s; stops := stops s;
           loaded_barriers := loaded_barriers s ++ valid_barriers arcpy todo |}.
Proof.
  revert s. induction todo as [|barrier_fc rest IH]; intros s Hok.
  - simpl. rewrite List.app_nil_r. by destruct s.
  - cbn [load_barriers]. rewrite valid_barriers_cons.
    pose proof (barriers_ok_cons _ _ _ Hok) as Hrest.
    destruct (barrier_class_type (barrier_shape_type arcpy barrier_fc)) as [class_type|] eqn:Hct.
    + unfold call. rewrite (Hok class_type barrier_fc).
      * simpl. rewrite (IH _ Hrest). simpl. by rewrite <- List.app_assoc.
      * rewrite valid_barriers_cons, Hct. apply list_elem_of_here.
    + by apply IH.
Qed.

(** X3. The barrier loop of [solve].  When loading succeeds for the
    barriers that come before one barrier: if it also succeeds for that one
    and those after it, the solver ends with the barriers of shape type
    Polygon, Polyline or Point loaded in the order of the list, each under
    the class of its shape type, and nothing else changed; a barrier of any
    other shape type is passed over as if it were not in the list; and a
    failure to load a barrier of a valid shape type is raised out of the
    loop. *)
Theorem load_barriers_valid_shapes (arcpy : Arcpy) (before after : list string)
        (barrier_fc : string) (s : Solver) :
  barriers_ok arcpy before ->
  (barriers_ok arcpy (barrier_fc :: after) ->
   load_barriers arcpy (before ++ barrier_fc :: after) s
   = Ret {| props := props s; added_fields := added_fields s; stops := stops s;
            loaded_barriers :=
              loaded_barriers s ++ valid_barriers arcpy (before ++ barrier_fc :: after) |})
  /\ (barrier_class_type (barrier_shape_type arcpy barrier_fc) = None ->
      load_barriers arcpy (before ++ barrier_fc :: after) s
      = load_barriers arcpy (before ++ after) s)
  /\ (forall e,
        is_Some (barrier_class_type (barrier_shape_type arcpy barrier_fc)) ->
        fault arcpy (LoadBarriers barrier_fc) = Some e ->
        load_barriers arcpy (before ++ barrier_fc :: after) s = Raise e).
Proof.
  intros Hbefore.
  assert (forall todo s0,
             load_barriers arcpy (before ++ todo) s0
             = (s1 ← load_barriers arcpy before s0; load_barriers arcpy todo s1)) as Happ.
  { intros todo. clear Hbefore. induction before as [|fc rest IH]; intros s0; [done|].
    simpl. destruct (barrier_class_type (barrier_shape_type arcpy fc)); [|apply IH].
    destruct (call arcpy (LoadBarriers fc)); [|done]. simpl. apply IH. }
  split; [|split].
  - intros Hafter. apply load_barriers_Ret.
    intros class_type fc Hin. unfold valid_barriers in Hin.
    rewrite omap_app in Hin. apply elem_of_app in Hin as [Hin|Hin].
    + by apply (Hbefore class_type).
    + by apply (Hafter class_type).
  - intros Hnone. rewrite !Happ. rewrite (load_barriers_Ret _ _ _ Hbefore). simpl.
    by rewrite Hnone.
  - intros e [class_type Hct] He. rewrite Happ, (load_barriers_Ret _ _ _ Hbefore). simpl.
    rewrite Hct. unfold call. by rewrite He.
Qed.

Lemma load_barriers_valid_shapes_witness :
  load_barriers arcpy_ok (["C:\in.gdb\Closures"] ++ "C:\in.gdb\Floods" :: []) solver_ok
  = Ret {| props := props solver_ok; added_fields := []; stops := [];
           loaded_barriers := [("PointBarriers", "C:\in.gdb\Closures");
                               ("PointBarriers", "C:\in.gdb\Floods")] |}.
Proof.
  refine (proj1 (load_barriers_valid_shapes arcpy_ok ["C:\in.gdb\Closures"] []
                   "C:\in.gdb\Floods" solver_ok _) _).
  - intros class_type fc Hin. reflexivity.
  - intros class_type fc Hin. reflexivity.
Defined.

Lemma chunk_stops_nil arcpy kw chunk :
  chunk_stops arcpy kw chunk = [] <-> matched_pairs arcpy (chunk_origins arcpy chunk) = [].
Proof.
  unfold chunk_stops, origin_rows, destination_rows.
  destruct (matched_pairs arcpy (chunk_origins arcpy chunk)); [done|].
  split; [|done]. rewrite fmap_cons. simpl. done.
Qed.

Lemma _export_to_feature_class_Ret arcpy chunk self :
  export_ok arcpy (kw_reverse_direction (kwargs self)) ->
  _export_to_feature_class arcpy chunk self
  = Ret (with_job_result (set_outputRoutes (output_routes (job_folder self) chunk)) self).
Proof.
  intros Hok. unfold _export_to_feature_class, call.
  assert (forall i st, export_steps (kw_reverse_direction (kwargs self)) !! i = Some st ->
                       fault arcpy st = None) as Hstep.
  { intros i st Hi. apply Hok. by eapply list_elem_of_lookup_2. }
  rewrite (Hstep 0%nat _ eq_refl). simpl.
  rewrite (Hstep 1%nat _ eq_refl). simpl.
  rewrite (Hstep 2%nat _ eq_refl). simpl.
  rewrite (Hstep 3%nat _ eq_refl). simpl.
  rewrite (Hstep 4%nat _ eq_refl). simpl.
  done.
Qed.

Lemma _export_to_feature_class_Raise arcpy chunk self st e :
  st ∈ export_steps (kw_reverse_direction (kwargs self)) ->
  fault arcpy st = Some e ->
  exists e', _export_to_feature_class arcpy chunk self = Raise e'
             /\ exists st', st' ∈ export_steps (kw_reverse_direction (kwargs self))
                            /\ fault arcpy st' = Some e'.
Proof.
  intros Hin He. unfold _export_to_feature_class, call.
  set (steps := export_steps (kw_reverse_direction (kwargs self))) in *.
  assert (forall i st', steps !! i = Some st' -> st' ∈ steps) as Hmem.
  { intros i st' Hi. by eapply list_elem_of_lookup_2. }
  destruct (fault arcpy CreateFileGDB) as [e0|] eqn:H0; simpl.
  { exists e0. split; [done|]. exists CreateFileGDB. split; [|done]. by apply (Hmem 0%nat). }
  destruct (fault arcpy ExportRoutes) as [e1|] eqn:H1; simpl.
  { exists e1. split; [done|]. exists ExportRoutes. split; [|done]. by apply (Hmem 1%nat). }
  destruct (fault arcpy ExportStops) as [e2|] eqn:H2; simpl.
  { exists e2. split; [done|]. exists ExportStops. split; [|done]. by apply (Hmem 2%nat). }
  destruct (fault arcpy (JoinField "FirstStopOID" _)) as [e3|] eqn:H3; simpl.
  { exists e3. split; [done|]. eexists. split; [|exact H3]. by apply (Hmem 3%nat). }
  destruct (fault arcpy (JoinField "LastStopOID" _)) as [e4|] eqn:H4; simpl.
  { exists e4. split; [done|]. eexists. split; [|exact H4]. by apply (Hmem 4%nat). }
  exfalso. subst steps. unfold export_steps in Hin.
  repeat (apply elem_of_cons in Hin as [->|Hin]; [congruence|]).
  by apply elem_of_nil in Hin.
Qed.

Lemma solve_route_after_stops RT_PROPS RT_PROPS_SET_BY_TOOL arcpy kw chunk :
  job_setup_ok arcpy kw ->
  barriers_ok arcpy (default [] (kw_barriers kw)) ->
  fault arcpy SolverSolve = None ->
  chunk_stops arcpy kw chunk <> [] ->
  let result := solve_outcome arcpy (chunk_stops arcpy kw chunk) in
  exists self,
    kwargs self = kw
    /\ job_folder self = OsPath.join (kw_scratch_folder kw) (uuid4_hex arcpy)
    /\ job_result self
       = set_solveSucceeded true
           (set_solveMessages (MsgList result.2) (initial_job_result arcpy kw))
    /\ solve_route RT_PROPS RT_PROPS_SET_BY_TOOL arcpy kw chunk
       = if negb result.1
         then Ret (set_solveMessages (MsgList result.2) (initial_job_result arcpy kw))
         else rt ← _export_to_feature_class arcpy chunk self; Ret (job_result rt).
Proof.
  intros (Hmk & Hnds & Hsel & Hnew & Hacc & Hstops) Hbarriers Hsolve Hne result.
  pose proof (__init___started arcpy kw Hmk Hnds) as Hinit.
  destruct (insert_chunk_stops_returns RT_PROPS RT_PROPS_SET_BY_TOOL arcpy chunk
              (started arcpy kw) Hsel Hnew Hacc Hstops) as (s & Hins & Hs).
  change (kwargs (started arcpy kw)) with kw in Hs. fold (chunk_stops arcpy kw chunk) in Hs.
  eexists. split; [|split; [|split]]; cycle 3.
  - unfold solve_route. rewrite Hinit. simpl.
    rewrite solve_unfold, Hins. simpl.
    rewrite bool_decide_eq_false_2.
    2:{ rewrite Hs. by destruct (chunk_stops arcpy kw chunk). }
    rewrite (load_barriers_Ret _ _ _ Hbarriers). simpl.
    unfold call. rewrite Hsolve. simpl. rewrite Hs. fold result.
    destruct (result.1); simpl; reflexivity.
  - reflexivity.
  - reflexivity.
  - reflexivity.
Qed.

(** X4. A job whose engine calls all succeed, whose chunk has at least
    one matched pair and whose solver reports success returns the result of
    a successful solve: [solveSucceeded] true, the solver's messages, and as
    [outputRoutes] the feature class [Routes_low_high] in [scratch.gdb]
    under the job folder. *)
Theorem solve_route_succeeds RT_PROPS RT_PROPS_SET_BY_TOOL (arcpy : Arcpy) (kw : Inputs)
        (chunk : Chunk) (msgs : list string) :
  job_setup_ok arcpy kw ->
  barriers_ok arcpy (default [] (kw_barriers kw)) ->
  fault arcpy SolverSolve = None ->
  export_ok arcpy (kw_reverse_direction kw) ->
  matched_pairs arcpy (chunk_origins arcpy chunk) <> [] ->
  solve_outcome arcpy (chunk_stops arcpy kw chunk) = (true, msgs) ->
  solve_route RT_PROPS RT_PROPS_SET_BY_TOOL arcpy kw chunk
  = Ret {| jobId := uuid4_hex arcpy;
           jobFolder := OsPath.join (kw_scratch_folder kw) (uuid4_hex arcpy);
           solveSucceeded := true;
           solveMessages := MsgList msgs;
           outputRoutes :=
             output_routes (OsPath.join (kw_scratch_folder kw) (uuid4_hex arcpy)) chunk;
           logFile := OsPath.join (OsPath.join (kw_scratch_folder kw) (uuid4_hex arcpy))
                                  "RoutePairs.log" |}.
Proof.
  intros Hsetup Hbarriers Hsolve Hexport Hpairs Hout.
  destruct (solve_route_after_stops RT_PROPS RT_PROPS_SET_BY_TOOL arcpy kw chunk
              Hsetup Hbarriers Hsolve) as (self & Hkw & Hfolder & Hres & ->).
  { by rewrite chunk_stops_nil. }
  rewrite Hout. simpl. rewrite <- Hkw in Hexport.
  rewrite (_export_to_feature_class_Ret _ _ _ Hexport). simpl.
  by rewrite Hres, Hfolder, Hout.
Qed.

Lemma solve_route_succeeds_witness :
  exists jr,
    solve_route rt_props_ok ["timeUnits"] arcpy_ok inputs_ok (1, 2) = Ret jr
    /\ solveSucceeded jr = true.
Proof.
  eexists. split.
  - apply (solve_route_succeeds rt_props_ok ["timeUnits"] arcpy_ok inputs_ok (1, 2)
             ["Solve succeeded"]).
    + by apply job_setup_ok_sample.
    + intros class_type fc Hin. reflexivity.
    + reflexivity.
    + intros st Hin. reflexivity.
    + vm_compute. discriminate.
    + reflexivity.
  - reflexivity.
Defined.

(** X5. When the solver reports that the solve did not succeed, the job
    returns its result with [solveSucceeded] false, the solver's messages
    and no output path.  Nothing is exported: the result is the same
    whatever the export calls would do. *)
Theorem solve_route_solver_failure RT_PROPS RT_PROPS_SET_BY_TOOL (arcpy : Arcpy)
        (kw : Inputs) (chunk : Chunk) (msgs : list string) :
  job_setup_ok arcpy kw ->
  barriers_ok arcpy (default [] (kw_barriers kw)) ->
  fault arcpy SolverSolve = None ->
  matched_pairs arcpy (chunk_origins arcpy chunk) <> [] ->
  solve_outcome arcpy (chunk_stops arcpy kw chunk) = (false, msgs) ->
  solve_route RT_PROPS RT_PROPS_SET_BY_TOOL arcpy kw chunk
  = Ret {| jobId := uuid4_hex arcpy;
           jobFolder := OsPath.join (kw_scratch_folder kw) (uuid4_hex arcpy);
           solveSucceeded := false;
           solveMessages := MsgList msgs;
           outputRoutes := "";
           logFile := OsPath.join (OsPath.join (kw_scratch_folder kw) (uuid4_hex arcpy))
                                  "RoutePairs.log" |}.
Proof.
  intros Hsetup Hbarriers Hsolve Hpairs Hout.
  destruct (solve_route_after_stops RT_PROPS RT_PROPS_SET_BY_TOOL arcpy kw chunk
              Hsetup Hbarriers Hsolve) as (self & Hkw & Hfolder & Hres & ->).
  { by rewrite chunk_stops_nil. }
  by rewrite Hout.
Qed.

Lemma solve_route_solver_failure_witness :
  exists jr,
    solve_route rt_props_ok ["timeUnits"] arcpy_unsolved inputs_ok (1, 2) = Ret jr
    /\ solveSucceeded jr = false /\ outputRoutes jr = ""
    /\ solveMessages jr = MsgList ["No route found"].
Proof.
  eexists. split.
  - apply (solve_route_solver_failure rt_props_ok ["timeUnits"] arcpy_unsolved inputs_ok
             (1, 2) ["No route found"]).
    + by apply job_setup_ok_sample.
    + intros class_type fc Hin. reflexivity.
    + reflexivity.
    + vm_compute. discriminate.
    + reflexivity.
  - by repeat split.
Defined.

(** X6. When the solver reports success and one of the five engine calls
    of the export fails, [solve_route] raises the error of a failing export
    call: no result is returned although the solve succeeded. *)
Theorem solve_route_export_failure RT_PROPS RT_PROPS_SET_BY_TOOL (arcpy : Arcpy)
        (kw : Inputs) (chunk : Chunk) (msgs : list string) (st : Step) (e : Exn) :
  job_setup_ok arcpy kw ->
  barriers_ok arcpy (default [] (kw_barriers kw)) ->
  fault arcpy SolverSolve = None ->
  matched_pairs arcpy (chunk_origins arcpy chunk) <> [] ->
  solve_outcome arcpy (chunk_stops arcpy kw chunk) = (true, msgs) ->
  st ∈ export_steps (kw_reverse_direction kw) ->
  fault arcpy st = Some e ->
  exists e' st',
    solve_route RT_PROPS RT_PROPS_SET_BY_TOOL arcpy kw chunk = Raise e'
    /\ st' ∈ export_steps (kw_reverse_direction kw) /\ fault arcpy st' = Some e'.
Proof.
  intros Hsetup Hbarriers Hsolve Hpairs Hout Hin He.
  destruct (solve_route_after_stops RT_PROPS RT_PROPS_SET_BY_TOOL arcpy kw chunk
              Hsetup Hbarriers Hsolve) as (self & Hkw & Hfolder & Hres & ->).
  { by rewrite chunk_stops_nil. }
  rewrite Hout. simpl. rewrite <- Hkw in Hin.
  destruct (_export_to_feature_class_Raise arcpy chunk self st e Hin He)
    as (e' & -> & st' & Hin' & He').
  rewrite Hkw in Hin'. by exists e', st'.
Qed.

Lemma solve_route_export_failure_witness :
  exists e' st',
    solve_route rt_props_ok ["timeUnits"] arcpy_no_gdb inputs_ok (1, 2) = Raise e'
    /\ st' ∈ export_steps false /\ fault arcpy_no_gdb st' = Some e'.
Proof.
  apply (solve_route_export_failure rt_props_ok ["timeUnits"] arcpy_no_gdb inputs_ok (1, 2)
           ["Solve succeeded"] CreateFileGDB (ExecuteError "ERROR 000732")).
  - unfold job_setup_ok, stops_setup_ok, accepts_caller_props.
    repeat split; eexists _, _; (split; [reflexivity|]); by eexists.
  - intros class_type fc Hin. reflexivity.
  - reflexivity.
  - vm_compute. discriminate.
  - reflexivity.
  - apply list_elem_of_here.
  - reflexivity.
Defined.




Lemma string_app_inv_head (p a b : string) : p +:+ a = p +:+ b -> a = b.
Proof.
  induction p as [|c p IH]; [done|]. rewrite !app_cons. intros [= H]. by apply IH.
Qed.

Lemma string_app_same_length (a b x y : string) :
  String.length a = String.length b -> a +:+ x = b +:+ y -> a = b.
Proof.
  revert b. induction a as [|c a IH]; intros [|d b] Hlen Heq; try done.
  rewrite !app_cons in Heq. injection Heq as -> Heq. f_equal. apply IH; [|done].
  simpl in Hlen. lia.
Qed.

Lemma string_prefix_app (p s : string) : String.prefix p (p +:+ s) = true.
Proof.
  induction p as [|c p IH].
  - rewrite app_nil_l. by destruct s.
  - rewrite app_cons, prefix_cons. by destruct (ascii_dec c c).
Qed.

(** X8. Two jobs of one scratch folder with different job ids write their
    routes to different feature classes, whatever chunks they solve, and the
    output of a job lies under the scratch folder. *)
Theorem output_routes_distinct_jobs (scratch id1 id2 : string) (c1 c2 : Chunk) :
  is_uuid_hex id1 -> is_uuid_hex id2 -> id1 <> id2 ->
  output_routes (OsPath.join scratch id1) c1 <> output_routes (OsPath.join scratch id2) c2
  /\ String.prefix (OsPath.join scratch "") (output_routes (OsPath.join scratch id1) c1) = true.
Proof.
  intros H1 H2 Hne. rewrite !CalculatorFacts.output_routes_job_id by done. split.
  - intros Heq. apply string_app_inv_head in Heq.
    apply Hne. apply (string_app_same_length _ _ _ _ (eq_trans (proj1 H1) (eq_sym (proj1 H2))) Heq).
  - rewrite CalculatorFacts.join_dir_prefix, app_nil_r.
    apply string_prefix_app.
Qed.

Lemma output_routes_distinct_jobs_witness :
  outputRoutes (job_done id_a (1, 2)) <> outputRoutes (job_done id_b (1, 2)).
Proof.
  apply (output_routes_distinct_jobs "C:\scratch" id_a id_b (1, 2) (1, 2)).
  - split; reflexivity.
  - split; reflexivity.
  - discriminate.
Defined.

End RouteRunFacts.

(** ** The run of the calculator *)

Module CalculatorRunFacts.
Import Helpers Route Calculator Samples StringFacts HelpersFacts CalculatorFacts.

Lemma LOGGER_DEBUG msg w : LOGGER DEBUG msg w = w.
Proof. reflexivity. Qed.

Lemma LOGGER_stdout lvl msg w :
  levelno LOG_LEVEL <= levelno lvl ->
  LOGGER lvl msg w
  = {| catalog := catalog w;
       stdout := stdout w ++ [levelname lvl +:+ MSG_STR_SPLITTER +:+ msg] |}.
Proof. intros Hlvl. unfold LOGGER. by rewrite bool_decide_eq_true_2. Qed.

(** X9. [_populate_input_data_transfer_fields] puts into the job inputs,
    for origins and destinations alike, the names of the input fields that
    are Stops fields of a matching type, in the order of the input fields.
    A transferred name is the name of an input field, is a key of
    [rt_stops_input_fields] with the field's type among the types listed for
    it, and is never RouteName, Sequence or LocationType.  One line is
    logged for each of the two lists that is not empty, none for an empty
    one. *)
Theorem transfer_fields_supported (self : Calculator.t) (w : World) :
  let self' := (_populate_input_data_transfer_fields self w).1 in
  let w' := (_populate_input_data_transfer_fields self w).2 in
  let origin_names := transfer_fields (origins_fields self) in
  let destination_names := transfer_fields (destinations_fields self) in
  kw_origin_transfer_fields (rt_inputs self') = origin_names
  /\ kw_destination_transfer_fields (rt_inputs self') = destination_names
  /\ origin_names `sublist_of` (f_name <$> origins_fields self)
  /\ destination_names `sublist_of` (f_name <$> destinations_fields self)
  /\ (forall fs n,
        n ∈ transfer_fields fs ->
        (n ∉ ["RouteName"; "Sequence"; "LocationType"])
        /\ exists f types,
            f ∈ fs /\ f_name f = n
            /\ rt_stops_input_fields !! n = Some types /\ f_type f ∈ types)
  /\ stdout w'
     = stdout w
         ++ (if bool_decide (origin_names = []) then []
             else ["INFO | Supported fields in the input Origins table that will be used in the analysis: "
                     +:+ repr_list origin_names])
         ++ (if bool_decide (destination_names = []) then []
             else ["INFO | Supported fields in the input Destinations table that will be used in the analysis: "
                     +:+ repr_list destination_names]).
Proof.
  intros self' w' origin_names destination_names.
  subst self' w'. unfold _populate_input_data_transfer_fields.
  fold origin_names destination_names. cbn [fst snd].
  split; [done|]. split; [done|].
  split; [apply fmap_sublist, sublist_filter|].
  split; [apply fmap_sublist, sublist_filter|].
  split.
  - intros fs n Hin. unfold transfer_fields in Hin.
    apply list_elem_of_fmap in Hin as (f & -> & Hf).
    apply list_elem_of_filter in Hf as [Hok Hf]. unfold transferable in Hok.
    destruct (rt_stops_input_fields !! f_name f) as [types|] eqn:Hkey; [|done].
    apply bool_decide_eq_true_1 in Hok. split.
    + intros Hex. repeat (apply elem_of_cons in Hex as [Hex|Hex];
                          [rewrite Hex in Hkey; by vm_compute in Hkey|]).
      by apply elem_of_nil in Hex.
    + by exists f, types.
  - repeat case_bool_decide; rewrite ?LOGGER_stdout by done; simpl;
      rewrite ?(right_id_L [] (++)); try done.
    by rewrite <- (assoc_L (++)).
Qed.

Section Run.
Variable RT_PROPS : list (string * Value).
Variable RT_PROPS_SET_BY_TOOL : list string.
Variable format_exc : Exn -> list string.

Lemma log_traceback_stdout e w :
  log_traceback format_exc e w
  = {| catalog := catalog w;
       stdout := stdout w ++ ((fun err => "ERROR | " +:+ err) <$> format_exc e) |}.
Proof.
  unfold log_traceback. revert w. induction (format_exc e) as [|err errs IH]; intros w.
  - simpl. rewrite (right_id_L [] (++)). by destruct w.
  - simpl. rewrite IH. rewrite LOGGER_stdout by done. simpl.
    by rewrite <- (assoc_L (++)).
Qed.

(** X10. The pre-flight check gates the run.  A validation that passes
    writes nothing and leaves the world as it was.  A validation that raises
    ends [solve_route_in_parallel] at once, whatever results the jobs would
    give: the calculator and the catalog are unchanged, the exception is
    raised again, and stdout gains the error line followed by the lines of
    the traceback, each at level ERROR.  A solver that refuses the travel
    mode of the inputs is one cause of such a failure. *)
Theorem validation_gates_the_run (arcpy : Arcpy) (completions : list (Res JobResult))
        (self : Calculator.t) (w : World) :
  let validation :=
    _validate_route_settings RT_PROPS RT_PROPS_SET_BY_TOOL format_exc arcpy self w in
  (validation.2 = None -> validation.1 = w)
  /\ (forall e,
        validation.2 = Some e ->
        solve_route_in_parallel RT_PROPS RT_PROPS_SET_BY_TOOL format_exc arcpy
                                completions self w
        = (self,
           {| catalog := catalog w;
              stdout := stdout w ++ "ERROR | Error initializing Route analysis."
                                 :: ((fun err => "ERROR | " +:+ err) <$> format_exc e) |},
           Some e))
  /\ (forall e rt,
        Route.__init__ arcpy (rt_inputs self) = Ret rt ->
        fault arcpy NewRouteSolver = None ->
        setattr_fault arcpy "travelMode" (kw_travel_mode (rt_inputs self)) = Some e ->
        validation.2 = Some e).
Proof.
  intros validation. subst validation.
  unfold solve_route_in_parallel, _validate_route_settings.
  rewrite ?LOGGER_DEBUG.
  assert (forall e,
    log_traceback format_exc e (LOGGER ERROR "Error initializing Route analysis." w)
    = {| catalog := catalog w;
         stdout := stdout w ++ "ERROR | Error initializing Route analysis."
                            :: ((fun err => "ERROR | " +:+ err) <$> format_exc e) |}) as Hlog.
  { intros e. rewrite log_traceback_stdout, LOGGER_stdout by done. simpl.
    by rewrite <- (assoc_L (++)). }
  split; [|split].
  - destruct (Route.__init__ arcpy (rt_inputs self)) as [rt|e]; [|done].
    destruct (initialize_rt_solver _ _ arcpy rt); [|done].
    by rewrite ?LOGGER_DEBUG.
  - intros e. destruct (Route.__init__ arcpy (rt_inputs self)) as [rt|e0].
    + destruct (initialize_rt_solver _ _ arcpy rt) as [rt'|e1].
      * by rewrite ?LOGGER_DEBUG.
      * rewrite ?LOGGER_DEBUG. cbn [fst snd]. intros [= ->]. by rewrite Hlog.
    + cbn [fst snd]. intros [= ->]. by rewrite Hlog.
  - intros e rt Hinit Hnew Hmode. rewrite Hinit.
    assert (kwargs rt = rt_inputs self) as Hkw.
    { revert Hinit. unfold Route.__init__.
      destruct (call arcpy OsMkdir); [|done]. simpl.
      destruct (if is_nds_service _ then _ else _); [|done]. simpl. by intros [= <-]. }
    unfold initialize_rt_solver, call, setattr. rewrite Hnew. simpl.
    rewrite Hkw, Hmode. simpl. by rewrite ?LOGGER_DEBUG.
Qed.

(** X11. While the results are retrieved, one progress line is written per
    completed job, numbered from the count so far and giving the total.
    Nothing else is written: at [LOG_LEVEL] INFO a solve that failed leaves
    no line on stdout. *)
Theorem drain_progress_lines (results : list JobResult) (completed_jobs : Z)
        (self : Calculator.t) (w : World) :
  stdout (drain format_exc (Ret <$> results) completed_jobs self w).1.2
  = stdout w
      ++ ((fun k : nat =>
             "INFO | Finished Route calculation " +:+ pretty (completed_jobs + Z.of_nat k)
               +:+ " of " +:+ pretty (total_jobs self) +:+ ".")
            <$> seq 1 (length results)).
Proof.
  revert completed_jobs self w.
  induction results as [|result rest IH]; intros completed_jobs self w.
  - simpl. by rewrite (right_id_L [] (++)).
  - rewrite fmap_cons. cbn [drain]. rewrite LOGGER_stdout by done. rewrite !LOGGER_DEBUG.
    assert (forall self',
      total_jobs self' = total_jobs self ->
      stdout (drain format_exc (Ret <$> rest) (completed_jobs + 1) self'
                {| catalog := catalog w;
                   stdout := stdout w
                     ++ [levelname INFO +:+ MSG_STR_SPLITTER
                           +:+ "Finished Route calculation " +:+ pretty (completed_jobs + 1)
                           +:+ " of " +:+ pretty (total_jobs self) +:+ "."] |}).1.2
      = stdout w
        ++ ((fun k : nat =>
               "INFO | Finished Route calculation " +:+ pretty (completed_jobs + Z.of_nat k)
                 +:+ " of " +:+ pretty (total_jobs self) +:+ ".")
              <$> seq 1 (length (result :: rest)))) as Hrest.
    { intros self' Htotal. rewrite IH, Htotal. cbn [stdout length seq fmap list_fmap].
      rewrite <- (assoc_L (++)). f_equal. cbn [app]. f_equal.
      rewrite <- (fmap_S_seq 1), <- list_fmap_compose.
      apply list_fmap_ext. intros i k _. simpl.
      by replace (completed_jobs + 1 + Z.of_nat k) with (completed_jobs + Z.pos (Pos.of_succ_nat k))
        by lia. }
    destruct (solveSucceeded result); by apply Hrest.
Qed.

Lemma drain_frame completions completed_jobs self w :
  catalog (drain format_exc completions completed_jobs self w).1.2 = catalog w
  /\ out_routes (drain format_exc completions completed_jobs self w).1.1 = out_routes self
  /\ scratch_folder (drain format_exc completions completed_jobs self w).1.1
     = scratch_folder self.
Proof.
  revert completed_jobs self w.
  induction completions as [|future rest IH]; intros completed_jobs self w; [done|].
  cbn [drain]. destruct future as [result|e].
  - destruct (solveSucceeded result).
    + destruct (IH (completed_jobs + 1)
                   (with_route_fcs (route_fcs self ++ [outputRoutes result]) self)
                   (LOGGER INFO ("Finished Route calculation " +:+ pretty (completed_jobs + 1)
                                   +:+ " of " +:+ pretty (total_jobs self) +:+ ".") w))
        as (-> & -> & ->).
      by rewrite LOGGER_catalog.
    + rewrite !LOGGER_DEBUG.
      destruct (IH (completed_jobs + 1) self
                   (LOGGER INFO ("Finished Route calculation " +:+ pretty (completed_jobs + 1)
                                   +:+ " of " +:+ pretty (total_jobs self) +:+ ".") w))
        as (-> & -> & ->).
      by rewrite LOGGER_catalog.
  - cbn [fst snd]. by rewrite log_traceback_catalog, !LOGGER_catalog.
Qed.

Lemma append_route_fcs_frame out field_names todo c p :
  p <> out -> (append_route_fcs out field_names todo c).1 !! p = c !! p.
Proof.
  intros Hne. revert c. induction todo as [|fc rest IH]; intros c; [done|].
  cbn [append_route_fcs]. destruct (SearchCursor c fc field_names); [|done].
  rewrite IH. by rewrite lookup_alter_ne.
Qed.

Lemma _post_process_route_fcs_frame self c p :
  p <> out_routes self -> (_post_process_route_fcs self c).1 !! p = c !! p.
Proof.
  intros Hne. unfold _post_process_route_fcs.
  destruct (route_fcs self); [done|]. destruct (describe c _); [|done].
  rewrite append_route_fcs_frame by done. by rewrite lookup_insert_ne.
Qed.

Lemma rmtree_outside folder c p :
  String.prefix (OsPath.join folder "") p = false -> rmtree folder c !! p = c !! p.
Proof.
  intros Hout. unfold rmtree. destruct (c !! p) as [fc|] eqn:Hp.
  - apply map_lookup_filter_Some_2; [done|]. simpl. by rewrite Hout.
  - apply map_lookup_filter_None_2. by left.
Qed.

Lemma rmtree_under folder c p :
  String.prefix (OsPath.join folder "") p = true -> rmtree folder c !! p = None.
Proof.
  intros Hunder. unfold rmtree. apply map_lookup_filter_None_2. right.
  intros fc _ Hn. by apply Hn.
Qed.

Lemma run_catalog arcpy completions self w :
  let run := solve_route_in_parallel RT_PROPS RT_PROPS_SET_BY_TOOL format_exc arcpy
                                     completions self w in
  exists c,
    (forall p, p <> out_routes self -> c !! p = catalog w !! p)
    /\ catalog run.1.2 = match run.2 with
                         | Some _ => c
                         | None => rmtree (scratch_folder self) c
                         end.
Proof.
  intros run. subst run. unfold solve_route_in_parallel.
  pose proof (_validate_route_settings_catalog RT_PROPS RT_PROPS_SET_BY_TOOL format_exc
                arcpy self w) as Hcat0.
  destruct (_validate_route_settings _ _ _ arcpy self w) as [w0 [e|]]; simpl in Hcat0.
  { exists (catalog w). split; [done|]. cbn [fst snd]. by rewrite Hcat0. }
  destruct (_populate_frame self w0) as (Hcat1 & _ & Hout1 & Hscratch1 & _).
  destruct (_populate_input_data_transfer_fields self w0) as [self1 w1].
  simpl in Hcat1, Hout1, Hscratch1.
  destruct (drain_frame completions 0 self1 w1) as (Hcat2 & Hout2 & Hscratch2).
  destruct (drain format_exc completions 0 self1 w1) as [[self2 w2] [e|]];
    simpl in Hcat2, Hout2, Hscratch2.
  { exists (catalog w). split; [done|]. cbn [fst snd]. by rewrite Hcat2, Hcat1, Hcat0. }
  assert (catalog w2 = catalog w) as Hcat by (by rewrite Hcat2, Hcat1, Hcat0).
  assert (out_routes self2 = out_routes self) as Hout by (by rewrite Hout2, Hout1).
  assert (scratch_folder self2 = scratch_folder self) as Hscratch
      by (by rewrite Hscratch2, Hscratch1).
  case_bool_decide as Hfcs.
  - exists (catalog w). split; [done|].
    cbn [fst snd]. unfold DELETE_INTERMEDIATE_OUTPUTS.
    repeat first [rewrite LOGGER_catalog | progress cbn [catalog with_catalog]].
    by rewrite Hscratch, Hcat.
  - rewrite (LOGGER_catalog INFO "Post-processing Route results..." w2), Hcat.
    exists (_post_process_route_fcs (with_route_fcs (sorted (route_fcs self2)) self2)
                                    (catalog w)).1.
    split.
    { intros p Hne. apply _post_process_route_fcs_frame.
      cbn [out_routes with_route_fcs]. by rewrite Hout. }
    destruct (_post_process_route_fcs _ _) as [c [e|]]; cbn [fst snd] in *; [done|].
    unfold DELETE_INTERMEDIATE_OUTPUTS.
    repeat first [rewrite LOGGER_catalog
                 | progress cbn [catalog with_catalog scratch_folder with_route_fcs]].
    by rewrite Hscratch.
Qed.

(** X12. [solve_route_in_parallel] leaves alone every feature class other
    than [out_routes] that does not lie under the scratch folder, however
    the run ends; and a run that raises deletes nothing: every feature class
    other than [out_routes] is as it was, the intermediate outputs under the
    scratch folder included. *)
Theorem solve_route_in_parallel_frame (arcpy : Arcpy) (completions : list (Res JobResult))
        (self : Calculator.t) (w : World) (p : string) :
  p <> out_routes self ->
  let run := solve_route_in_parallel RT_PROPS RT_PROPS_SET_BY_TOOL format_exc arcpy
                                     completions self w in
  (String.prefix (OsPath.join (scratch_folder self) "") p = false ->
   catalog run.1.2 !! p = catalog w !! p)
  /\ (is_Some run.2 -> catalog run.1.2 !! p = catalog w !! p).
Proof.
  intros Hne run. subst run.
  destruct (run_catalog arcpy completions self w) as (c & Hc & ->).
  destruct (solve_route_in_parallel _ _ _ _ _ _ _).2 as [e|].
  - split; intros _; by apply Hc.
  - split.
    + intros Houtside. rewrite rmtree_outside by done. by apply Hc.
    + by intros [? ?].
Qed.

(** X13. After a run that returns, nothing is left under the scratch
    folder ([shutil.rmtree] taken to remove what lies under it).  This holds
    for every path, [out_routes] included. *)
Theorem solve_route_in_parallel_cleanup (arcpy : Arcpy) (completions : list (Res JobResult))
        (self : Calculator.t) (w : World) (p : string) :
  let run := solve_route_in_parallel RT_PROPS RT_PROPS_SET_BY_TOOL format_exc arcpy
                                     completions self w in
  run.2 = None ->
  String.prefix (OsPath.join (scratch_folder self) "") p = true ->
  catalog run.1.2 !! p = None.
Proof.
  intros run Hdone Hunder. subst run.
  destruct (run_catalog arcpy completions self w) as (c & _ & ->).
  rewrite Hdone. by apply rmtree_under.
Qed.

Lemma _post_process_route_fcs_merged self c schema fcs :
  out_routes self ∉ route_fcs self -> route_fcs self <> [] ->
  valid_schema schema ->
  Forall2 (job_output c schema) (route_fcs self) fcs ->
  exists merged,
    _post_process_route_fcs self c = (<[out_routes self := merged]> c, None)
    /\ fields merged = schema /\ rows merged = mjoin (rows <$> fcs).
Proof.
  intros Hnotin Hsome [Hnd Hshape] Hall.
  unfold _post_process_route_fcs.
  destruct (route_fcs self) as [|template rest] eqn:Hfcs; [done|].
  destruct fcs as [|desc fcs]; [by inversion Hall|].
  pose proof Hall as Hall'.
  apply Forall2_cons_1 in Hall' as [(Hdesc & Hschema & _) _]. subst schema.
  unfold describe. rewrite Hdesc.
  fold (cursor_fields desc).
  set (out := {| fields := fields desc; spatialReference := spatialReference desc;
                 rows := [] |}).
  rewrite (append_route_fcs_spec (out_routes self) desc (template :: rest) (desc :: fcs)
             (<[out_routes self := out]> c) out); try done.
  - rewrite insert_insert_eq. eexists. split; [reflexivity|]. done.
  - by apply job_output_insert_ne.
  - by rewrite lookup_insert_eq.
Qed.

(** X14. A run whose settings validate, all of whose results are retrieved
    and at least one of whose solves succeeded, the successful outputs being
    feature classes of one schema, returns without error.  The feature class
    written at [out_routes] has that schema and the rows of the successful
    outputs, taken in the sorted order of their paths.  After the clean-up it
    is in the catalog when [out_routes] lies outside the scratch folder, and
    it has been deleted with the intermediate outputs when [out_routes] lies
    under it. *)
Theorem solve_route_in_parallel_merges (arcpy : Arcpy) (results : list JobResult)
        (self : Calculator.t) (w : World) (schema : list Field) (fcs : list FeatureClass) :
  (_validate_route_settings RT_PROPS RT_PROPS_SET_BY_TOOL format_exc arcpy self w).2 = None ->
  route_fcs self = [] ->
  succeeded_outputs results <> [] ->
  valid_schema schema ->
  Forall2 (job_output (catalog w) schema) (sorted (succeeded_outputs results)) fcs ->
  out_routes self ∉ succeeded_outputs results ->
  exists self' w' merged,
    solve_route_in_parallel RT_PROPS RT_PROPS_SET_BY_TOOL format_exc arcpy
                            (Ret <$> results) self w
    = (self', w', None)
    /\ fields merged = schema
    /\ rows merged = mjoin (rows <$> fcs)
    /\ catalog w'
       = rmtree (scratch_folder self) (<[out_routes self := merged]> (catalog w))
    /\ (String.prefix (OsPath.join (scratch_folder self) "") (out_routes self) = false ->
        catalog w' !! out_routes self = Some merged)
    /\ (String.prefix (OsPath.join (scratch_folder self) "") (out_routes self) = true ->
        catalog w' !! out_routes self = None).
Proof.
  intros Hvalid Hfresh Hsome Hschema Hall Hnotin. unfold solve_route_in_parallel.
  pose proof (_validate_route_settings_catalog RT_PROPS RT_PROPS_SET_BY_TOOL format_exc
                arcpy self w) as Hcat0.
  destruct (_validate_route_settings _ _ _ arcpy self w) as [w0 raised].
  simpl in Hvalid, Hcat0. subst raised.
  destruct (_populate_frame self w0) as (Hcat1 & Hfcs1 & Hout1 & Hscratch1 & _).
  destruct (_populate_input_data_transfer_fields self w0) as [self1 w1].
  simpl in Hcat1, Hfcs1, Hout1, Hscratch1.
  destruct (drain_retrieved format_exc results 0 self1 w1) as (w2 & -> & Hcat2 & _).
  rewrite Hfcs1, Hfresh. cbn [app route_fcs with_route_fcs].
  rewrite bool_decide_eq_false_2 by done.
  rewrite LOGGER_catalog, Hcat2, Hcat1, Hcat0.
  set (self2 := with_route_fcs (sorted (succeeded_outputs results))
                               (with_route_fcs (succeeded_outputs results) self1)).
  destruct (_post_process_route_fcs_merged self2 (catalog w) schema fcs)
    as (merged & -> & Hfields & Hrows).
  - cbn [out_routes route_fcs self2 with_route_fcs]. rewrite Hout1.
    unfold sorted. by rewrite merge_sort_Permutation.
  - cbn [route_fcs self2 with_route_fcs]. intros Hnil. apply Hsome.
    apply Permutation_nil_r. rewrite <- Hnil. unfold sorted.
    by rewrite merge_sort_Permutation.
  - done.
  - done.
  - eexists _, _, merged. split; [reflexivity|].
    unfold DELETE_INTERMEDIATE_OUTPUTS.
    repeat first [rewrite LOGGER_catalog
                 | progress cbn [catalog with_catalog scratch_folder out_routes self2
                                   with_route_fcs]].
    rewrite Hscratch1, Hout1.
    split; [done|]. split; [done|]. split; [done|]. split.
    + intros Houtside. rewrite rmtree_outside by done. by rewrite lookup_insert_eq.
    + intros Hunder. by apply rmtree_under.
Qed.

End Run.


Lemma transfer_fields_supported_witness :
  kw_origin_transfer_fields
    (rt_inputs (_populate_input_data_transfer_fields calc_ok
                  {| catalog := ∅; stdout := [] |}).1)
  = ["CurbApproach"].
Proof.
  rewrite (proj1 (transfer_fields_supported calc_ok {| catalog := ∅; stdout := [] |})).
  vm_compute. reflexivity.
Defined.

Lemma drain_progress_lines_witness :
  stdout (drain (fun _ => []) (Ret <$> [job_done id_a (1, 2); job_failed id_b]) 0 calc_ok
                {| catalog := ∅; stdout := [] |}).1.2
  = ["INFO | Finished Route calculation 1 of 2.";
     "INFO | Finished Route calculation 2 of 2."].
Proof.
  rewrite (drain_progress_lines (fun _ => []) [job_done id_a (1, 2); job_failed id_b] 0
             calc_ok {| catalog := ∅; stdout := [] |}).
  vm_compute. reflexivity.
Defined.

Lemma validation_gates_the_run_witness :
  (solve_route_in_parallel rt_props_ok [] (fun _ => ["Traceback (most recent call last):"])
                           arcpy_bad_mode [Ret (job_done id_a (1, 2))] calc_ok
                           {| catalog := ∅; stdout := [] |}).1.2
  = {| catalog := ∅;
       stdout := ["ERROR | Error initializing Route analysis.";
                  "ERROR | Traceback (most recent call last):"] |}.
Proof.
  rewrite (proj1 (proj2 (validation_gates_the_run
                           rt_props_ok [] (fun _ => ["Traceback (most recent call last):"])
                           arcpy_bad_mode [Ret (job_done id_a (1, 2))] calc_ok
                           {| catalog := ∅; stdout := [] |}))
             (ValueError "Invalid travel mode")).
  - reflexivity.
  - reflexivity.
Defined.

Lemma solve_route_in_parallel_frame_witness :
  catalog (solve_route_in_parallel rt_props_ok ["timeUnits"] (fun _ => ["Traceback"]) arcpy_ok
             ([Ret (job_done id_a (1, 2)); Raise (BrokenProcessPool "terminated abruptly")])
             calc_ok (batch_world [id_a; id_b])).1.2
    !! outputRoutes (job_done id_a (1, 2))
  = Some (chunk_output (1, 2)).
Proof.
  assert (outputRoutes (job_done id_a (1, 2)) <> out_routes calc_ok) as Hne
      by (vm_compute; discriminate).
  rewrite (proj2 (solve_route_in_parallel_frame
                    rt_props_ok ["timeUnits"] (fun _ => ["Traceback"]) arcpy_ok
                    ([Ret (job_done id_a (1, 2)); Raise (BrokenProcessPool "terminated abruptly")])
                    calc_ok (batch_world [id_a; id_b])
                    (outputRoutes (job_done id_a (1, 2))) Hne)).
  - reflexivity.
  - vm_compute. by eexists.
Defined.

Lemma solve_route_in_parallel_cleanup_witness :
  catalog (batch_run [id_a; id_b]).1.2 !! outputRoutes (job_done id_a (1, 2)) = None.
Proof.
  apply (solve_route_in_parallel_cleanup rt_props_ok ["timeUnits"] (fun _ => []) arcpy_ok
           (Ret <$> batch_results [id_a; id_b]) calc_ok (batch_world [id_a; id_b])).
  - vm_compute. reflexivity.
  - vm_compute. reflexivity.
Defined.

Lemma solve_route_in_parallel_merges_witness :
  exists self' w' merged,
    batch_run [id_a; id_b] = (self', w', None)
    /\ catalog w' !! out_routes calc_ok = Some merged
    /\ length (rows merged) = 4%nat.
Proof.
  destruct (solve_route_in_parallel_merges rt_props_ok ["timeUnits"] (fun _ => []) arcpy_ok
              (batch_results [id_a; id_b]) calc_ok (batch_world [id_a; id_b])
              routes_schema [chunk_output (1, 2); chunk_output (3, 4)])
    as (self' & w' & merged & Hrun & _ & Hrows & _ & Hout & _).
  - reflexivity.
  - reflexivity.
  - vm_compute. discriminate.
  - split; [|vm_compute; intros Hin; repeat (apply elem_of_cons in Hin as [Hin|Hin]; [discriminate|]); by apply elem_of_nil in Hin].
    vm_compute. repeat constructor; intros Hin;
      repeat (apply elem_of_cons in Hin as [Hin|Hin]; [discriminate|]);
      by apply elem_of_nil in Hin.
  - vm_compute. repeat constructor.
  - vm_compute. intros Hin.
    repeat (apply elem_of_cons in Hin as [Hin|Hin]; [discriminate|]).
    by apply elem_of_nil in Hin.
  - exists self', w', merged. split; [exact Hrun|]. split; [by apply Hout|].
    by rewrite Hrows.
Defined.

End CalculatorRunFacts.

(** ** The helpers of the tool *)

Module HelperToolsFacts.
Import Helpers Route Calculator HelperTools StringFacts HelpersFacts.

(** X15. [convert_time_units_str_to_enum] accepts exactly the four unit
    names, in any capitalisation.  A string whose lower case is that of a
    unit's name gives that unit and writes nothing; every other string is
    reported to the window as given, after [Invalid time units: ], and
    [ValueError] is raised with the same text.  Stated for ASCII text, on
    which [lower] is [str.lower]. *)
Theorem convert_time_units_str_to_enum_decides (time_units : string) (ui : GPWindow) :
  is_ascii time_units = true ->
  (forall u,
      lower time_units = lower (TimeUnits_name u) ->
      convert_time_units_str_to_enum time_units ui = (ui, Ret u))
  /\ ((forall u, lower time_units <> lower (TimeUnits_name u)) ->
      convert_time_units_str_to_enum time_units ui
      = (ui ++ [(GPError, "Invalid time units: " +:+ time_units)],
         Raise (ValueError ("Invalid time units: " +:+ time_units)))).
Proof.
  intros _. split.
  - intros u Hu. unfold convert_time_units_str_to_enum.
    destruct u; simpl in Hu; rewrite Hu; reflexivity.
  - intros Hnone. unfold convert_time_units_str_to_enum.
    rewrite !bool_decide_eq_false_2; [done|..].
    + apply (Hnone Days).
    + apply (Hnone Hours).
    + apply (Hnone Seconds).
    + apply (Hnone Minutes).
Qed.

Lemma convert_time_units_str_to_enum_decides_witness :
  convert_time_units_str_to_enum "MINUTES" [] = ([], Ret Minutes)
  /\ convert_time_units_str_to_enum "BadUnit" []
     = ([(GPError, "Invalid time units: BadUnit")],
        Raise (ValueError "Invalid time units: BadUnit")).
Proof.
  split.
  - apply (proj1 (convert_time_units_str_to_enum_decides "MINUTES" [] eq_refl)).
    reflexivity.
  - apply (proj2 (convert_time_units_str_to_enum_decides "BadUnit" [] eq_refl)).
    intros u. destruct u; vm_compute; discriminate.
Defined.

(** X16. [convert_distance_units_str_to_enum] accepts the six unit names in
    any capitalisation, and nautical miles also written as two words.  Every
    other string is reported to the window as given, after
    [Invalid distance units: ], and [ValueError] is raised with the same
    text.  Stated for ASCII text, on which [lower] is [str.lower]. *)
Theorem convert_distance_units_str_to_enum_decides (distance_units : string) (ui : GPWindow) :
  is_ascii distance_units = true ->
  (forall u,
      lower distance_units ∈ DistanceUnits_spellings u ->
      convert_distance_units_str_to_enum distance_units ui = (ui, Ret u))
  /\ ((forall u, lower distance_units ∉ DistanceUnits_spellings u) ->
      convert_distance_units_str_to_enum distance_units ui
      = (ui ++ [(GPError, "Invalid distance units: " +:+ distance_units)],
         Raise (ValueError ("Invalid distance units: " +:+ distance_units)))).
Proof.
  intros _. split.
  - intros u Hu. unfold convert_distance_units_str_to_enum.
    destruct u; simpl in Hu;
      repeat (apply elem_of_cons in Hu as [Hu|Hu]; [rewrite Hu; reflexivity|]);
      by apply elem_of_nil in Hu.
  - intros Hnone. unfold convert_distance_units_str_to_enum.
    assert (forall u spelling, spelling ∈ DistanceUnits_spellings u ->
                               lower distance_units <> spelling) as Hne.
    { intros u spelling Hin Heq. apply (Hnone u). by rewrite Heq. }
    rewrite !bool_decide_eq_false_2; [done|..].
    + apply (Hne NauticalMiles). apply list_elem_of_further, list_elem_of_here.
    + apply (Hne NauticalMiles), list_elem_of_here.
    + apply (Hne Yards), list_elem_of_here.
    + apply (Hne Feet), list_elem_of_here.
    + apply (Hne Meters), list_elem_of_here.
    + apply (Hne Kilometers), list_elem_of_here.
    + apply (Hne Miles), list_elem_of_here.
Qed.

Lemma convert_distance_units_str_to_enum_decides_witness :
  convert_distance_units_str_to_enum "Nautical Miles" [] = ([], Ret NauticalMiles).
Proof.
  apply (proj1 (convert_distance_units_str_to_enum_decides "Nautical Miles" [] eq_refl)).
  apply list_elem_of_further, list_elem_of_here.
Defined.

(** X17. [convert_output_format_str_to_enum] accepts the three format labels
    in any capitalisation and reports and raises on every other string.  In
    particular every entry of [OUTPUT_FORMATS], for any installed version,
    converts to the format it stands for.  Stated for ASCII text. *)
Theorem convert_output_format_str_to_enum_decides (output_format : string) (ui : GPWindow) :
  is_ascii output_format = true ->
  (forall f,
      lower output_format = lower (OutputFormat_label f) ->
      convert_output_format_str_to_enum output_format ui = (ui, Ret f))
  /\ ((forall f, lower output_format <> lower (OutputFormat_label f)) ->
      convert_output_format_str_to_enum output_format ui
      = (ui ++ [(GPError, "Invalid output format: " +:+ output_format)],
         Raise (ValueError ("Invalid output format: " +:+ output_format))))
  /\ (forall arcgis_version,
        output_format ∈ OUTPUT_FORMATS arcgis_version ->
        exists f, convert_output_format_str_to_enum output_format ui = (ui, Ret f)
                  /\ OutputFormat_label f = output_format).
Proof.
  intros _. split; [|split].
  - intros f Hf. unfold convert_output_format_str_to_enum.
    destruct f; simpl in Hf; rewrite Hf; reflexivity.
  - intros Hnone. unfold convert_output_format_str_to_enum.
    rewrite !bool_decide_eq_false_2; [done|..].
    + apply (Hnone arrow).
    + apply (Hnone csv).
    + apply (Hnone featureclass).
  - intros version Hin. unfold OUTPUT_FORMATS in Hin.
    apply elem_of_app in Hin as [Hin|Hin].
    + apply elem_of_cons in Hin as [->|Hin]; [by exists featureclass|].
      apply list_elem_of_singleton in Hin as ->. by exists csv.
    + case_bool_decide; [|by apply elem_of_nil in Hin].
      apply list_elem_of_singleton in Hin as ->. by exists arrow.
Qed.

Lemma convert_output_format_str_to_enum_decides_witness :
  convert_output_format_str_to_enum "CSV Files" [] = ([], Ret csv).
Proof.
  apply (proj1 (convert_output_format_str_to_enum_decides "CSV Files" [] eq_refl)).
  reflexivity.
Defined.

(** X18. The test [arcgis_version >= 2.9] of the module compares strings,
    character by character: the Arrow format is offered exactly when the
    version string is not below the string 2.9.  So a version whose first
    character is below 2, as in 10.8 or 11.0, is not offered it whatever
    follows, and a version whose first character is above 2 is. *)
Theorem OUTPUT_FORMATS_version_gate (c : ascii) (rest : string) :
  ("Apache Arrow files" ∈ OUTPUT_FORMATS (String c rest)
   <-> String.le "2.9" (String c rest))
  /\ ((N_of_ascii c < N_of_ascii "2")%N ->
      "Apache Arrow files" ∉ OUTPUT_FORMATS (String c rest))
  /\ ((N_of_ascii "2" < N_of_ascii c)%N ->
      "Apache Arrow files" ∈ OUTPUT_FORMATS (String c rest)).
Proof.
  assert ("Apache Arrow files" ∈ OUTPUT_FORMATS (String c rest)
          <-> String.le "2.9" (String c rest)) as Hiff.
  { unfold OUTPUT_FORMATS. case_bool_decide as Hle.
    - split; [done|]. intros _. apply elem_of_app. right. apply list_elem_of_here.
    - split; [|done]. intros Hin. apply elem_of_app in Hin as [Hin|Hin].
      + repeat (apply elem_of_cons in Hin as [Hin|Hin]; [discriminate|]).
        by apply elem_of_nil in Hin.
      + by apply elem_of_nil in Hin. }
  split; [done|]. split.
  - intros Hlt. rewrite Hiff, CalculatorFacts.le_compare.
    change (String.compare "2.9" (String c rest))
      with (match Ascii.compare "2" c with
            | Eq => String.compare ".9" rest | o => o end).
    unfold Ascii.compare. apply N.compare_gt_iff in Hlt. rewrite Hlt. by intros Hne.
  - intros Hgt. rewrite Hiff, CalculatorFacts.le_compare.
    change (String.compare "2.9" (String c rest))
      with (match Ascii.compare "2" c with
            | Eq => String.compare ".9" rest | o => o end).
    unfold Ascii.compare. apply N.compare_lt_iff in Hgt. by rewrite Hgt.
Qed.

Lemma OUTPUT_FORMATS_version_gate_witness :
  ("Apache Arrow files" ∉ OUTPUT_FORMATS "11.0")
  /\ "Apache Arrow files" ∈ OUTPUT_FORMATS "3.1".
Proof.
  split.
  - apply (proj1 (proj2 (OUTPUT_FORMATS_version_gate "1" "1.0"))). reflexivity.
  - apply (proj2 (proj2 (OUTPUT_FORMATS_version_gate "3" ".1"))). reflexivity.
Defined.

(** X19. [validate_input_feature_class] returns exactly when the dataset
    exists and has a row, and then writes nothing.  A missing dataset and an
    empty one are each reported to the window and raised as [ValueError]
    with the same text, naming the dataset. *)
Theorem validate_input_feature_class_decides (c : gmap string FeatureClass)
        (feature_class : string) (ui : GPWindow) :
  ((validate_input_feature_class c feature_class ui).2 = Ret tt
   <-> exists fc, c !! feature_class = Some fc /\ rows fc <> [])
  /\ (forall fc, c !! feature_class = Some fc -> rows fc <> [] ->
                 validate_input_feature_class c feature_class ui = (ui, Ret tt))
  /\ (c !! feature_class = None ->
      validate_input_feature_class c feature_class ui
      = (ui ++ [(GPError, "Input dataset " +:+ feature_class +:+ " does not exist.")],
         Raise (ValueError ("Input dataset " +:+ feature_class +:+ " does not exist."))))
  /\ (forall fc, c !! feature_class = Some fc -> rows fc = [] ->
                 validate_input_feature_class c feature_class ui
                 = (ui ++ [(GPError, "Input dataset " +:+ feature_class +:+ " has no rows.")],
                    Raise (ValueError ("Input dataset " +:+ feature_class +:+ " has no rows.")))).
Proof.
  assert (forall fc, c !! feature_class = Some fc -> rows fc <> [] ->
                     validate_input_feature_class c feature_class ui = (ui, Ret tt)) as Hok.
  { intros fc Hfc Hrows. unfold validate_input_feature_class. rewrite Hfc.
    rewrite bool_decide_eq_false_2; [done|].
    destruct (rows fc); [done|]. simpl. lia. }
  assert (forall fc, c !! feature_class = Some fc -> rows fc = [] ->
                     validate_input_feature_class c feature_class ui
                     = invalid ("Input dataset " +:+ feature_class +:+ " has no rows.") ui)
    as Hempty.
  { intros fc Hfc Hrows. unfold validate_input_feature_class. by rewrite Hfc, Hrows. }
  assert (c !! feature_class = None ->
          validate_input_feature_class c feature_class ui
          = invalid ("Input dataset " +:+ feature_class +:+ " does not exist.") ui)
    as Habsent.
  { intros Hfc. unfold validate_input_feature_class. by rewrite Hfc. }
  split; [|by split; [|split]].
  split.
  - intros Hret. destruct (c !! feature_class) as [fc|] eqn:Hfc.
    + exists fc. split; [done|]. intros Hrows.
      by rewrite (Hempty fc eq_refl Hrows) in Hret.
    + by rewrite (Habsent eq_refl) in Hret.
  - intros (fc & Hfc & Hrows). by rewrite (Hok fc Hfc Hrows).
Qed.

Lemma validate_input_feature_class_decides_witness :
  validate_input_feature_class {[ "C:\in.gdb\Origins" := Samples.chunk_output (1, 2) ]}
                               "C:\in.gdb\Origins" []
  = ([], Ret tt).
Proof.
  apply (proj1 (proj2 (validate_input_feature_class_decides
                         {[ "C:\in.gdb\Origins" := Samples.chunk_output (1, 2) ]}
                         "C:\in.gdb\Origins" []))
           (Samples.chunk_output (1, 2))).
  - reflexivity.
  - discriminate.
Defined.

(** X20. [precalculate_network_locations] first announces the input, then
    builds the tool's arguments from the configuration.  The search query is
    read under the key [search_query]: an entry under [searchQuery], the
    name the docstring uses, changes nothing.  The search tolerance is None
    unless both [searchTolerance] and [searchToleranceUnits] are present, in
    which case it is the tolerance, a space and the name of the units; a
    units value without a name raises after the announcement. *)
Theorem precalculate_network_locations_settings (name_of : Value -> Res string)
        (input_features network_data_source : string) (travel_mode : Value)
        (config_file_props : gmap string Value) (ui : GPWindow) :
  let run config :=
    precalculate_network_locations name_of input_features network_data_source travel_mode
                                   config ui in
  let announced :=
    ui ++ [(GPInfo, "Precalculating network location fields for " +:+ input_features +:+ "...")] in
  let tool tolerance :=
    {| in_point_features := input_features; in_network_dataset := network_data_source;
       search_tolerance := tolerance;
       search_query := default VNone (config_file_props !! "search_query");
       cl_travel_mode := travel_mode |} in
  (forall query, run (<["searchQuery" := query]> config_file_props) = run config_file_props)
  /\ (config_file_props !! "searchTolerance" = None
      \/ config_file_props !! "searchToleranceUnits" = None ->
      run config_file_props = (announced, Ret (tool VNone)))
  /\ (forall tolerance units,
        config_file_props !! "searchTolerance" = Some tolerance ->
        config_file_props !! "searchToleranceUnits" = Some units ->
        (forall name, name_of units = Ret name ->
                      run config_file_props
                      = (announced, Ret (tool (VStr (fstr tolerance +:+ " " +:+ name)))))
        /\ (forall e, name_of units = Raise e -> run config_file_props = (announced, Raise e))).
Proof.
  intros run announced tool. subst run announced tool. cbv beta.
  unfold precalculate_network_locations. split; [|split].
  - intros query. by rewrite !lookup_insert_ne.
  - intros [Hnone|Hnone]; rewrite Hnone; [done|].
    by destruct (config_file_props !! "searchTolerance").
  - intros tolerance units -> ->. split.
    + by intros name ->.
    + by intros e ->.
Qed.

Lemma precalculate_network_locations_settings_witness :
  (precalculate_network_locations
     (fun _ => Ret "Meters") "C:\in.gdb\Origins" "C:\nd.gdb\Streets_ND"
     (VStr "Driving Time")
     {[ "searchTolerance" := VInt 5000; "searchToleranceUnits" := VObj "DistanceUnits.Meters";
        "searchQuery" := VStr "x" ]} []).2
  = Ret {| in_point_features := "C:\in.gdb\Origins";
           in_network_dataset := "C:\nd.gdb\Streets_ND";
           search_tolerance := VStr "5000 Meters"; search_query := VNone;
           cl_travel_mode := VStr "Driving Time" |}.
Proof.
  pose proof (proj1 (proj2 (proj2 (precalculate_network_locations_settings
    (fun _ => Ret "Meters") "C:\in.gdb\Origins" "C:\nd.gdb\Streets_ND"
    (VStr "Driving Time")
    {[ "searchTolerance" := VInt 5000; "searchToleranceUnits" := VObj "DistanceUnits.Meters";
       "searchQuery" := VStr "x" ]} []))
    (VInt 5000) (VObj "DistanceUnits.Meters") eq_refl eq_refl) "Meters" eq_refl) as Hrun.
  cbv beta in Hrun. by rewrite Hrun.
Defined.



Lemma split_go_nonempty sep skip cur s : split_go sep skip cur s <> [].
Proof.
  revert skip cur. induction s as [|c s IH]; intros skip cur; [done|].
  cbn [split_go]. destruct skip as [|k]; [|apply IH].
  destruct (String.prefix sep (String c s)); [done|apply IH].
Qed.

(** X22. A line with a second separator is not split into level and
    message: whatever its level, even ERROR, the whole line is written as a
    plain message. *)
Theorem parse_std_and_write_to_gp_ui_second_separator (level msg rest : string)
        (ui : GPWindow) :
  no_bar level = true -> no_bar msg = true ->
  parse_std_and_write_to_gp_ui (level +:+ " | " +:+ msg +:+ " | " +:+ rest) ui
  = Ret (ui ++ [(GPInfo, level +:+ " | " +:+ msg +:+ " | " +:+ rest)]).
Proof.
  intros Hlevel Hmsg. apply parse_other. intros level' msg' Hsplit.
  unfold split in Hsplit.
  change " | " with MSG_STR_SPLITTER in Hsplit.
  rewrite (split_go_level "" level _ Hlevel) in Hsplit.
  rewrite (split_go_level "" msg rest Hmsg) in Hsplit.
  injection Hsplit as _ _ Hrest. by apply split_go_nonempty in Hrest.
Qed.

Lemma parse_std_and_write_to_gp_ui_second_separator_witness :
  parse_std_and_write_to_gp_ui "ERROR | Failed to solve | see the log" []
  = Ret [(GPInfo, "ERROR | Failed to solve | see the log")].
Proof.
  apply (parse_std_and_write_to_gp_ui_second_separator "ERROR" "Failed to solve" "see the log" []);
    reflexivity.
Defined.
End HelperToolsFacts.

(** ** The constructor of the calculator *)

Module CalculatorInitFacts.
Import Helpers Route Calculator HelperTools CalculatorInit.





End CalculatorInitFacts.
